(** * Penman-Monteith reference evapotranspiration (penmon, [eto.py])

    A shallow embedding of the module [eto.py]: the weather [Station], its
    [Climate] and [Crop], the entries [DayEntry] and [HourEntry] derived from
    [TimeEntry], and the properties of the factory methods and of the
    derivation chains.

    Conventions of the embedding.
    - A Python number (int or float) is a real number of [R]; arithmetic is
      exact, so the development speaks about the formulas of the code and not
      about binary64 rounding, NaN or overflow.  [round(x, n)] is the exact
      decimal rounding, ties to even.
    - An attribute that holds a number or [None] is an [option R]; Python
      truthiness ([if self.wind_speed:]) is [truthy].
    - A method that can raise returns a [result]; the exceptions are the
      Python classes the code raises, with the messages of the source.
    - Methods read the owning station through [self.station]; here the
      station is an explicit argument.
    - The two module-level switches [CHECK_RADIATION_RANGE] and
      [CHECK_SUNSHINE_HOURS_RANGE] are the fields of [Globals].
    - Warnings are not modelled, and neither are [X], which reads an
      attribute that does not exist, and the two [describe]. *)

From Stdlib Require Import Reals Lra Lia ZArith String Bool.
From Stdlib Require Import Machin.
From stdpp Require Import base option gmap.

Open Scope R_scope.

(** ** Numbers, truthiness and rounding *)

Definition Rltb (x y : R) : bool := if Rlt_dec x y then true else false.
Definition Rleb (x y : R) : bool := if Rle_dec x y then true else false.
Definition Reqb (x y : R) : bool := if Req_dec_T x y then true else false.

(** [bool(v)] for an attribute that is [None] or a number. *)
Definition truthy (v : option R) : bool :=
  match v with
  | Some x => negb (Reqb x 0)
  | None => false
  end.

(** Nearest integer, ties to the even one. *)
Definition round_half_even (y : R) : Z :=
  let f := Int_part y in
  let d := y - IZR f in
  if Rlt_dec d (1 / 2) then f
  else if Rlt_dec (1 / 2) d then (f + 1)%Z
  else if Z.even f then f else (f + 1)%Z.

(** [round(x, ndigits)] *)
Definition py_round (x : R) (ndigits : nat) : R :=
  IZR (round_half_even (x * 10 ^ ndigits)) / 10 ^ ndigits.

(** [int(x)] of a float: truncation towards zero. *)
Definition py_int (x : R) : Z :=
  if Rlt_dec x 0 then (- Int_part (- x))%Z else Int_part x.

(** ** Exceptions *)

(** The text of an exception: a literal, or a literal followed by [str] of a
    number (and a second literal). *)
Inductive text : Type :=
| Lit (s : string)
| LitNum (s : string) (x : R)
| LitNumLit (s : string) (x : R) (s' : string).

Inductive exn : Type :=
| PyException (m : text)
| ValueError (m : text)
| TypeError (m : text)
| AttributeError (m : text)
| ZeroDivisionError.

Inductive result (A : Type) : Type :=
| Ok (a : A)
| Raise (e : exn).
Arguments Ok {A} a.
Arguments Raise {A} e.

Definition bind {A B : Type} (m : result A) (k : A -> result B) : result B :=
  match m with
  | Ok a => k a
  | Raise e => Raise e
  end.

Notation "x <- m ;; k" := (bind m (fun x => k))
  (at level 100, m at next level, right associativity).

(** Errors raised by the interpreter and by [math]. *)
Definition math_domain_error : exn := ValueError (Lit "math domain error").
Definition none_operand : exn :=
  TypeError (Lit "unsupported operand type(s): 'NoneType'").
Definition complex_round : exn :=
  TypeError (Lit "type complex doesn't define __round__ method").
(** [raise(str(e))]: a string is not an exception, Python 3 raises this. *)
Definition raise_str : exn :=
  TypeError (Lit "exceptions must derive from BaseException").
Definition int_has_no_hour : exn :=
  AttributeError (Lit "'int' object has no attribute 'hour'").

(** A number where [None] would make the arithmetic fail. *)
Definition num (v : option R) : result R :=
  match v with
  | Some x => Ok x
  | None => Raise none_operand
  end.

Definition py_div (x y : R) : result R :=
  if Reqb y 0 then Raise ZeroDivisionError else Ok (x / y).

Definition py_log (x : R) : result R :=
  if Rltb 0 x then Ok (ln x) else Raise math_domain_error.

Definition py_sqrt (x : R) : result R :=
  if Rltb x 0 then Raise math_domain_error else Ok (sqrt x).

Definition py_acos (x : R) : result R :=
  if Rltb x (-1) || Rltb 1 x then Raise math_domain_error else Ok (acos x).

(** [b ** e] for a float exponent [e > 0] that is not an integer: a negative
    base gives a complex number, on which [round] fails. *)
Inductive pyval : Type :=
| Real (x : R)
| Complex.

Definition py_pow (b e : R) : pyval :=
  if Rltb 0 b then Real (Rpower b e)
  else if Reqb b 0 then Real 0
  else Complex.

Definition val_mul (x : R) (v : pyval) : pyval :=
  match v with
  | Real y => Real (x * y)
  | Complex => Complex
  end.

Definition round_val (v : pyval) (ndigits : nat) : result R :=
  match v with
  | Real x => Ok (py_round x ndigits)
  | Complex => Raise complex_round
  end.

(** ** Climate and Crop *)

Record Climate : Type := {
  interior_location : bool;
  coastal_location : bool;
  island_location : bool;
  arid_climate : bool;
  humid_climate : bool;
  dew_point_difference : R;
  average_wind_speed : R;
  k_rs : R
}.

(** [Climate()] *)
Definition Climate_init : Climate := {|
  interior_location := true;
  coastal_location := false;
  island_location := false;
  arid_climate := true;
  humid_climate := false;
  dew_point_difference := 2;
  average_wind_speed := 2;
  k_rs := 0.16
|}.

Definition interior (c : Climate) : Climate := {|
  interior_location := true;
  coastal_location := false;
  island_location := false;
  arid_climate := arid_climate c;
  humid_climate := humid_climate c;
  dew_point_difference := dew_point_difference c;
  average_wind_speed := average_wind_speed c;
  k_rs := 0.16
|}.

Definition coastal (c : Climate) : Climate := {|
  interior_location := false;
  coastal_location := true;
  island_location := false;
  arid_climate := arid_climate c;
  humid_climate := humid_climate c;
  dew_point_difference := dew_point_difference c;
  average_wind_speed := average_wind_speed c;
  k_rs := 0.19
|}.

Definition island (c : Climate) : Climate := {|
  interior_location := false;
  coastal_location := false;
  island_location := true;
  arid_climate := arid_climate c;
  humid_climate := humid_climate c;
  dew_point_difference := dew_point_difference c;
  average_wind_speed := average_wind_speed c;
  k_rs := 0.19
|}.

Definition light_winds (c : Climate) : Climate := {|
  interior_location := interior_location c;
  coastal_location := coastal_location c;
  island_location := island_location c;
  arid_climate := arid_climate c;
  humid_climate := humid_climate c;
  dew_point_difference := dew_point_difference c;
  average_wind_speed := 0.5;
  k_rs := k_rs c
|}.

Definition moderate_winds (c : Climate) : Climate := {|
  interior_location := interior_location c;
  coastal_location := coastal_location c;
  island_location := island_location c;
  arid_climate := arid_climate c;
  humid_climate := humid_climate c;
  dew_point_difference := dew_point_difference c;
  average_wind_speed := 2;
  k_rs := k_rs c
|}.

Definition strong_winds (c : Climate) : Climate := {|
  interior_location := interior_location c;
  coastal_location := coastal_location c;
  island_location := island_location c;
  arid_climate := arid_climate c;
  humid_climate := humid_climate c;
  dew_point_difference := dew_point_difference c;
  average_wind_speed := 4;
  k_rs := k_rs c
|}.

Definition arid (c : Climate) : Climate := {|
  interior_location := interior_location c;
  coastal_location := coastal_location c;
  island_location := island_location c;
  arid_climate := true;
  humid_climate := false;
  dew_point_difference := 2;
  average_wind_speed := average_wind_speed c;
  k_rs := k_rs c
|}.

Definition humid (c : Climate) : Climate := {|
  interior_location := interior_location c;
  coastal_location := coastal_location c;
  island_location := island_location c;
  arid_climate := false;
  humid_climate := true;
  dew_point_difference := 0;
  average_wind_speed := average_wind_speed c;
  k_rs := k_rs c
|}.

(** A chain of mutator calls, [Climate().humid().coastal()...]: each
    method changes the object and returns it. *)
Inductive mutator : Type :=
| LightWinds
| ModerateWinds
| StrongWinds
| Arid
| Humid
| Interior
| Coastal
| Island.

Definition call (c : Climate) (m : mutator) : Climate :=
  match m with
  | LightWinds => light_winds c
  | ModerateWinds => moderate_winds c
  | StrongWinds => strong_winds c
  | Arid => arid c
  | Humid => humid c
  | Interior => interior c
  | Coastal => coastal c
  | Island => island c
  end.

Definition chain (c : Climate) (ms : list mutator) : Climate :=
  fold_left call ms c.

Record Crop : Type := {
  resistance_a : R;
  albedo : R;
  height : R
}.

(** [Crop()] *)
Definition Crop_init : Crop := {|
  resistance_a := 208;
  albedo := 0.23;
  height := 0.12
|}.

(** ** Entries and the station *)

(** What the code reads from a [datetime.datetime]: the whole days since
    January 1st of its year ([(t - datetime(t.year, 1, 1)).days]), the hour
    of the day ([t.hour]) and [int(datetime.timestamp(t) / 3600)].  Parsing
    of date strings and the calendar are outside the module. *)
Record datetime : Type := {
  days_since_jan1 : Z;
  hour : Z;
  timestamp_hours : Z
}.

(** The [time] attribute of an entry: a day number or a [datetime]. *)
Inductive pytime : Type :=
| DayNumber (n : Z)
| Stamp (t : datetime).

(** The class of an entry; the overridden methods dispatch on it. *)
Inductive entry_class : Type :=
| DayEntry
| HourEntry.

Record TimeEntry : Type := {
  class : entry_class;
  day_number : Z;
  time : pytime;
  temp_min : option R;
  temp_max : option R;
  temp_mean : option R;
  humidity_mean : option R;
  humidity_min : option R;
  humidity_max : option R;
  wind_speed : option R;
  radiation_s : option R;
  temp_dew : option R;
  temp_dry : option R;
  temp_wet : option R;
  temp_soil : option R;
  (** [self.climate]: the climate the station had when the entry was made *)
  self_climate : option Climate;
  stephan_boltzmann_constant : R;
  logged_atmospheric_pressure : option R;
  vapour_pressure : option R;
  sunshine_hours : option R
}.

Record Station : Type := {
  latitude : R;
  longitude : R;
  altitude : Z;
  latitude_rad : R;
  longitude_rad : R;
  timezone_longitude : R;
  days : gmap Z TimeEntry;
  hours : gmap Z TimeEntry;
  anemometer_height : R;
  climate : option Climate;
  ref_crop : Crop
}.

Record Globals : Type := {
  CHECK_RADIATION_RANGE : bool;
  CHECK_SUNSHINE_HOURS_RANGE : bool
}.

(** The values the module sets at import. *)
Definition module_globals : Globals := {|
  CHECK_RADIATION_RANGE := true;
  CHECK_SUNSHINE_HOURS_RANGE := true
|}.

(** An argument of [Station(...)]: an [int] or a [float]. *)
Inductive pynum : Type :=
| PyInt (z : Z)
| PyFloat (x : R).

Definition num_val (v : pynum) : R :=
  match v with
  | PyInt z => IZR z
  | PyFloat x => x
  end.

(** [Station.__init__] *)
Definition Station_init (latitude longitude altitude : pynum)
    (anemometer_height timezone_longitude : pynum) : result Station :=
  match latitude with
  | PyInt _ => Raise (TypeError (Lit "latitude must be a float"))
  | PyFloat lat =>
    match longitude with
    | PyInt _ => Raise (TypeError (Lit "longitude must be a float"))
    | PyFloat lon =>
      if Rltb lat (-90) || Rltb 90 lat then
        Raise (PyException (Lit "latitude must be between -90.0 and 90.0"))
      else if Rltb lon 0 || Rltb 360 lon then
        Raise (PyException (Lit "longitude in degrees West of Greenwhich."))
      else
        match altitude with
        | PyFloat _ => Raise (TypeError (Lit "altitude must be an integer"))
        | PyInt alt =>
          if (alt <? 0)%Z then
            Raise (PyException (Lit "'altitude' must be above 0"))
          else if Rltb (num_val timezone_longitude) 0
                  || Rltb 359 (num_val timezone_longitude) then
            Raise (PyException
                     (Lit "'timezone_longitude in degrees West of Greenwhich."))
          else
            Ok {| latitude := lat;
                  longitude := lon;
                  altitude := alt;
                  latitude_rad := py_round (PI / 180 * lat) 3;
                  longitude_rad := py_round (PI / 180 * lon) 3;
                  timezone_longitude := 345;
                  days := ∅;
                  hours := ∅;
                  anemometer_height := num_val anemometer_height;
                  climate := Some Climate_init;
                  ref_crop := Crop_init |}
        end
    end
  end.

(** The defaults of [anemometer_height] and [timezone_longitude]. *)
Definition default_anemometer_height : pynum := PyInt 2.
Definition default_timezone_longitude : pynum := PyInt 345.

(** [self.days[day_number] = day] and [self.hours[key] = hour] *)
Definition set_day (st : Station) (n : Z) (e : TimeEntry) : Station := {|
  latitude := latitude st;
  longitude := longitude st;
  altitude := altitude st;
  latitude_rad := latitude_rad st;
  longitude_rad := longitude_rad st;
  timezone_longitude := timezone_longitude st;
  days := <[n := e]> (days st);
  hours := hours st;
  anemometer_height := anemometer_height st;
  climate := climate st;
  ref_crop := ref_crop st
|}.

Definition set_hour (st : Station) (k : Z) (e : TimeEntry) : Station := {|
  latitude := latitude st;
  longitude := longitude st;
  altitude := altitude st;
  latitude_rad := latitude_rad st;
  longitude_rad := longitude_rad st;
  timezone_longitude := timezone_longitude st;
  days := days st;
  hours := <[k := e]> (hours st);
  anemometer_height := anemometer_height st;
  climate := climate st;
  ref_crop := ref_crop st
|}.

(** [station.climate = c], which the class documents for callers. *)
Definition set_climate (st : Station) (c : option Climate) : Station := {|
  latitude := latitude st;
  longitude := longitude st;
  altitude := altitude st;
  latitude_rad := latitude_rad st;
  longitude_rad := longitude_rad st;
  timezone_longitude := timezone_longitude st;
  days := days st;
  hours := hours st;
  anemometer_height := anemometer_height st;
  climate := c;
  ref_crop := ref_crop st
|}.

(** [TimeEntry.__init__], with the class of the object being made. *)
Definition TimeEntry_init (cls : entry_class) (t : pytime) (st : Station)
    : TimeEntry := {|
  class := cls;
  day_number := match t with
                | DayNumber n => n
                | Stamp d => (days_since_jan1 d + 1)%Z
                end;
  time := t;
  temp_min := None;
  temp_max := None;
  temp_mean := None;
  humidity_mean := None;
  humidity_min := None;
  humidity_max := None;
  wind_speed := None;
  radiation_s := None;
  temp_dew := None;
  temp_dry := None;
  temp_wet := None;
  temp_soil := None;
  self_climate := climate st;
  stephan_boltzmann_constant := 4.903 * / 10 ^ 9;
  logged_atmospheric_pressure := None;
  vapour_pressure := None;
  sunshine_hours := None
|}.

(** The five assignments both factories make right after the entry is
    registered. *)
Definition set_observations (e : TimeEntry)
    (tmin tmax tmean hmean wind : option R) : TimeEntry := {|
  class := class e;
  day_number := day_number e;
  time := time e;
  temp_min := tmin;
  temp_max := tmax;
  temp_mean := tmean;
  humidity_mean := hmean;
  humidity_min := humidity_min e;
  humidity_max := humidity_max e;
  wind_speed := wind;
  radiation_s := radiation_s e;
  temp_dew := temp_dew e;
  temp_dry := temp_dry e;
  temp_wet := temp_wet e;
  temp_soil := temp_soil e;
  self_climate := self_climate e;
  stephan_boltzmann_constant := stephan_boltzmann_constant e;
  logged_atmospheric_pressure := logged_atmospheric_pressure e;
  vapour_pressure := vapour_pressure e;
  sunshine_hours := sunshine_hours e
|}.

Definition set_radiation_s (e : TimeEntry) (v : option R) : TimeEntry := {|
  class := class e;
  day_number := day_number e;
  time := time e;
  temp_min := temp_min e;
  temp_max := temp_max e;
  temp_mean := temp_mean e;
  humidity_mean := humidity_mean e;
  humidity_min := humidity_min e;
  humidity_max := humidity_max e;
  wind_speed := wind_speed e;
  radiation_s := v;
  temp_dew := temp_dew e;
  temp_dry := temp_dry e;
  temp_wet := temp_wet e;
  temp_soil := temp_soil e;
  self_climate := self_climate e;
  stephan_boltzmann_constant := stephan_boltzmann_constant e;
  logged_atmospheric_pressure := logged_atmospheric_pressure e;
  vapour_pressure := vapour_pressure e;
  sunshine_hours := sunshine_hours e
|}.

Definition set_sunshine_hours (e : TimeEntry) (v : option R) : TimeEntry := {|
  class := class e;
  day_number := day_number e;
  time := time e;
  temp_min := temp_min e;
  temp_max := temp_max e;
  temp_mean := temp_mean e;
  humidity_mean := humidity_mean e;
  humidity_min := humidity_min e;
  humidity_max := humidity_max e;
  wind_speed := wind_speed e;
  radiation_s := radiation_s e;
  temp_dew := temp_dew e;
  temp_dry := temp_dry e;
  temp_wet := temp_wet e;
  temp_soil := temp_soil e;
  self_climate := self_climate e;
  stephan_boltzmann_constant := stephan_boltzmann_constant e;
  logged_atmospheric_pressure := logged_atmospheric_pressure e;
  vapour_pressure := vapour_pressure e;
  sunshine_hours := v
|}.

(** ** Station methods *)

(** [Station.atmospheric_pressure] (Eq. 7) *)
Definition Station_atmospheric_pressure (st : Station) : result R :=
  round_val
    (val_mul 101.3 (py_pow ((293 - 0.0065 * IZR (altitude st)) / 293) 5.26)) 2.

(** ** TimeEntry methods *)

Section Methods.

Variable g : Globals.
Variable st : Station.

Definition wind_speed_2m (e : TimeEntry) : result (option R) :=
  if truthy (wind_speed e) && Reqb (anemometer_height st) 2 then
    Ok (wind_speed e)
  else if truthy (wind_speed e) && negb (Reqb (anemometer_height st) 2) then
    w <- num (wind_speed e);;
    l <- py_log (67.8 * anemometer_height st - 5.42);;
    q <- py_div 4.87 l;;
    Ok (Some (py_round (w * q) 1))
  else
    match climate st with
    | Some c => Ok (Some (average_wind_speed c))
    | None => Ok None
    end.

Definition dew_point (e : TimeEntry) : option R :=
  if truthy (temp_dew e) then temp_dew e
  else
    match temp_min e, self_climate e with
    | Some tmin, Some c =>
        if truthy (Some tmin) then Some (tmin - dew_point_difference c)
        else None
    | _, _ => None
    end.

Definition atmospheric_pressure (e : TimeEntry) : result R :=
  if truthy (logged_atmospheric_pressure e) then
    num (logged_atmospheric_pressure e)
  else Station_atmospheric_pressure st.

Definition latent_heat_of_vaporization (e : TimeEntry) : R := 2.45.

Definition specific_heat (e : TimeEntry) : R := 1.013 * / 10 ^ 3.

(** (Eq. 8) *)
Definition psychrometric_constant (e : TimeEntry) : result R :=
  p <- atmospheric_pressure e;;
  Ok (py_round (0.665 * / 10 ^ 3 * p) 6).

(** (Eq. 9) *)
Definition Tmean (e : TimeEntry) : option R :=
  if truthy (temp_mean e) then temp_mean e
  else
    match temp_max e, temp_min e with
    | Some tmax, Some tmin =>
        if truthy (Some tmax) && truthy (Some tmin)
        then Some ((tmax + tmin) / 2)
        else None
    | _, _ => None
    end.

(** (Eq. 11) *)
Definition saturation_vapour_pressure (T : R) : result R :=
  q <- py_div (17.27 * T) (T + 237.3);;
  Ok (py_round (0.6108 * Rpower 2.7183 q) 3).

(** (Eq. 12) *)
Definition mean_saturation_vapour_pressure (e : TimeEntry)
    : result (option R) :=
  if truthy (temp_max e) && truthy (temp_min e) then
    tmax <- num (temp_max e);;
    tmin <- num (temp_min e);;
    vp_max <- saturation_vapour_pressure tmax;;
    vp_min <- saturation_vapour_pressure tmin;;
    Ok (Some ((vp_max + vp_min) / 2))
  else if truthy (temp_mean e) then
    tmean <- num (temp_mean e);;
    vp <- saturation_vapour_pressure tmean;;
    Ok (Some vp)
  else Ok None.

(** (Eq. 13) *)
Definition slope_of_saturation_vapour_pressure (T : R) : result R :=
  q <- py_div (17.27 * T) (T + 237.3);;
  d <- py_div (4098 * (0.6108 * Rpower 2.7183 q)) ((T + 237.3) ^ 2);;
  Ok (py_round d 6).

Definition actual_vapour_pressure (e : TimeEntry) : result (option R) :=
  if truthy (vapour_pressure e) then Ok (vapour_pressure e)
  else if truthy (temp_dry e) && truthy (temp_wet e) then
    tdry <- num (temp_dry e);;
    twet <- num (temp_wet e);;
    vp_wet <- saturation_vapour_pressure twet;;
    psy <- psychrometric_constant e;;
    Ok (Some (py_round (vp_wet - psy * (tdry - twet)) 3))
  else if truthy (humidity_max e) && truthy (humidity_min e)
          && truthy (temp_max e) && truthy (temp_min e) then
    hmax <- num (humidity_max e);;
    hmin <- num (humidity_min e);;
    tmax <- num (temp_max e);;
    tmin <- num (temp_min e);;
    vp_min <- saturation_vapour_pressure tmin;;
    vp_max <- saturation_vapour_pressure tmax;;
    Ok (Some (py_round ((vp_min * (hmax / 100) + vp_max * (hmin / 100)) / 2) 3))
  else if truthy (humidity_max e) && truthy (temp_min e) then
    hmax <- num (humidity_max e);;
    tmin <- num (temp_min e);;
    vp_min <- saturation_vapour_pressure tmin;;
    Ok (Some (py_round (vp_min * (hmax / 100)) 3))
  else if truthy (humidity_mean e) && truthy (temp_max e)
          && truthy (temp_min e) then
    hmean <- num (humidity_mean e);;
    tmax <- num (temp_max e);;
    tmin <- num (temp_min e);;
    vp_min <- saturation_vapour_pressure tmin;;
    vp_max <- saturation_vapour_pressure tmax;;
    Ok (Some (py_round ((hmean / 100) * ((vp_max + vp_min) / 2)) 3))
  else if truthy (humidity_mean e) && truthy (temp_mean e) then
    hmean <- num (humidity_mean e);;
    tmean <- num (temp_mean e);;
    vp <- saturation_vapour_pressure tmean;;
    Ok (Some (py_round ((hmean / 100) * vp) 3))
  else if truthy (dew_point e) then
    td <- num (dew_point e);;
    vp <- saturation_vapour_pressure td;;
    Ok (Some (py_round vp 3))
  else Ok None.

Definition vapour_pressure_deficit (e : TimeEntry) : result R :=
  vp <- mean_saturation_vapour_pressure e;;
  actual_vp <- actual_vapour_pressure e;;
  v <- num vp;;
  a <- num actual_vp;;
  Ok (py_round (v - a) 3).

(** (Eq. 23) *)
Definition relative_sun_distance (e : TimeEntry) : R :=
  py_round (1 + 0.033 * cos ((2 * PI / 365) * IZR (day_number e))) 3.

(** (Eq. 24) *)
Definition solar_declination (e : TimeEntry) : R :=
  py_round (0.409 * sin ((2 * PI / 365) * IZR (day_number e) - 1.39)) 3.

(** (Eq. 25) *)
Definition sunset_hour_angle (e : TimeEntry) : result R :=
  a <- py_acos (-1 * tan (latitude_rad st) * tan (solar_declination e));;
  Ok (py_round a 3).

(** [TimeEntry.R_a]: extraterrestrial radiation for daily periods (Eq. 21) *)
Definition TimeEntry_R_a (e : TimeEntry) : result R :=
  ws <- sunset_hour_angle e;;
  Ok (py_round
        (24 * 60 / PI * 0.0820 * relative_sun_distance e *
         ((ws * sin (latitude_rad st) * sin (solar_declination e)) +
          (cos (latitude_rad st) * cos (solar_declination e) * sin ws)))
        1).

(** [HourEntry.solar_time_angle] *)
Definition solar_time_angle (e : TimeEntry) : result R :=
  match time e with
  | DayNumber _ => Raise int_has_no_hour
  | Stamp t =>
      let b := 2 * PI * (IZR (day_number e) - 81) / 364 in
      let season_correction :=
        0.1645 * sin (2 * b) - 0.1255 * cos b - 0.025 * sin b in
      Ok (PI / 12 *
          ((IZR (hour t) + 0.5
            + 0.06667 * (timezone_longitude st - longitude st)
            + season_correction) - 12))
  end.

(** [HourEntry.R_a] *)
Definition HourEntry_R_a (e : TimeEntry) : result R :=
  ws <- sunset_hour_angle e;;
  w <- solar_time_angle e;;
  if Rltb w (- ws) || Rltb ws w then Ok 0
  else
    let w1 := w - PI * 1 / 24 in
    let w2 := w + PI * 1 / 24 in
    let d := relative_sun_distance e in
    let delta := latitude_rad st in
    let phi := solar_declination e in
    Ok (py_round
          (12 * 60 / PI * 0.0820 * d *
           ((w2 - w1) * sin phi * sin delta
            + cos phi * cos delta * (sin w2 - sin w1)))
          3).

Definition R_a (e : TimeEntry) : result R :=
  match class e with
  | DayEntry => TimeEntry_R_a e
  | HourEntry => HourEntry_R_a e
  end.

Definition R_a_in_mm (e : TimeEntry) : result R :=
  ra <- R_a e;;
  Ok (py_round (ra * 0.408) 1).

(** (Eq. 34) *)
Definition daylight_hours (e : TimeEntry) : result R :=
  ws <- sunset_hour_angle e;;
  Ok (py_round ((24 / PI) * ws) 1).

(** Clear-sky radiation (Eq. 36 below 100 m, Eq. 37 above) *)
Definition R_so (e : TimeEntry) : result R :=
  if (altitude st <? 100)%Z then
    ra <- R_a e;;
    Ok (py_round ((0.25 + 0.50) * ra) 1)
  else
    ra <- R_a e;;
    Ok (py_round ((0.75 + (2 * / 10 ^ 5) * IZR (altitude st)) * ra) 1).

(** [DayEntry.solar_radiation] (Rs).  [angstrom] is the tail of the method
    from [if n < 0] on; the test [n and not is_number(n)] before it never
    fires on a number. *)
Definition DayEntry_solar_radiation (e : TimeEntry) : result R :=
  if truthy (radiation_s e) then
    rs <- num (radiation_s e);;
    if CHECK_RADIATION_RANGE g then
      rso <- R_so e;;
      if Rltb rso rs then
        Raise (ValueError (LitNum "Solar radiation out ot range. Rso=" rso))
      else Ok rs
    else Ok rs
  else
    let angstrom (n : R) : result R :=
      if Rltb n 0 then
        Raise (ValueError
                 (Lit "Observed daylight hours cannot be less than 0"))
      else
        N0 <- daylight_hours e;;
        if Rltb N0 n && CHECK_SUNSHINE_HOURS_RANGE g then
          Raise (ValueError (Lit "Daylight hours out of range"))
        else
          N <- daylight_hours e;;
          Ra <- R_a e;;
          q <- py_div (0.50 * n) N;;
          Ok (py_round ((0.25 + q) * Ra) 1)
    in
    match sunshine_hours e with
    | Some n => angstrom n
    | None =>
        match climate st with
        | Some c =>
            if island_location c && (altitude st <? 100)%Z then
              Ra <- R_a e;;
              Ok (py_round ((0.7 * Ra) - 4) 1)
            else if truthy (temp_min e) && truthy (temp_max e) then
              tmin <- num (temp_min e);;
              tmax <- num (temp_max e);;
              Ra <- R_a e;;
              let krs := if coastal_location c then 0.19
                         else if interior_location c then 0.16
                         else 0.16 in
              s <- py_sqrt (tmax - tmin);;
              Ok (py_round (krs * s * Ra) 1)
            else
              n <- daylight_hours e;;
              angstrom n
        | None =>
            n <- daylight_hours e;;
            angstrom n
        end
    end.

(** [HourEntry.solar_radiation] (Rs) *)
Definition HourEntry_solar_radiation (e : TimeEntry) : result R :=
  match radiation_s e with
  | Some rs =>
      if CHECK_RADIATION_RANGE g then
        Rso <- R_so e;;
        if Reqb Rso 0 && Rltb 0.05 rs then
          Raise (ValueError
                   (LitNumLit "'Lunar' radiation out ot range. radiation ="
                              rs " should be near 0."))
        else if Rltb 0 Rso && Rltb 0.05 ((rs - Rso) / Rso) then
          Raise (ValueError (LitNum "Solar radiation out ot range. Rso=" Rso))
        else Ok rs
      else Ok rs
  | None =>
      Raise (PyException
               (Lit "Cannot calculate eto(): radiation_s (Solar radiation) is missing"))
  end.

Definition solar_radiation (e : TimeEntry) : result R :=
  match class e with
  | DayEntry => DayEntry_solar_radiation e
  | HourEntry => HourEntry_solar_radiation e
  end.

Definition solar_radiation_in_mm (e : TimeEntry) : result R :=
  rs <- solar_radiation e;;
  Ok (py_round (rs * 0.408) 1).

(** Net shortwave radiation (Eq. 38) *)
Definition R_ns (e : TimeEntry) : result R :=
  rs <- solar_radiation e;;
  Ok (py_round ((1 - albedo (ref_crop st)) * rs) 1).

(** [TimeEntry.R_nl]: net longwave radiation (Eq. 39) *)
Definition TimeEntry_R_nl (e : TimeEntry) : result R :=
  if negb (truthy (temp_max e) && truthy (temp_min e)) then
    Raise (PyException
             (Lit "Net longwave radiation cannot be calculated without min/max temperature"))
  else
    tmax <- num (temp_max e);;
    tmin <- num (temp_min e);;
    let TmaxK := tmax + 273.16 in
    let TminK := tmin + 273.16 in
    ea <- actual_vapour_pressure e;;
    rs <- solar_radiation e;;
    rso <- R_so e;;
    let sb_constant := stephan_boltzmann_constant e in
    ea' <- num ea;;
    s <- py_sqrt ea';;
    q <- py_div rs rso;;
    Ok (py_round (sb_constant * ((TmaxK ^ 4 + TminK ^ 4) / 2) *
                  (0.34 - 0.14 * s) * (1.35 * q - 0.35)) 1).

(** [HourEntry.R_l_outgoing] *)
Definition R_l_outgoing (e : TimeEntry) : result R :=
  let eps := 1 in
  let bz := stephan_boltzmann_constant e / 24 in
  ts <- num (temp_soil e);;
  Ok (py_round (eps * bz * (ts + 273.16) ^ 4) 1).

(** [HourEntry.R_l_incoming] *)
Definition R_l_incoming (e : TimeEntry) : result R :=
  let clear_sky_emissivity (T : R) : result R :=
    round_val (val_mul (8.733 * / 10 ^ 3) (py_pow (T + 273.16) 0.788)) 3 in
  rso <- R_so e;;
  f <- (if Reqb rso 0 then Ok 0.5
        else
          rso' <- R_so e;;
          rs <- num (radiation_s e);;
          radfrac <- py_div rs rso';;
          let f := 1 - radfrac in
          if Rltb f 0 then Ok 0
          else if Rltb 1 f then Ok 1
          else Ok f);;
  T <- num (Tmean e);;
  eps_0 <- clear_sky_emissivity T;;
  let eps_star := eps_0 * (1 + 0.26 * f) in
  let bz := stephan_boltzmann_constant e / 24 in
  Ok (py_round (eps_star * bz * (T + 273.16) ^ 4) 1).

(** [HourEntry.R_nl] *)
Definition HourEntry_R_nl (e : TimeEntry) : result R :=
  match temp_soil e with
  | None =>
      Raise (PyException
               (Lit "Net longwave radiation cannot be calculated without soil temperature"))
  | Some _ =>
      R_ol <- R_l_outgoing e;;
      R_il <- R_l_incoming e;;
      Ok (R_ol - R_il)
  end.

Definition R_nl (e : TimeEntry) : result R :=
  match class e with
  | DayEntry => TimeEntry_R_nl e
  | HourEntry => HourEntry_R_nl e
  end.

(** [try: ... except Exception as e: raise(str(e))] *)
Definition try_raise_str {A : Type} (m : result A) : result A :=
  match m with
  | Ok a => Ok a
  | Raise _ => Raise raise_str
  end.

(** Net radiation (Eq. 40) *)
Definition net_radiation (e : TimeEntry) : result R :=
  ns <- R_ns e;;
  nl <- try_raise_str (R_nl e);;
  Ok (py_round (ns - nl) 1).

Definition net_radition_in_mm (e : TimeEntry) : result (option R) :=
  net_radition <- net_radiation e;;
  if truthy (Some net_radition) then Ok (Some (py_round (net_radition * 0.408) 1))
  else Ok None.

(** [TimeEntry.soil_heat_flux] and its override [HourEntry.soil_heat_flux] *)
Definition soil_heat_flux (e : TimeEntry) : result R :=
  match class e with
  | DayEntry => Ok 0
  | HourEntry =>
      rs <- num (radiation_s e);;
      if Rltb rs 0.05 then
        rn <- net_radiation e;;
        Ok (0.5 * rn)
      else
        rn <- net_radiation e;;
        Ok (0.1 * rn)
  end.

Definition air_conductance_coefficient (e : TimeEntry) : R :=
  match class e with
  | DayEntry => 900
  | HourEntry => 37
  end.

(** Hargreaves equation (Eq. 52) *)
Definition eto_hargreaves (e : TimeEntry) : result R :=
  tmax <- num (temp_max e);;
  tmin <- num (temp_min e);;
  let Tmean := (tmax + tmin) / 2 in
  let p := val_mul (0.0023 * (Tmean + 17.8)) (py_pow (tmax - tmin) 0.5) in
  ra <- R_a e;;
  round_val (match p with
             | Real x => Real (x * ra)
             | Complex => Complex
             end) 2.

(** (Eq. 6) *)
Definition eto (e : TimeEntry) : result R :=
  u <- wind_speed_2m e;;
  if negb (truthy u) then eto_hargreaves e
  else
    match Tmean e with
    | None =>
        Raise (PyException
                 (Lit "Cannot calculate eto(): temp_mean (mean temperature) is missing"))
    | Some Tmean =>
        net_radiation <- try_raise_str (net_radiation e);;
        slope_of_vp <- slope_of_saturation_vapour_pressure Tmean;;
        G <- soil_heat_flux e;;
        u2m' <- wind_speed_2m e;;
        u2m <- num u2m';;
        let air_cond_coeff := air_conductance_coefficient e in
        psy <- psychrometric_constant e;;
        c <- py_div air_cond_coeff (Tmean + 273);;
        vpd <- vapour_pressure_deficit e;;
        let eto_nominator :=
          0.408 * slope_of_vp * (net_radiation - G) + psy * c * u2m * vpd in
        if Rltb eto_nominator 0 then Ok 0
        else
          psy' <- psychrometric_constant e;;
          let eto_denominator := slope_of_vp + psy' * (1 + 0.34 * u2m) in
          q <- py_div eto_nominator eto_denominator;;
          Ok (py_round q 2)
    end.

End Methods.

(** [TimeEntry.RH], for a number [T] ([is_number(T)] holds). *)
Definition RH (st : Station) (e : TimeEntry) (T : R) : result R :=
  avp <- actual_vapour_pressure st e;;
  svp <- saturation_vapour_pressure T;;
  a <- num avp;;
  q <- py_div a svp;;
  Ok (py_round (100 * q) 3).

(** [TimeEntry.RH_mean]: the test is [humidity_mean != None], so a logged
    0 is returned. *)
Definition RH_mean (st : Station) (e : TimeEntry) : result (option R) :=
  match humidity_mean e with
  | Some h => Ok (Some h)
  | None =>
      if truthy (temp_min e) && truthy (temp_max e) then
        tmin <- num (temp_min e);;
        tmax <- num (temp_max e);;
        rmin <- RH st e tmin;;
        rmax <- RH st e tmax;;
        Ok (Some (IZR (py_int (py_round ((rmin + rmax) / 2) 0))))
      else Ok None
  end.

(** ** The factories of the station *)

(** The first argument of [day_entry]: a day number or a [datetime]; a
    string is parsed into a [datetime] by [strptime], outside the module. *)
Inductive day_id : Type :=
| DayInt (n : Z)
| DayDate (t : datetime).

Definition day_number_of (d : day_id) : Z :=
  match d with
  | DayInt n => n
  | DayDate t => (days_since_jan1 t + 1)%Z
  end.

(** [Station.day_entry].  The result is the station after the call and
    the entry or the exception.  [self.days[day_number] = day] runs before
    the observations are checked, and the registry holds the very object the
    later assignments write to: on every exit after that line the registry
    holds the entry as it then is. *)
Definition day_entry (g : Globals) (st : Station) (d : day_id)
    (temp_min temp_max temp_mean wind_speed humidity_mean : option R)
    (radiation_s sunshine_hours : option R) : Station * result TimeEntry :=
  let day_number := day_number_of d in
  if negb ((1 <=? day_number)%Z && (day_number <=? 366)%Z) then
    (st, Raise (PyException
                  (Lit "'day_number' must be between in the range 1-366")))
  else
    let day := TimeEntry_init DayEntry (DayNumber day_number) st in
    let day :=
      set_observations day temp_min temp_max temp_mean humidity_mean
                       wind_speed in
    let st1 := set_day st day_number day in
    let checked_radiation : result TimeEntry :=
      if truthy radiation_s then
        if CHECK_RADIATION_RANGE g then
          rs <- num radiation_s;;
          rso <- R_so st1 day;;
          if Rleb rs rso then Ok (set_radiation_s day radiation_s)
          else Raise (ValueError (Lit "Raditaion out of range"))
        else Ok (set_radiation_s day radiation_s)
      else Ok day in
    match checked_radiation with
    | Raise err => (st1, Raise err)
    | Ok day =>
        let st2 := set_day st day_number day in
        let checked_sunshine : result TimeEntry :=
          if truthy sunshine_hours then
            if CHECK_SUNSHINE_HOURS_RANGE g then
              n <- num sunshine_hours;;
              N <- daylight_hours st2 day;;
              if Rleb n N then Ok (set_sunshine_hours day sunshine_hours)
              else Raise (ValueError (Lit "Sunshine hours out of range"))
            else Ok (set_sunshine_hours day sunshine_hours)
          else Ok day in
        match checked_sunshine with
        | Raise err => (st2, Raise err)
        | Ok day => (set_day st day_number day, Ok day)
        end
    end.

(** [Station.hour_entry], for a [datetime] argument. *)
Definition hour_entry (g : Globals) (st : Station) (dt_hour : datetime)
    (temp_min temp_max temp_mean wind_speed humidity_mean : option R)
    (radiation_s : option R) : Station * result TimeEntry :=
  let hour := TimeEntry_init HourEntry (Stamp dt_hour) st in
  let key := timestamp_hours dt_hour in
  let hour :=
    set_observations hour temp_min temp_max temp_mean humidity_mean
                     wind_speed in
  let st1 := set_hour st key hour in
  let checked_radiation : result TimeEntry :=
    if truthy radiation_s then
      if CHECK_RADIATION_RANGE g then
        rs <- num radiation_s;;
        rso <- R_so st1 hour;;
        if Rltb (0.05 * rso) (rs - rso)
        then Ok (set_radiation_s hour radiation_s)
        else Raise (ValueError (Lit "Radiation out of range"))
      else Ok (set_radiation_s hour radiation_s)
    else Ok hour in
  match checked_radiation with
  | Raise err => (st1, Raise err)
  | Ok hour => (set_hour st key hour, Ok hour)
  end.

(** ** Stations and entries used as examples *)

(** [Station(0.0, 300.0, 0)]: on the equator, at sea level. *)
Definition equator_station : Station := {|
  latitude := 0;
  longitude := 300;
  altitude := 0;
  latitude_rad := 0;
  longitude_rad := py_round (PI / 180 * 300) 3;
  timezone_longitude := 345;
  days := ∅;
  hours := ∅;
  anemometer_height := 2;
  climate := Some Climate_init;
  ref_crop := Crop_init
|}.

(** [Station(0.0, 300.0, 5000)]: on the equator, at 5000 m. *)
Definition highland_station : Station := {|
  latitude := 0;
  longitude := 300;
  altitude := 5000;
  latitude_rad := 0;
  longitude_rad := py_round (PI / 180 * 300) 3;
  timezone_longitude := 345;
  days := ∅;
  hours := ∅;
  anemometer_height := 2;
  climate := Some Climate_init;
  ref_crop := Crop_init
|}.

(** [Station(0.0, 300.0, 0, anemometer_height=10)] *)
Definition mast_station : Station := {|
  latitude := 0;
  longitude := 300;
  altitude := 0;
  latitude_rad := 0;
  longitude_rad := py_round (PI / 180 * 300) 3;
  timezone_longitude := 345;
  days := ∅;
  hours := ∅;
  anemometer_height := 10;
  climate := Some Climate_init;
  ref_crop := Crop_init
|}.

(** The equator station after [station.climate = None]. *)
Definition bare_station : Station := set_climate equator_station None.

(** [Station(70.0, 300.0, 0)]: north of the polar circle. *)
Definition arctic_station : Station := {|
  latitude := 70;
  longitude := 300;
  altitude := 0;
  latitude_rad := 1.222;
  longitude_rad := py_round (PI / 180 * 300) 3;
  timezone_longitude := 345;
  days := ∅;
  hours := ∅;
  anemometer_height := 2;
  climate := Some Climate_init;
  ref_crop := Crop_init
|}.

(** The same station after [station.climate = Climate().island()]. *)
Definition island_station : Station :=
  set_climate highland_station (Some (island Climate_init)).

(** An untouched day entry of [st] for day [n], and one carrying the five
    plain observations. *)
Definition blank_day (st : Station) (n : Z) : TimeEntry :=
  TimeEntry_init DayEntry (DayNumber n) st.

Definition observed_day (st : Station) (n : Z)
    (tmin tmax tmean hmean wind : option R) : TimeEntry :=
  set_observations (blank_day st n) tmin tmax tmean hmean wind.

(** 23:00 on January 1st; [timestamp_hours] is that of 2020 in UTC. *)
Definition late_evening : datetime := {|
  days_since_jan1 := 0;
  hour := 23;
  timestamp_hours := 438311
|}.

Definition observed_hour (st : Station) (t : datetime)
    (tmin tmax tmean hmean wind : option R) : TimeEntry :=
  set_observations (TimeEntry_init HourEntry (Stamp t) st)
                   tmin tmax tmean hmean wind.

(** The entry of [day_entry(1, temp_min=10.0, temp_max=20.0,
    sunshine_hours=-1.0)] on the equator station. *)
Definition negative_sunshine_day : TimeEntry :=
  set_sunshine_hours
    (observed_day equator_station 1 (Some 10) (Some 20) None None None)
    (Some (-1)).

(** The entry of [hour_entry(datetime(2020, 1, 1, 23), radiation_s=1.0)]
    on the equator station. *)
Definition night_hour : TimeEntry :=
  set_radiation_s
    (observed_hour equator_station late_evening None None None None None)
    (Some 1).

(** ** Profiles and switches used in the statements *)

(** What the docstrings of [Climate] promise of a profile: one location
    and one humidity regime, each with its coefficient, and one of the three
    wind regimes. *)
Definition consistent (c : Climate) : Prop :=
  ((interior_location c = true /\ coastal_location c = false
    /\ island_location c = false /\ k_rs c = 0.16)
   \/ (interior_location c = false /\ coastal_location c = true
       /\ island_location c = false /\ k_rs c = 0.19)
   \/ (interior_location c = false /\ coastal_location c = false
       /\ island_location c = true /\ k_rs c = 0.19))
  /\ ((arid_climate c = true /\ humid_climate c = false
       /\ dew_point_difference c = 2)
      \/ (arid_climate c = false /\ humid_climate c = true
          /\ dew_point_difference c = 0))
  /\ (average_wind_speed c = 0.5 \/ average_wind_speed c = 2
      \/ average_wind_speed c = 4).

(** The group of settings a mutator writes. *)
Inductive group : Type :=
| Wind
| Humidity
| Location.

Definition group_of (m : mutator) : group :=
  match m with
  | LightWinds | ModerateWinds | StrongWinds => Wind
  | Arid | Humid => Humidity
  | Interior | Coastal | Island => Location
  end.

(** Both range checks switched off. *)
Definition unchecked_globals : Globals := {|
  CHECK_RADIATION_RANGE := false;
  CHECK_SUNSHINE_HOURS_RANGE := false
|}.

(** * Properties *)

(** ** Comparisons and rounding *)

Lemma Rltb_true (x y : R) : Rltb x y = true <-> x < y.
Proof. unfold Rltb. destruct (Rlt_dec x y); split; intros; try easy. Qed.

Lemma Rltb_false (x y : R) : Rltb x y = false <-> y <= x.
Proof.
  unfold Rltb. destruct (Rlt_dec x y); split; intros; try easy; lra.
Qed.

Lemma Rleb_true (x y : R) : Rleb x y = true <-> x <= y.
Proof. unfold Rleb. destruct (Rle_dec x y); split; intros; try easy. Qed.

Lemma Rleb_false (x y : R) : Rleb x y = false <-> y < x.
Proof.
  unfold Rleb. destruct (Rle_dec x y); split; intros; try easy; lra.
Qed.

Lemma Reqb_true (x y : R) : Reqb x y = true <-> x = y.
Proof. unfold Reqb. destruct (Req_dec_T x y); split; intros; try easy. Qed.

Lemma Reqb_false (x y : R) : Reqb x y = false <-> x <> y.
Proof. unfold Reqb. destruct (Req_dec_T x y); split; intros; try easy. Qed.

Lemma truthy_Some (x : R) : truthy (Some x) = true <-> x <> 0.
Proof.
  unfold truthy. destruct (Reqb x 0) eqn:E; simpl.
  - apply Reqb_true in E. split; intros; [discriminate | contradiction].
  - apply Reqb_false in E. split; intros; [assumption | reflexivity].
Qed.

Lemma truthy_zero : truthy (Some 0) = false.
Proof.
  unfold truthy. destruct (Reqb 0 0) eqn:E; [reflexivity|].
  apply Reqb_false in E. contradiction.
Qed.

Lemma truthy_num (v : option R) :
  truthy v = true -> exists x, v = Some x /\ x <> 0.
Proof.
  destruct v as [x|]; [|discriminate].
  intros H. exists x. split; [reflexivity|]. now apply truthy_Some.
Qed.

Lemma round_half_even_spec (y : R) :
  y - 1 / 2 <= IZR (round_half_even y) <= y + 1 / 2.
Proof.
  unfold round_half_even.
  destruct (base_Int_part y) as [Hlo Hhi].
  destruct (Rlt_dec (y - IZR (Int_part y)) (1 / 2)) as [H1|H1].
  - lra.
  - destruct (Rlt_dec (1 / 2) (y - IZR (Int_part y))) as [H2|H2].
    + rewrite plus_IZR. lra.
    + destruct (Z.even (Int_part y)); [|rewrite plus_IZR]; lra.
Qed.

Lemma round_half_even_IZR (z : Z) : round_half_even (IZR z) = z.
Proof.
  assert (E : Int_part (IZR z) = z).
  { symmetry. apply Int_part_spec. lra. }
  unfold round_half_even. rewrite E.
  destruct (Rlt_dec (IZR z - IZR z) (1 / 2)); [reflexivity | lra].
Qed.

(** The integer nearest to a point strictly inside the half-open cell of
    [z] is [z]. *)
Lemma round_half_even_near (y : R) (z : Z) :
  IZR z - 1 / 2 < y < IZR z + 1 / 2 -> round_half_even y = z.
Proof.
  intros [Hlo Hhi].
  pose proof (round_half_even_spec y) as [H1 H2].
  assert (Hz1 : (z - 1 < round_half_even y)%Z).
  { apply lt_IZR. rewrite minus_IZR. lra. }
  assert (Hz2 : (round_half_even y < z + 1)%Z).
  { apply lt_IZR. rewrite plus_IZR. lra. }
  lia.
Qed.

Lemma pow10_pos (n : nat) : 0 < 10 ^ n.
Proof. apply pow_lt. lra. Qed.

Lemma py_round_spec (x : R) (n : nat) :
  x - / 2 / 10 ^ n <= py_round x n <= x + / 2 / 10 ^ n.
Proof.
  unfold py_round.
  pose proof (pow10_pos n) as Hp.
  pose proof (round_half_even_spec (x * 10 ^ n)) as [H1 H2].
  split.
  - apply Rmult_le_reg_r with (10 ^ n); [assumption|].
    replace (IZR (round_half_even (x * 10 ^ n)) / 10 ^ n * 10 ^ n)
      with (IZR (round_half_even (x * 10 ^ n))) by (field; lra).
    replace ((x - / 2 / 10 ^ n) * 10 ^ n) with (x * 10 ^ n - / 2)
      by (field; lra).
    lra.
  - apply Rmult_le_reg_r with (10 ^ n); [assumption|].
    replace (IZR (round_half_even (x * 10 ^ n)) / 10 ^ n * 10 ^ n)
      with (IZR (round_half_even (x * 10 ^ n))) by (field; lra).
    replace ((x + / 2 / 10 ^ n) * 10 ^ n) with (x * 10 ^ n + / 2)
      by (field; lra).
    lra.
Qed.

Lemma py_round_1 (x : R) : x - 0.05 <= py_round x 1 <= x + 0.05.
Proof. pose proof (py_round_spec x 1) as H. simpl in H. lra. Qed.

Lemma py_round_3 (x : R) : x - 0.0005 <= py_round x 3 <= x + 0.0005.
Proof. pose proof (py_round_spec x 3) as H. simpl in H. lra. Qed.

(** A value already on the decimal grid is not moved. *)
Lemma py_round_grid (z : Z) (n : nat) :
  py_round (IZR z / 10 ^ n) n = IZR z / 10 ^ n.
Proof.
  unfold py_round.
  replace (IZR z / 10 ^ n * 10 ^ n) with (IZR z)
    by (field; pose proof (pow10_pos n); lra).
  now rewrite round_half_even_IZR.
Qed.

Lemma py_round_0 (n : nat) : py_round 0 n = 0.
Proof.
  replace 0 with (IZR 0 / 10 ^ n) at 1
    by (unfold Rdiv; simpl; ring).
  rewrite py_round_grid. unfold Rdiv. ring.
Qed.

(** Rounding never crosses a grid point. *)
Lemma py_round_ge_grid (x : R) (z : Z) (n : nat) :
  IZR z / 10 ^ n <= x -> IZR z / 10 ^ n <= py_round x n.
Proof.
  intros H. unfold py_round.
  pose proof (pow10_pos n) as Hp.
  apply Rmult_le_compat_r; [left; now apply Rinv_0_lt_compat|].
  apply IZR_le.
  assert (Hx : IZR z <= x * 10 ^ n).
  { apply Rmult_le_compat_r with (r := 10 ^ n) in H; [|lra].
    replace (IZR z / 10 ^ n * 10 ^ n) with (IZR z) in H by (field; lra).
    exact H. }
  pose proof (round_half_even_spec (x * 10 ^ n)) as [H1 _].
  assert (Hz : (z - 1 < round_half_even (x * 10 ^ n))%Z).
  { apply lt_IZR. rewrite minus_IZR. lra. }
  lia.
Qed.

Lemma py_round_le_grid (x : R) (z : Z) (n : nat) :
  x <= IZR z / 10 ^ n -> py_round x n <= IZR z / 10 ^ n.
Proof.
  intros H. unfold py_round.
  pose proof (pow10_pos n) as Hp.
  apply Rmult_le_compat_r; [left; now apply Rinv_0_lt_compat|].
  apply IZR_le.
  assert (Hx : x * 10 ^ n <= IZR z).
  { apply Rmult_le_compat_r with (r := 10 ^ n) in H; [|lra].
    replace (IZR z / 10 ^ n * 10 ^ n) with (IZR z) in H by (field; lra).
    exact H. }
  pose proof (round_half_even_spec (x * 10 ^ n)) as [_ H2].
  assert (Hz : (round_half_even (x * 10 ^ n) < z + 1)%Z).
  { apply lt_IZR. rewrite plus_IZR. lra. }
  lia.
Qed.

(** Decide the comparisons that stand in the goal. *)
Ltac rbool :=
  repeat match goal with
  | |- context [Rltb ?x ?y] =>
      let H := fresh "H" in
      destruct (Rltb x y) eqn:H;
      [apply Rltb_true in H | apply Rltb_false in H]; try lra
  | |- context [Rleb ?x ?y] =>
      let H := fresh "H" in
      destruct (Rleb x y) eqn:H;
      [apply Rleb_true in H | apply Rleb_false in H]; try lra
  | |- context [Reqb ?x ?y] =>
      let H := fresh "H" in
      destruct (Reqb x y) eqn:H;
      [apply Reqb_true in H | apply Reqb_false in H];
      try lra; try (exfalso; apply H; lra)
  end.

Lemma truthy_nonzero (x : R) : x <> 0 -> truthy (Some x) = true.
Proof. intros. now apply truthy_Some. Qed.

Lemma truthy_absent (v : option R) :
  v = None \/ v = Some 0 -> truthy v = false.
Proof. intros [-> | ->]; [reflexivity | apply truthy_zero]. Qed.

Lemma Reqb_refl (x : R) : Reqb x x = true.
Proof. now apply Reqb_true. Qed.

Lemma ln_nonzero (x : R) : 0 < x -> x <> 1 -> ln x <> 0.
Proof.
  intros Hx Hne Hln. apply Hne. apply ln_inv; [assumption | lra |].
  now rewrite ln_1.
Qed.

(** ** The wind speed at 2 m *)

(** C9 (as amended).  [wind_speed_2m] splits four ways on Python
    truthiness: a logged non-zero wind speed measured at 2 m is returned
    unchanged; a logged non-zero wind speed measured at another height [h]
    with [67.8 h - 5.42] positive and different from 1 gives
    [wind_speed * 4.87 / ln (67.8 h - 5.42)] rounded to one decimal; with no
    wind observation, or one that is 0, and a climate, the climate's
    [average_wind_speed]; with neither, [None]. *)
Theorem wind_speed_2m_cases (st : Station) (e : TimeEntry) :
  (forall w, wind_speed e = Some w -> w <> 0 -> anemometer_height st = 2 ->
     wind_speed_2m st e = Ok (Some w))
  /\ (forall w, wind_speed e = Some w -> w <> 0 ->
        anemometer_height st <> 2 ->
        0 < 67.8 * anemometer_height st - 5.42 ->
        67.8 * anemometer_height st - 5.42 <> 1 ->
        wind_speed_2m st e =
          Ok (Some (py_round
                      (w * (4.87 / ln (67.8 * anemometer_height st - 5.42)))
                      1)))
  /\ (forall c, wind_speed e = None \/ wind_speed e = Some 0 ->
        climate st = Some c ->
        wind_speed_2m st e = Ok (Some (average_wind_speed c)))
  /\ (wind_speed e = None \/ wind_speed e = Some 0 ->
        climate st = None ->
        wind_speed_2m st e = Ok None).
Proof.
  repeat split.
  - intros w Hw Hnz Hh. unfold wind_speed_2m.
    rewrite Hw, (truthy_nonzero w Hnz), Hh, Reqb_refl. reflexivity.
  - intros w Hw Hnz Hh Hpos Hne1. unfold wind_speed_2m.
    rewrite Hw, (truthy_nonzero w Hnz).
    apply Reqb_false in Hh. rewrite Hh. simpl.
    unfold py_log. apply Rltb_true in Hpos. rewrite Hpos. simpl.
    unfold py_div.
    apply Rltb_true in Hpos.
    pose proof (ln_nonzero _ Hpos Hne1) as Hln.
    apply Reqb_false in Hln. rewrite Hln. reflexivity.
  - intros c Hw Hc. unfold wind_speed_2m.
    rewrite (truthy_absent _ Hw), Hc. reflexivity.
  - intros Hw Hc. unfold wind_speed_2m.
    rewrite (truthy_absent _ Hw), Hc. reflexivity.
Qed.

Lemma wind_speed_2m_cases_witness :
  wind_speed_2m equator_station
    (observed_day equator_station 1 None None None None (Some 3))
  = Ok (Some 3)
  /\ wind_speed_2m mast_station
       (observed_day mast_station 1 None None None None (Some 3))
     = Ok (Some (py_round (3 * (4.87 / ln (67.8 * 10 - 5.42))) 1))
  /\ wind_speed_2m equator_station (blank_day equator_station 1)
     = Ok (Some 2)
  /\ wind_speed_2m bare_station (blank_day bare_station 1) = Ok None.
Proof.
  split; [|split; [|split]].
  - apply (proj1 (wind_speed_2m_cases equator_station
                    (observed_day equator_station 1 None None None None
                                  (Some 3))) 3);
      [reflexivity | lra | reflexivity].
  - apply (proj1 (proj2 (wind_speed_2m_cases mast_station
                    (observed_day mast_station 1 None None None None
                                  (Some 3)))) 3);
      [reflexivity | lra | simpl; lra | simpl; lra | simpl; lra].
  - apply (proj1 (proj2 (proj2 (wind_speed_2m_cases equator_station
                    (blank_day equator_station 1)))) Climate_init);
      [left; reflexivity | reflexivity].
  - apply (proj2 (proj2 (proj2 (wind_speed_2m_cases bare_station
                    (blank_day bare_station 1)))));
      [left; reflexivity | reflexivity].
Defined.

(** C9 (as stated) fails: a wind speed logged as 0 at 2 m is not returned
    unchanged, the climate's average wind speed (2.0) is returned. *)
Lemma wind_speed_2m_zero_counterexample :
  wind_speed (observed_day equator_station 1 None None None None (Some 0))
    = Some 0
  /\ anemometer_height equator_station = 2
  /\ wind_speed_2m equator_station
       (observed_day equator_station 1 None None None None (Some 0))
     = Ok (Some 2)
  /\ wind_speed_2m equator_station
       (observed_day equator_station 1 None None None None (Some 0))
     <> Ok (Some 0).
Proof.
  assert (E : wind_speed_2m equator_station
                (observed_day equator_station 1 None None None None (Some 0))
              = Ok (Some 2)).
  { unfold wind_speed_2m. simpl wind_speed. rewrite truthy_zero. reflexivity. }
  repeat split; try reflexivity; try exact E.
  rewrite E. intros H. injection H as H. lra.
Qed.

(** ** A logged zero counts as no observation *)

(** Clearing [radiation_s] changes nothing the astronomic chain reads. *)
Lemma R_a_set_radiation_s (st : Station) (e : TimeEntry) (v : option R) :
  R_a st (set_radiation_s e v) = R_a st e.
Proof. reflexivity. Qed.

Lemma daylight_hours_set_radiation_s (st : Station) (e : TimeEntry)
    (v : option R) :
  daylight_hours st (set_radiation_s e v) = daylight_hours st e.
Proof. reflexivity. Qed.

Lemma DayEntry_solar_radiation_zero (g : Globals) (st : Station)
    (e : TimeEntry) :
  radiation_s e = Some 0 ->
  DayEntry_solar_radiation g st e
  = DayEntry_solar_radiation g st (set_radiation_s e None).
Proof.
  intros H. unfold DayEntry_solar_radiation.
  rewrite H, truthy_zero. reflexivity.
Qed.

(** C10.  In the fallback chains an observation logged as exactly 0 is
    treated as absent: with [wind_speed = 0] and a climate,
    [wind_speed_2m] returns the climate's average wind speed; with
    [temp_mean = 0], [Tmean] is the average of non-zero [temp_max] and
    [temp_min], and [None] when one of them is missing; with [temp_min = 0],
    [dew_point] is the logged dew point or [None], never the estimate from
    the climate; a day entry with [radiation_s = 0] computes its solar
    radiation as the entry without [radiation_s] does. *)
Theorem zero_observation_is_absent (g : Globals) (st : Station)
    (e : TimeEntry) :
  (forall c, wind_speed e = Some 0 -> climate st = Some c ->
     wind_speed_2m st e = Ok (Some (average_wind_speed c)))
  /\ (forall a b, temp_mean e = Some 0 ->
        temp_max e = Some a -> temp_min e = Some b -> a <> 0 -> b <> 0 ->
        Tmean e = Some ((a + b) / 2))
  /\ (temp_mean e = Some 0 -> temp_max e = None \/ temp_min e = None ->
        Tmean e = None)
  /\ (temp_min e = Some 0 ->
        dew_point e = if truthy (temp_dew e) then temp_dew e else None)
  /\ (class e = DayEntry -> radiation_s e = Some 0 ->
        solar_radiation g st e
        = solar_radiation g st (set_radiation_s e None)).
Proof.
  split; [|split; [|split; [|split]]].
  - intros c Hw Hc. unfold wind_speed_2m.
    rewrite Hw, truthy_zero, Hc. reflexivity.
  - intros a b Hm Ha Hb Hna Hnb. unfold Tmean.
    rewrite Hm, truthy_zero, Ha, Hb.
    rewrite (truthy_nonzero a Hna), (truthy_nonzero b Hnb). reflexivity.
  - intros Hm Hab. unfold Tmean. rewrite Hm, truthy_zero.
    destruct Hab as [-> | ->]; [reflexivity|].
    destruct (temp_max e); reflexivity.
  - intros Hmin. unfold dew_point. rewrite Hmin, truthy_zero.
    destruct (truthy (temp_dew e)); [reflexivity|].
    destruct (self_climate e); reflexivity.
  - intros Hc Hr. unfold solar_radiation. simpl class. rewrite Hc.
    now apply DayEntry_solar_radiation_zero.
Qed.

Lemma zero_observation_is_absent_witness :
  wind_speed_2m equator_station
    (observed_day equator_station 1 (Some 0) None None None (Some 0))
  = Ok (Some 2)
  /\ Tmean (observed_day equator_station 1 (Some 10) (Some 20) (Some 0)
                         None None)
     = Some ((20 + 10) / 2)
  /\ Tmean (observed_day equator_station 1 (Some 0) None (Some 0) None
                         (Some 0))
     = None
  /\ dew_point
       (observed_day equator_station 1 (Some 0) None None None (Some 0))
     = None
  /\ solar_radiation module_globals equator_station
       (set_radiation_s (blank_day equator_station 1) (Some 0))
     = solar_radiation module_globals equator_station
         (set_radiation_s
            (set_radiation_s (blank_day equator_station 1) (Some 0)) None).
Proof.
  split; [|split; [|split; [|split]]].
  - apply (proj1 (zero_observation_is_absent module_globals equator_station
             (observed_day equator_station 1 (Some 0) None None None
                           (Some 0))) Climate_init);
      reflexivity.
  - apply (proj1 (proj2 (zero_observation_is_absent module_globals
             equator_station
             (observed_day equator_station 1 (Some 10) (Some 20) (Some 0)
                           None None))) 20 10);
      try reflexivity; lra.
  - apply (proj1 (proj2 (proj2 (zero_observation_is_absent module_globals
             equator_station
             (observed_day equator_station 1 (Some 0) None (Some 0) None
                           (Some 0))))));
      [reflexivity | left; reflexivity].
  - apply (proj1 (proj2 (proj2 (proj2 (zero_observation_is_absent
             module_globals equator_station
             (observed_day equator_station 1 (Some 0) None None None
                           (Some 0)))))));
      reflexivity.
  - apply (proj2 (proj2 (proj2 (proj2 (zero_observation_is_absent
             module_globals equator_station
             (set_radiation_s (blank_day equator_station 1) (Some 0)))))));
      reflexivity.
Defined.

(** ** Construction of the station *)

Lemma day_entry_timezone (g : Globals) (st : Station) (d : day_id)
    (tmin tmax tmean wind hmean rad sun : option R) :
  timezone_longitude (fst (day_entry g st d tmin tmax tmean wind hmean rad sun))
  = timezone_longitude st.
Proof.
  unfold day_entry.
  destruct (negb _); [reflexivity|].
  match goal with |- context [match ?m with Ok _ => _ | Raise _ => _ end] =>
    destruct m; [|reflexivity] end.
  match goal with |- context [match ?m with Ok _ => _ | Raise _ => _ end] =>
    destruct m; reflexivity end.
Qed.

Lemma hour_entry_timezone (g : Globals) (st : Station) (t : datetime)
    (tmin tmax tmean wind hmean rad : option R) :
  timezone_longitude (fst (hour_entry g st t tmin tmax tmean wind hmean rad))
  = timezone_longitude st.
Proof.
  unfold hour_entry.
  match goal with |- context [match ?m with Ok _ => _ | Raise _ => _ end] =>
    destruct m; reflexivity end.
Qed.

(** C4 (as amended).  With a float latitude in [-90, 90], a float
    longitude in [0, 360] and an integer altitude that is not negative,
    [Station(...)] succeeds when the timezone longitude argument is in
    [0, 359], and the station's [timezone_longitude] is then 345 whatever
    the argument was, and stays 345 through [day_entry] and [hour_entry];
    with the argument outside [0, 359] the constructor raises [Exception]. *)
Theorem Station_init_timezone_longitude (lat lon : R) (alt : Z)
    (anem tz : pynum) :
  -90 <= lat <= 90 -> 0 <= lon <= 360 -> (0 <= alt)%Z ->
  (0 <= num_val tz <= 359 ->
     exists st,
       Station_init (PyFloat lat) (PyFloat lon) (PyInt alt) anem tz = Ok st
       /\ timezone_longitude st = 345
       /\ (forall g d tmin tmax tmean wind hmean rad sun,
             timezone_longitude
               (fst (day_entry g st d tmin tmax tmean wind hmean rad sun))
             = 345)
       /\ (forall g t tmin tmax tmean wind hmean rad,
             timezone_longitude
               (fst (hour_entry g st t tmin tmax tmean wind hmean rad))
             = 345))
  /\ (num_val tz < 0 \/ 359 < num_val tz ->
        Station_init (PyFloat lat) (PyFloat lon) (PyInt alt) anem tz
        = Raise (PyException
                   (Lit "'timezone_longitude in degrees West of Greenwhich."))).
Proof.
  intros Hlat Hlon Halt.
  assert (Ha : (alt <? 0)%Z = false) by (apply Z.ltb_ge; lia).
  split.
  - intros Htz. unfold Station_init. rbool. simpl. rewrite Ha. rbool. simpl.
    eexists. split; [reflexivity|].
    split; [reflexivity|].
    split.
    + intros. now rewrite day_entry_timezone.
    + intros. now rewrite hour_entry_timezone.
  - intros Htz. unfold Station_init.
    destruct Htz as [Htz | Htz]; rbool; simpl; rewrite Ha; reflexivity.
Qed.

Lemma Station_init_timezone_longitude_witness :
  (exists st,
     Station_init (PyFloat 0) (PyFloat 300) (PyInt 0) (PyInt 2) (PyInt 15)
     = Ok st
     /\ timezone_longitude st = 345
     /\ (forall g d tmin tmax tmean wind hmean rad sun,
           timezone_longitude
             (fst (day_entry g st d tmin tmax tmean wind hmean rad sun))
           = 345)
     /\ (forall g t tmin tmax tmean wind hmean rad,
           timezone_longitude
             (fst (hour_entry g st t tmin tmax tmean wind hmean rad))
           = 345))
  /\ Station_init (PyFloat 0) (PyFloat 300) (PyInt 0) (PyInt 2) (PyInt 360)
     = Raise (PyException
                (Lit "'timezone_longitude in degrees West of Greenwhich.")).
Proof.
  split.
  - apply (proj1 (Station_init_timezone_longitude 0 300 0 (PyInt 2)
                    (PyInt 15) ltac:(lra) ltac:(lra) ltac:(lia)));
      simpl; lra.
  - apply (proj2 (Station_init_timezone_longitude 0 300 0 (PyInt 2)
                    (PyInt 360) ltac:(lra) ltac:(lra) ltac:(lia)));
      right; simpl; lra.
Defined.

(** [Station(0.0, 300.0, 0, 2, tz)] for a valid [tz] is the equator
    station. *)
Lemma Station_init_equator (tz : pynum) :
  0 <= num_val tz <= 359 ->
  Station_init (PyFloat 0) (PyFloat 300) (PyInt 0) (PyInt 2) tz
  = Ok equator_station.
Proof.
  intros Htz. unfold Station_init. rbool. simpl. rbool. simpl.
  unfold equator_station. f_equal. f_equal.
  replace (PI / 180 * 0) with 0 by ring. apply py_round_0.
Qed.

(** C4 (as stated) fails: built with the timezone longitude 15 the station
    stores 345, not the argument. *)
Lemma Station_init_timezone_counterexample :
  Station_init (PyFloat 0) (PyFloat 300) (PyInt 0) (PyInt 2) (PyInt 15)
  = Ok equator_station
  /\ timezone_longitude equator_station = 345
  /\ timezone_longitude equator_station <> num_val (PyInt 15).
Proof.
  split; [|split].
  - apply Station_init_equator. simpl. lra.
  - reflexivity.
  - simpl. lra.
Qed.

(** ** Numeric bounds *)

Lemma PI_bounds : 3.14159 < PI < 3.1416.
Proof.
  pose proof (PI_2_3_7_ineq 3) as [H1 H2].
  unfold sum_f_R0, tg_alt, PI_2_3_7_tg, Ratan_seq in H1, H2.
  simpl in H1, H2.
  split; lra.
Qed.

Lemma cos_ge_quadratic (x : R) : -2 <= x <= 2 -> 1 - x * x / 2 <= cos x.
Proof.
  intros [Hlo Hhi].
  pose proof (pre_cos_bound x 0 Hlo Hhi) as [H _].
  unfold cos_approx, cos_term in H. simpl in H. lra.
Qed.

(** A point strictly inside the cell of the grid value [z / 10^n] rounds
    to it. *)
Lemma py_round_near (x : R) (z : Z) (n : nat) :
  IZR z - 1 / 2 < x * 10 ^ n < IZR z + 1 / 2 ->
  py_round x n = IZR z / 10 ^ n.
Proof.
  intros H. unfold py_round. now rewrite (round_half_even_near _ z H).
Qed.

Lemma relative_sun_distance_bounds (e : TimeEntry) :
  0.9665 <= relative_sun_distance e <= 1.0335.
Proof.
  unfold relative_sun_distance.
  pose proof (COS_bound (2 * PI / 365 * IZR (day_number e))) as [H1 H2].
  pose proof (py_round_3
                (1 + 0.033 * cos (2 * PI / 365 * IZR (day_number e)))).
  lra.
Qed.

Lemma solar_declination_bounds (e : TimeEntry) :
  -0.4095 <= solar_declination e <= 0.4095.
Proof.
  unfold solar_declination.
  pose proof (SIN_bound (2 * PI / 365 * IZR (day_number e) - 1.39))
    as [H1 H2].
  pose proof (py_round_3
                (0.409 * sin (2 * PI / 365 * IZR (day_number e) - 1.39))).
  lra.
Qed.

(** ** A station on the equator *)

Section Equator.

Variable st : Station.
Hypothesis on_equator : latitude_rad st = 0.

Lemma sunset_hour_angle_equator (e : TimeEntry) :
  sunset_hour_angle st e = Ok 1.571.
Proof.
  unfold sunset_hour_angle. rewrite on_equator, tan_0.
  replace (-1 * 0 * tan (solar_declination e)) with 0 by ring.
  unfold py_acos. rbool. simpl. rewrite acos_0.
  f_equal. pose proof PI_bounds.
  rewrite (py_round_near (PI / 2) 1571 3); simpl; lra.
Qed.

Lemma daylight_hours_equator (e : TimeEntry) :
  daylight_hours st e = Ok 12.
Proof.
  unfold daylight_hours. rewrite sunset_hour_angle_equator. simpl.
  f_equal. pose proof PI_bounds as [Hlo Hhi].
  rewrite (py_round_near (24 / PI * 1.571) 120 1); simpl; [lra|].
  assert (Hq : 11.99 < 24 / PI * 1.571 < 12.01).
  { split.
    - apply Rmult_lt_reg_r with PI; [lra|].
      replace (24 / PI * 1.571 * PI) with (24 * 1.571) by (field; lra). lra.
    - apply Rmult_lt_reg_r with PI; [lra|].
      replace (24 / PI * 1.571 * PI) with (24 * 1.571) by (field; lra). lra. }
  lra.
Qed.

Lemma sin_sunset_equator : 0.999 <= sin 1.571 <= 1.
Proof.
  split; [|apply SIN_bound].
  rewrite <- cos_shift.
  pose proof PI_bounds.
  pose proof (cos_ge_quadratic (PI / 2 - 1.571) ltac:(lra)). nra.
Qed.

(** Daily extraterrestrial radiation on the equator lies between 30 and
    40 MJ/m2/day on every day of the year. *)
Lemma TimeEntry_R_a_equator (e : TimeEntry) :
  exists ra, TimeEntry_R_a st e = Ok ra /\ 30 <= ra <= 40.
Proof.
  unfold TimeEntry_R_a. rewrite sunset_hour_angle_equator. simpl.
  eexists. split; [reflexivity|].
  rewrite on_equator, sin_0, cos_0.
  pose proof (relative_sun_distance_bounds e) as [Hd1 Hd2].
  pose proof (solar_declination_bounds e) as [Hs1 Hs2].
  pose proof (cos_ge_quadratic (solar_declination e) ltac:(lra)) as Hc1.
  pose proof (COS_bound (solar_declination e)) as [_ Hc2].
  pose proof sin_sunset_equator as [Hw1 Hw2].
  pose proof PI_bounds as [Hp1 Hp2].
  set (d := relative_sun_distance e) in *.
  set (c := cos (solar_declination e)) in *.
  set (s := sin 1.571) in *.
  assert (Hc : 0.916 <= c) by nra.
  assert (Hk : 37.58 < 24 * 60 / PI * 0.0820 < 37.59).
  { split.
    - apply Rmult_lt_reg_r with PI; [lra|].
      replace (24 * 60 / PI * 0.0820 * PI) with (24 * 60 * 0.0820)
        by (field; lra). lra.
    - apply Rmult_lt_reg_r with PI; [lra|].
      replace (24 * 60 / PI * 0.0820 * PI) with (24 * 60 * 0.0820)
        by (field; lra). lra. }
  set (k := 24 * 60 / PI * 0.0820) in *.
  assert (Hcs : 0.915 <= c * s <= 1) by nra.
  assert (Hdcs : 0.884 <= d * (c * s) <= 1.0335) by nra.
  assert (Hx : 33 <= k * d * (1.571 * 0 * sin (solar_declination e)
                              + 1 * c * s) <= 39).
  { replace (k * d * (1.571 * 0 * sin (solar_declination e) + 1 * c * s))
      with (k * (d * (c * s))) by ring.
    nra. }
  pose proof (py_round_1 (k * d * (1.571 * 0 * sin (solar_declination e)
                                   + 1 * c * s))).
  lra.
Qed.

End Equator.

(** ** Errors through [net_radiation] and [eto] *)

(** Whatever [R_nl] or [net_radiation] raises inside the [try] comes out
    as the [TypeError] of [raise(str(e))]. *)
Lemma try_raise_str_Raise {A : Type} (err : exn) :
  try_raise_str (Raise err : result A) = Raise raise_str.
Proof. reflexivity. Qed.

Lemma eto_net_radiation_error (g : Globals) (st : Station) (e : TimeEntry)
    (u T : R) (err : exn) :
  wind_speed_2m st e = Ok (Some u) -> u <> 0 ->
  Tmean e = Some T ->
  net_radiation g st e = Raise err ->
  eto g st e = Raise raise_str.
Proof.
  intros Hu Hnz HT Hn. unfold eto.
  rewrite Hu. unfold bind at 1. rewrite (truthy_nonzero u Hnz).
  simpl negb. cbv iota. rewrite HT, Hn. reflexivity.
Qed.

(** C3, on the failing input.  [day_entry(1, temp_min=10.0, temp_max=20.0,
    sunshine_hours=-1.0)] on [Station(0.0, 300.0, 0)] succeeds; on the entry
    it returns, [net_radiation()] raises the [ValueError] of
    [solar_radiation] and [eto()] raises a [TypeError] instead. *)
Theorem eto_replaces_net_radiation_error :
  day_entry module_globals equator_station (DayInt 1)
            (Some 10) (Some 20) None None None None (Some (-1))
  = (set_day equator_station 1 negative_sunshine_day,
     Ok negative_sunshine_day)
  /\ net_radiation module_globals
       (set_day equator_station 1 negative_sunshine_day)
       negative_sunshine_day
     = Raise (ValueError
                (Lit "Observed daylight hours cannot be less than 0"))
  /\ eto module_globals
       (set_day equator_station 1 negative_sunshine_day)
       negative_sunshine_day
     = Raise (TypeError (Lit "exceptions must derive from BaseException")).
Proof.
  assert (Hneg : truthy (Some (-1)) = true) by (apply truthy_nonzero; lra).
  assert (Hn : net_radiation module_globals
                 (set_day equator_station 1 negative_sunshine_day)
                 negative_sunshine_day
               = Raise (ValueError
                          (Lit "Observed daylight hours cannot be less than 0"))).
  { unfold net_radiation, R_ns, solar_radiation. simpl class.
    unfold DayEntry_solar_radiation. simpl radiation_s.
    simpl truthy. simpl sunshine_hours.
    rbool; reflexivity. }
  split; [|split].
  - unfold day_entry. simpl day_number_of. simpl negb.
    cbv iota. cbv zeta. simpl truthy at 1. cbv iota.
    rewrite Hneg. simpl CHECK_SUNSHINE_HOURS_RANGE. cbv iota.
    simpl num. unfold bind at 1.
    rewrite daylight_hours_equator by reflexivity.
    unfold bind. rbool; reflexivity.
  - exact Hn.
  - eapply (eto_net_radiation_error _ _ _ 2 ((20 + 10) / 2)).
    + reflexivity.
    + lra.
    + unfold Tmean. simpl temp_mean. simpl truthy at 1. cbv iota.
      simpl temp_max. simpl temp_min. cbv beta iota.
      rewrite !truthy_nonzero by lra. reflexivity.
    + exact Hn.
Qed.

(** ** The radiation check of [hour_entry] *)

(** The registries are not read by the astronomic chain. *)
Lemma R_so_set_hour (st : Station) (k : Z) (e' e : TimeEntry) :
  R_so (set_hour st k e') e = R_so st e.
Proof. reflexivity. Qed.

Lemma R_so_set_day (st : Station) (n : Z) (e' e : TimeEntry) :
  R_so (set_day st n e') e = R_so st e.
Proof. reflexivity. Qed.

Lemma daylight_hours_set_day (st : Station) (n : Z) (e' e : TimeEntry) :
  daylight_hours (set_day st n e') e = daylight_hours st e.
Proof. reflexivity. Qed.

(** The check of [hour_entry] is the reverse of the one
    [HourEntry.solar_radiation] makes: a non-zero radiation that does not
    exceed the clear-sky radiation by more than 5% is refused. *)
Lemma hour_entry_rejects_in_band (g : Globals) (st : Station) (t : datetime)
    (tmin tmax tmean wind hmean : option R) (rs rso : R) :
  CHECK_RADIATION_RANGE g = true -> rs <> 0 ->
  R_so st (observed_hour st t tmin tmax tmean hmean wind) = Ok rso ->
  rs - rso <= 0.05 * rso ->
  snd (hour_entry g st t tmin tmax tmean wind hmean (Some rs))
  = Raise (ValueError (Lit "Radiation out of range")).
Proof.
  intros Hg Hnz Hrso Hband. unfold hour_entry.
  rewrite (truthy_nonzero rs Hnz), Hg. simpl num. unfold bind at 1.
  rewrite R_so_set_hour. fold (observed_hour st t tmin tmax tmean hmean wind).
  rewrite Hrso. unfold bind. rbool; reflexivity.
Qed.

(** And one that exceeds it by more than 5% is stored. *)
Lemma hour_entry_stores_out_of_band (g : Globals) (st : Station)
    (t : datetime) (tmin tmax tmean wind hmean : option R) (rs rso : R) :
  CHECK_RADIATION_RANGE g = true -> rs <> 0 ->
  R_so st (observed_hour st t tmin tmax tmean hmean wind) = Ok rso ->
  0.05 * rso < rs - rso ->
  snd (hour_entry g st t tmin tmax tmean wind hmean (Some rs))
  = Ok (set_radiation_s (observed_hour st t tmin tmax tmean hmean wind)
                        (Some rs)).
Proof.
  intros Hg Hnz Hrso Hband. unfold hour_entry.
  rewrite (truthy_nonzero rs Hnz), Hg. simpl num. unfold bind at 1.
  rewrite R_so_set_hour. fold (observed_hour st t tmin tmax tmean hmean wind).
  rewrite Hrso. unfold bind. rbool; reflexivity.
Qed.

(** At 23:00 on the equator station the sun is down: the solar time angle
    is beyond the sunset hour angle and the clear-sky radiation is 0. *)
Lemma solar_time_angle_late_evening (e : TimeEntry) :
  time e = Stamp late_evening ->
  exists w, solar_time_angle equator_station e = Ok w /\ 1.571 < w.
Proof.
  intros Ht. unfold solar_time_angle. rewrite Ht.
  eexists. split; [reflexivity|].
  simpl hour. simpl timezone_longitude. simpl longitude.
  set (b := 2 * PI * (IZR (day_number e) - 81) / 364).
  pose proof (SIN_bound (2 * b)) as [Ha1 Ha2].
  pose proof (COS_bound b) as [Hb1 Hb2].
  pose proof (SIN_bound b) as [Hc1 Hc2].
  pose proof PI_bounds as [Hp1 Hp2].
  set (x := IZR 23 + 0.5 + 0.06667 * (345 - 300)
            + (0.1645 * sin (2 * b) - 0.1255 * cos b - 0.025 * sin b) - 12).
  assert (Hx : 14 <= x) by (unfold x; lra).
  nra.
Qed.

Lemma R_so_late_evening (e : TimeEntry) :
  class e = HourEntry -> time e = Stamp late_evening ->
  R_so equator_station e = Ok 0.
Proof.
  intros Hc Ht. unfold R_so. simpl altitude. simpl Z.ltb. cbv iota.
  unfold R_a. rewrite Hc. unfold HourEntry_R_a.
  rewrite sunset_hour_angle_equator by reflexivity. unfold bind at 2.
  destruct (solar_time_angle_late_evening e Ht) as (w & Hw & Hlt).
  rewrite Hw. unfold bind at 2.
  assert (Hn : Rltb 1.571 w = true) by now apply Rltb_true.
  rewrite Hn, orb_true_r. unfold bind.
  f_equal. replace ((0.25 + 0.50) * 0) with 0 by ring. apply py_round_0.
Qed.

(** C1, on the failing input.  At 23:00 on [Station(0.0, 300.0, 0)] the
    clear-sky radiation is exactly 0; [hour_entry(..., radiation_s=1.0)],
    far above the 0.05 allowed over a zero ceiling, stores the radiation
    and returns the entry, and [solar_radiation()] of that very entry
    raises the [ValueError] of the band check. *)
Theorem hour_entry_accepts_night_radiation :
  R_so equator_station
       (observed_hour equator_station late_evening None None None None None)
  = Ok 0
  /\ hour_entry module_globals equator_station late_evening
                None None None None None (Some 1)
     = (set_hour equator_station 438311 night_hour, Ok night_hour)
  /\ radiation_s night_hour = Some 1
  /\ solar_radiation module_globals equator_station night_hour
     = Raise (ValueError
                (LitNumLit "'Lunar' radiation out ot range. radiation ="
                           1 " should be near 0.")).
Proof.
  assert (Hone : truthy (Some 1) = true) by (apply truthy_nonzero; lra).
  split; [|split; [|split]].
  - now apply R_so_late_evening.
  - unfold hour_entry. rewrite Hone. simpl CHECK_RADIATION_RANGE. cbv iota.
    simpl num. unfold bind at 1.
    rewrite R_so_set_hour, R_so_late_evening by reflexivity.
    unfold bind. rbool; reflexivity.
  - reflexivity.
  - unfold solar_radiation. simpl class. unfold HourEntry_solar_radiation.
    simpl radiation_s. simpl CHECK_RADIATION_RANGE. cbv iota.
    rewrite R_so_late_evening by reflexivity.
    unfold bind. rbool; reflexivity.
Qed.

(** ** [day_entry]: registration and the radiation round trip *)

(** The clear-sky radiation depends on the position of the station and on
    the date of the entry only. *)
Lemma R_so_ext (st st' : Station) (e e' : TimeEntry) :
  altitude st = altitude st' ->
  latitude_rad st = latitude_rad st' ->
  longitude st = longitude st' ->
  timezone_longitude st = timezone_longitude st' ->
  class e = class e' ->
  day_number e = day_number e' ->
  time e = time e' ->
  R_so st e = R_so st' e'.
Proof.
  intros Ha Hl Hlo Htz Hc Hd Ht.
  unfold R_so, R_a, TimeEntry_R_a, HourEntry_R_a, sunset_hour_angle,
    solar_time_angle, relative_sun_distance, solar_declination.
  rewrite Ha, Hl, Hlo, Htz, Hc, Hd, Ht. reflexivity.
Qed.

(** C2 (as amended).  When [day_entry], called with a day number in
    1..366, raises (the radiation above the clear-sky radiation, the
    sunshine hours above the daylight hours, or an error of the astronomic
    chain), the station is not as it was: its [days] registry holds, under
    that day number, a new entry carrying the temperature, humidity and wind
    arguments and no sunshine hours, in place of any entry stored there
    before; the other days and the hours are unchanged. *)
Theorem day_entry_failure_registers (g : Globals) (st : Station) (d : day_id)
    (tmin tmax tmean wind hmean rad sun : option R) (err : exn) :
  (1 <= day_number_of d <= 366)%Z ->
  snd (day_entry g st d tmin tmax tmean wind hmean rad sun) = Raise err ->
  exists e,
    fst (day_entry g st d tmin tmax tmean wind hmean rad sun)
    = set_day st (day_number_of d) e
    /\ days (fst (day_entry g st d tmin tmax tmean wind hmean rad sun))
         !! day_number_of d = Some e
    /\ (forall k, k <> day_number_of d ->
          days (fst (day_entry g st d tmin tmax tmean wind hmean rad sun))
            !! k = days st !! k)
    /\ hours (fst (day_entry g st d tmin tmax tmean wind hmean rad sun))
       = hours st
    /\ class e = DayEntry /\ day_number e = day_number_of d
    /\ temp_min e = tmin /\ temp_max e = tmax /\ temp_mean e = tmean
    /\ humidity_mean e = hmean /\ wind_speed e = wind
    /\ sunshine_hours e = None.
Proof.
  intros [Hlo Hhi] Hfail.
  assert (Hrange : negb ((1 <=? day_number_of d)%Z
                         && (day_number_of d <=? 366)%Z) = false).
  { apply negb_false_iff, andb_true_iff. split; apply Z.leb_le; lia. }
  assert (Hreg : forall e : TimeEntry,
             days (set_day st (day_number_of d) e) !! day_number_of d = Some e
             /\ (forall k, k <> day_number_of d ->
                   days (set_day st (day_number_of d) e) !! k = days st !! k)
             /\ hours (set_day st (day_number_of d) e) = hours st).
  { intros e. simpl. split; [apply lookup_insert_eq|].
    split; [|reflexivity].
    intros k Hk. apply lookup_insert_ne. congruence. }
  revert Hfail. unfold day_entry. rewrite Hrange.
  cbv zeta.
  match goal with |- context [match ?m with Ok _ => _ | Raise _ => _ end] =>
    destruct m as [day1|err1] eqn:Hrad end.
  - match goal with |- context [match ?m with Ok _ => _ | Raise _ => _ end] =>
      destruct m as [day2|err2] eqn:Hsun end; [discriminate|].
    intros _. simpl fst.
    exists day1.
    destruct (Hreg day1) as (H1 & H2 & H3).
    repeat (split; [first [reflexivity | assumption | idtac]|]);
      revert Hrad;
      repeat match goal with
             | |- context [if ?b then _ else _] => destruct b
             end;
      unfold bind;
      repeat match goal with
             | |- context [match ?m with Ok _ => _ | Raise _ => _ end] =>
                 destruct m
             | |- context [if ?b then _ else _] => destruct b
             end;
      intros Hrad; try discriminate; injection Hrad as <-; reflexivity.
  - intros _. simpl fst.
    eexists.
    destruct (Hreg (set_observations
                      (TimeEntry_init DayEntry (DayNumber (day_number_of d))
                                      st)
                      tmin tmax tmean hmean wind)) as (H1 & H2 & H3).
    repeat (split; [first [reflexivity | eassumption]|]). reflexivity.
Qed.

(** The two validation failures of the claim do raise, and leave the entry
    registered. *)
Lemma day_entry_radiation_above_ceiling (g : Globals) (st : Station)
    (d : day_id) (tmin tmax tmean wind hmean sun : option R) (rs rso : R) :
  (1 <= day_number_of d <= 366)%Z ->
  CHECK_RADIATION_RANGE g = true -> rs <> 0 ->
  R_so st (observed_day st (day_number_of d) tmin tmax tmean hmean wind)
  = Ok rso ->
  rso < rs ->
  day_entry g st d tmin tmax tmean wind hmean (Some rs) sun
  = (set_day st (day_number_of d)
             (observed_day st (day_number_of d) tmin tmax tmean hmean wind),
     Raise (ValueError (Lit "Raditaion out of range"))).
Proof.
  intros [Hlo Hhi] Hg Hnz Hrso Hlt.
  assert (Hrange : negb ((1 <=? day_number_of d)%Z
                         && (day_number_of d <=? 366)%Z) = false).
  { apply negb_false_iff, andb_true_iff. split; apply Z.leb_le; lia. }
  unfold day_entry. rewrite Hrange, (truthy_nonzero rs Hnz), Hg.
  cbv zeta. simpl num. unfold bind at 1.
  rewrite R_so_set_day.
  fold (blank_day st (day_number_of d)).
  fold (observed_day st (day_number_of d) tmin tmax tmean hmean wind).
  rewrite Hrso. unfold bind. rbool; reflexivity.
Qed.

Lemma day_entry_sunshine_above_daylight (g : Globals) (st : Station)
    (d : day_id) (tmin tmax tmean wind hmean : option R) (n N : R) :
  (1 <= day_number_of d <= 366)%Z ->
  CHECK_SUNSHINE_HOURS_RANGE g = true -> n <> 0 ->
  daylight_hours st
    (observed_day st (day_number_of d) tmin tmax tmean hmean wind)
  = Ok N ->
  N < n ->
  day_entry g st d tmin tmax tmean wind hmean None (Some n)
  = (set_day st (day_number_of d)
             (observed_day st (day_number_of d) tmin tmax tmean hmean wind),
     Raise (ValueError (Lit "Sunshine hours out of range"))).
Proof.
  intros [Hlo Hhi] Hg Hnz HN Hlt.
  assert (Hrange : negb ((1 <=? day_number_of d)%Z
                         && (day_number_of d <=? 366)%Z) = false).
  { apply negb_false_iff, andb_true_iff. split; apply Z.leb_le; lia. }
  unfold day_entry. rewrite Hrange, (truthy_nonzero n Hnz), Hg.
  cbv zeta. simpl truthy. cbv iota. simpl num. unfold bind at 1.
  rewrite daylight_hours_set_day.
  fold (blank_day st (day_number_of d)).
  fold (observed_day st (day_number_of d) tmin tmax tmean hmean wind).
  rewrite HN. unfold bind. rbool; reflexivity.
Qed.

(** [day_entry(1, sunshine_hours=25.0)] on the equator station: the day
    has 12 daylight hours. *)
Lemma day_entry_equator_sunshine_25 :
  day_entry module_globals equator_station (DayInt 1)
            None None None None None None (Some 25)
  = (set_day equator_station 1
             (observed_day equator_station 1 None None None None None),
     Raise (ValueError (Lit "Sunshine hours out of range"))).
Proof.
  apply (day_entry_sunshine_above_daylight module_globals equator_station
           (DayInt 1) None None None None None 25 12).
  - simpl. lia.
  - reflexivity.
  - lra.
  - now apply daylight_hours_equator.
  - lra.
Qed.

Lemma day_entry_failure_registers_witness :
  exists e,
    fst (day_entry module_globals equator_station (DayInt 1)
                   None None None None None None (Some 25))
    = set_day equator_station 1 e
    /\ days (fst (day_entry module_globals equator_station (DayInt 1)
                            None None None None None None (Some 25)))
         !! 1%Z = Some e
    /\ (forall k, k <> 1%Z ->
          days (fst (day_entry module_globals equator_station (DayInt 1)
                               None None None None None None (Some 25)))
            !! k = days equator_station !! k)
    /\ hours (fst (day_entry module_globals equator_station (DayInt 1)
                             None None None None None None (Some 25)))
       = hours equator_station
    /\ class e = DayEntry /\ day_number e = 1%Z
    /\ temp_min e = None /\ temp_max e = None /\ temp_mean e = None
    /\ humidity_mean e = None /\ wind_speed e = None
    /\ sunshine_hours e = None.
Proof.
  apply (day_entry_failure_registers module_globals equator_station
           (DayInt 1) None None None None None None (Some 25)
           (ValueError (Lit "Sunshine hours out of range"))).
  - simpl. lia.
  - rewrite day_entry_equator_sunshine_25. reflexivity.
Defined.

(** C2 (as stated) fails: the equator station has no entry for day 1;
    [day_entry(1, sunshine_hours=25.0)] raises [ValueError], and
    afterwards the station has an entry for day 1. *)
Lemma day_entry_failure_counterexample :
  days equator_station !! 1%Z = None
  /\ snd (day_entry module_globals equator_station (DayInt 1)
                    None None None None None None (Some 25))
     = Raise (ValueError (Lit "Sunshine hours out of range"))
  /\ days (fst (day_entry module_globals equator_station (DayInt 1)
                          None None None None None None (Some 25)))
       !! 1%Z
     = Some (observed_day equator_station 1 None None None None None).
Proof.
  rewrite day_entry_equator_sunshine_25. simpl fst. simpl snd.
  split; [reflexivity|]. split; [reflexivity|].
  simpl. apply lookup_insert_eq.
Qed.

(** C8 (as amended).  When [day_entry] is given a radiation that is not 0
    and succeeds (with the range check on, the radiation is then at most
    the clear-sky radiation), [solar_radiation()] of the entry it returns
    is that radiation. *)
Theorem day_entry_radiation_round_trip (g : Globals) (st st' : Station)
    (d : day_id) (tmin tmax tmean wind hmean sun : option R) (r : R)
    (e : TimeEntry) :
  r <> 0 ->
  day_entry g st d tmin tmax tmean wind hmean (Some r) sun = (st', Ok e) ->
  solar_radiation g st' e = Ok r.
Proof.
  intros Hnz. unfold day_entry.
  destruct (negb _); [discriminate|].
  cbv zeta. rewrite (truthy_nonzero r Hnz).
  set (day := set_observations
                (TimeEntry_init DayEntry (DayNumber (day_number_of d)) st)
                tmin tmax tmean hmean wind).
  assert (Hfin : forall e0 : TimeEntry,
             class e0 = DayEntry -> radiation_s e0 = Some r ->
             day_number e0 = day_number day -> time e0 = time day ->
             (CHECK_RADIATION_RANGE g = true ->
                exists rso, R_so st day = Ok rso /\ r <= rso) ->
             solar_radiation g (set_day st (day_number_of d) e0) e0 = Ok r).
  { intros e0 Hc Hr Hd Ht Hck. unfold solar_radiation. rewrite Hc.
    unfold DayEntry_solar_radiation.
    rewrite Hr, (truthy_nonzero r Hnz). simpl num. unfold bind at 1.
    destruct (CHECK_RADIATION_RANGE g); [|reflexivity].
    destruct (Hck eq_refl) as (rso & Hrso & Hle).
    rewrite (R_so_ext _ st e0 day) by (try reflexivity; assumption).
    rewrite Hrso. unfold bind. rbool; reflexivity. }
  destruct (CHECK_RADIATION_RANGE g) eqn:Hg.
  - simpl num. unfold bind at 1. rewrite R_so_set_day.
    destruct (R_so st day) as [rso|err] eqn:Hrso; [|discriminate].
    unfold bind at 1.
    destruct (Rleb r rso) eqn:Hle; [|discriminate].
    apply Rleb_true in Hle.
    destruct (truthy sun).
    + destruct (CHECK_SUNSHINE_HOURS_RANGE g).
      * destruct (num sun) as [n|]; [|discriminate]. unfold bind at 1.
        destruct (daylight_hours _ _) as [N|]; [|discriminate].
        unfold bind at 1.
        destruct (Rleb n N); [|discriminate].
        intros H. injection H as <- <-.
        apply Hfin; try reflexivity. intros _. now exists rso.
      * intros H. injection H as <- <-.
        apply Hfin; try reflexivity. intros _. now exists rso.
    + intros H. injection H as <- <-.
      apply Hfin; try reflexivity. intros _. now exists rso.
  - destruct (truthy sun).
    + destruct (CHECK_SUNSHINE_HOURS_RANGE g).
      * destruct (num sun) as [n|]; [|discriminate]. unfold bind at 1.
        destruct (daylight_hours _ _) as [N|]; [|discriminate].
        unfold bind at 1.
        destruct (Rleb n N); [|discriminate].
        intros H. injection H as <- <-.
        apply Hfin; try reflexivity. intros; discriminate.
      * intros H. injection H as <- <-.
        apply Hfin; try reflexivity. intros; discriminate.
    + intros H. injection H as <- <-.
      apply Hfin; try reflexivity. intros; discriminate.
Qed.

(** Daily clear-sky radiation of a low station on the equator. *)
Lemma R_so_equator_day (st : Station) (e : TimeEntry) :
  latitude_rad st = 0 -> (altitude st < 100)%Z -> class e = DayEntry ->
  exists ra rso,
    R_a st e = Ok ra /\ 30 <= ra <= 40
    /\ R_so st e = Ok rso /\ 22 <= rso <= 31.
Proof.
  intros Hlat Halt Hc.
  destruct (TimeEntry_R_a_equator st Hlat e) as (ra & Hra & Hb).
  assert (HRa : R_a st e = Ok ra) by (unfold R_a; now rewrite Hc).
  exists ra, (py_round ((0.25 + 0.50) * ra) 1).
  split; [exact HRa|]. split; [exact Hb|].
  split.
  - unfold R_so. apply Z.ltb_lt in Halt. rewrite Halt, HRa. reflexivity.
  - pose proof (py_round_1 ((0.25 + 0.50) * ra)). lra.
Qed.

(** The Angstrom estimate of an entry without observations on the equator
    station (default climate): full sun, [0.75 Ra]. *)
Lemma solar_radiation_equator_blank (g : Globals) (st : Station)
    (e : TimeEntry) :
  latitude_rad st = 0 -> climate st = Some Climate_init ->
  class e = DayEntry ->
  truthy (radiation_s e) = false -> sunshine_hours e = None ->
  truthy (temp_min e) = false ->
  exists v, solar_radiation g st e = Ok v /\ 22 <= v <= 31.
Proof.
  intros Hlat Hcl Hc Hr Hs Ht.
  destruct (TimeEntry_R_a_equator st Hlat e) as (ra & Hra & Hb).
  assert (HRa : R_a st e = Ok ra) by (unfold R_a; now rewrite Hc).
  exists (py_round ((0.25 + 0.50 * 12 / 12) * ra) 1).
  split.
  - unfold solar_radiation. rewrite Hc. unfold DayEntry_solar_radiation.
    rewrite Hr, Hs, Hcl, Ht. simpl island_location. simpl andb. cbv iota.
    rewrite !(daylight_hours_equator st Hlat). unfold bind at 1.
    rbool. simpl andb. cbv iota.
    unfold bind at 1. rewrite HRa. unfold bind at 1.
    unfold py_div. rbool. reflexivity.
  - pose proof (py_round_1 ((0.25 + 0.50 * 12 / 12) * ra)). lra.
Qed.

(** [day_entry(1, radiation_s=10.0)] on the equator station. *)
Lemma day_entry_equator_radiation_10 :
  day_entry module_globals equator_station (DayInt 1)
            None None None None None (Some 10) None
  = (set_day equator_station 1
       (set_radiation_s
          (observed_day equator_station 1 None None None None None)
          (Some 10)),
     Ok (set_radiation_s
           (observed_day equator_station 1 None None None None None)
           (Some 10))).
Proof.
  destruct (R_so_equator_day equator_station
              (observed_day equator_station 1 None None None None None)
              eq_refl ltac:(simpl; lia) eq_refl)
    as (ra & rso & _ & _ & Hrso & Hb).
  unfold day_entry. simpl day_number_of. simpl negb. cbv iota zeta.
  rewrite (truthy_nonzero 10) by lra.
  simpl CHECK_RADIATION_RANGE. cbv iota. simpl num. unfold bind at 1.
  rewrite R_so_set_day.
  fold (blank_day equator_station 1).
  fold (observed_day equator_station 1 None None None None None).
  rewrite Hrso. unfold bind. rbool. reflexivity.
Qed.

Lemma day_entry_radiation_round_trip_witness :
  solar_radiation module_globals
    (set_day equator_station 1
       (set_radiation_s
          (observed_day equator_station 1 None None None None None)
          (Some 10)))
    (set_radiation_s
       (observed_day equator_station 1 None None None None None) (Some 10))
  = Ok 10.
Proof.
  apply (day_entry_radiation_round_trip module_globals equator_station _
           (DayInt 1) None None None None None None 10 _).
  - lra.
  - exact day_entry_equator_radiation_10.
Defined.

(** C8 (as stated) fails: a radiation of 0 is below the clear-sky radiation
    of day 1 on the equator station (at least 22), [day_entry(1,
    radiation_s=0.0)] succeeds, and [solar_radiation()] of the entry it
    returns is the Angstrom estimate, at least 22, not 0. *)
Lemma day_entry_radiation_zero_counterexample :
  exists rso v,
    R_so equator_station
         (observed_day equator_station 1 None None None None None)
    = Ok rso
    /\ 0 < rso
    /\ day_entry module_globals equator_station (DayInt 1)
                 None None None None None (Some 0) None
       = (set_day equator_station 1
                  (observed_day equator_station 1 None None None None None),
          Ok (observed_day equator_station 1 None None None None None))
    /\ solar_radiation module_globals
         (set_day equator_station 1
                  (observed_day equator_station 1 None None None None None))
         (observed_day equator_station 1 None None None None None)
       = Ok v
    /\ 22 <= v.
Proof.
  destruct (R_so_equator_day equator_station
              (observed_day equator_station 1 None None None None None)
              eq_refl ltac:(simpl; lia) eq_refl)
    as (ra & rso & _ & _ & Hrso & Hb).
  destruct (solar_radiation_equator_blank module_globals
              (set_day equator_station 1
                 (observed_day equator_station 1 None None None None None))
              (observed_day equator_station 1 None None None None None)
              eq_refl eq_refl eq_refl eq_refl eq_refl eq_refl)
    as (v & Hv & Hvb).
  exists rso, v.
  split; [exact Hrso|]. split; [lra|].
  split.
  - unfold day_entry. simpl day_number_of. simpl negb. cbv iota zeta.
    rewrite truthy_zero. reflexivity.
  - split; [exact Hv | lra].
Qed.

(** ** Clear-sky radiation *)

Lemma R_so_below_100 (st : Station) (e : TimeEntry) (ra : R) :
  R_a st e = Ok ra -> (altitude st < 100)%Z ->
  R_so st e = Ok (py_round (0.75 * ra) 1).
Proof.
  intros Hra Halt. apply Z.ltb_lt in Halt. unfold R_so.
  rewrite Halt, Hra. unfold bind. do 2 f_equal. lra.
Qed.

Lemma R_so_from_100 (st : Station) (e : TimeEntry) (ra : R) :
  R_a st e = Ok ra -> (100 <= altitude st)%Z ->
  R_so st e
  = Ok (py_round ((0.75 + 2 / 100000 * IZR (altitude st)) * ra) 1).
Proof.
  intros Hra Halt.
  assert (Hb : (altitude st <? 100)%Z = false) by (apply Z.ltb_ge; lia).
  unfold R_so. rewrite Hb, Hra. unfold bind. do 2 f_equal.
  simpl. lra.
Qed.

(** C6 (as amended).  [R_so] is [0.75 Ra] rounded to one decimal below
    100 m and [(0.75 + 2e-5 altitude) Ra] rounded to one decimal from 100 m
    up; an error of [R_a] is passed on.  The two forms do not coincide: from
    100 m up, and for a positive [Ra], the value that is rounded is larger
    than [0.75 Ra]. *)
Theorem R_so_by_altitude (st : Station) (e : TimeEntry) :
  (forall ra, R_a st e = Ok ra ->
     ((altitude st < 100)%Z ->
        R_so st e = Ok (py_round (0.75 * ra) 1))
     /\ ((100 <= altitude st)%Z ->
           R_so st e
           = Ok (py_round ((0.75 + 2 / 100000 * IZR (altitude st)) * ra) 1)
           /\ (0 < ra ->
                 0.75 * ra < (0.75 + 2 / 100000 * IZR (altitude st)) * ra)))
  /\ (forall err, R_a st e = Raise err -> R_so st e = Raise err).
Proof.
  split.
  - intros ra Hra. split.
    + now apply R_so_below_100.
    + intros Halt. split.
      * now apply R_so_from_100.
      * intros Hpos.
        assert (100 <= IZR (altitude st)) by (now apply IZR_le).
        nra.
  - intros err Hra. unfold R_so. rewrite Hra.
    destruct (altitude st <? 100)%Z; reflexivity.
Qed.

Lemma R_so_by_altitude_witness :
  (exists ra,
     R_a equator_station (blank_day equator_station 1) = Ok ra
     /\ R_so equator_station (blank_day equator_station 1)
        = Ok (py_round (0.75 * ra) 1))
  /\ (exists ra,
        R_a highland_station (blank_day highland_station 1) = Ok ra
        /\ R_so highland_station (blank_day highland_station 1)
           = Ok (py_round ((0.75 + 2 / 100000 * IZR 5000) * ra) 1)
        /\ 0.75 * ra < (0.75 + 2 / 100000 * IZR 5000) * ra).
Proof.
  split.
  - destruct (TimeEntry_R_a_equator equator_station eq_refl
                (blank_day equator_station 1)) as (ra & Hra & Hb).
    exists ra. split; [exact Hra|].
    apply (proj1 (proj1 (R_so_by_altitude equator_station
                           (blank_day equator_station 1)) ra Hra)).
    simpl. lia.
  - destruct (TimeEntry_R_a_equator highland_station eq_refl
                (blank_day highland_station 1)) as (ra & Hra & Hb).
    exists ra. split; [exact Hra|].
    destruct (proj2 (proj1 (R_so_by_altitude highland_station
                              (blank_day highland_station 1)) ra Hra))
      as [H1 H2].
    + simpl. lia.
    + split; [exact H1 | apply H2; lra].
Defined.

(** C6 (as stated) fails: at 5000 m on the equator the clear-sky radiation
    of day 1 is more than 2 MJ/m2/day above [0.75 Ra], and more than 1
    above [0.75 Ra] rounded to one decimal. *)
Lemma R_so_highland_counterexample :
  exists ra rso,
    R_a highland_station (blank_day highland_station 1) = Ok ra
    /\ R_so highland_station (blank_day highland_station 1) = Ok rso
    /\ 0.75 * ra + 2 < rso
    /\ py_round (0.75 * ra) 1 + 1 < rso.
Proof.
  destruct (TimeEntry_R_a_equator highland_station eq_refl
              (blank_day highland_station 1)) as (ra & Hra & Hb).
  exists ra, (py_round ((0.75 + 2 / 100000 * IZR 5000) * ra) 1).
  split; [exact Hra|].
  split.
  - apply (R_so_from_100 highland_station (blank_day highland_station 1)
                         ra Hra).
    simpl. lia.
  - pose proof (py_round_1 ((0.75 + 2 / 100000 * IZR 5000) * ra)).
    pose proof (py_round_1 (0.75 * ra)).
    split; lra.
Qed.

(** ** The Hargreaves-Samani estimate of solar radiation *)

(** The temperature branch of [DayEntry.solar_radiation], with the
    coefficient the method picks itself. *)
Lemma DayEntry_solar_radiation_temperature (g : Globals) (st : Station)
    (e : TimeEntry) (c : Climate) (tmin tmax ra : R) :
  class e = DayEntry ->
  radiation_s e = None \/ radiation_s e = Some 0 ->
  sunshine_hours e = None ->
  temp_min e = Some tmin -> temp_max e = Some tmax ->
  tmin <> 0 -> tmax <> 0 -> tmin <= tmax ->
  climate st = Some c ->
  island_location c && (altitude st <? 100)%Z = false ->
  R_a st e = Ok ra ->
  solar_radiation g st e
  = Ok (py_round ((if coastal_location c then 0.19
                   else if interior_location c then 0.16 else 0.16)
                  * sqrt (tmax - tmin) * ra) 1).
Proof.
  intros Hc Hr Hs Hmin Hmax Hn1 Hn2 Hle Hcl Hisl Hra.
  unfold solar_radiation. rewrite Hc. unfold DayEntry_solar_radiation.
  rewrite (truthy_absent _ Hr), Hs, Hcl, Hisl, Hmin, Hmax.
  rewrite (truthy_nonzero tmin Hn1), (truthy_nonzero tmax Hn2).
  simpl andb. cbv iota. simpl num. unfold bind at 1. unfold bind at 1.
  rewrite Hra. unfold bind at 1. unfold py_sqrt. rbool. reflexivity.
Qed.

(** C5 (as amended).  For a day entry with no logged radiation ([None] or
    0) and no logged sunshine hours, with [temp_min] and [temp_max] logged,
    not 0 and [temp_min <= temp_max], on a station whose climate is a
    coastal or an interior profile, [solar_radiation()] is
    [k_rs * sqrt(temp_max - temp_min) * Ra] rounded to one decimal, with the
    profile's [k_rs]: 0.19 for a coastal and 0.16 for an interior profile. *)
Theorem solar_radiation_hargreaves_samani (g : Globals) (st : Station)
    (e : TimeEntry) (c0 : Climate) (tmin tmax ra : R) :
  class e = DayEntry ->
  radiation_s e = None \/ radiation_s e = Some 0 ->
  sunshine_hours e = None ->
  temp_min e = Some tmin -> temp_max e = Some tmax ->
  tmin <> 0 -> tmax <> 0 -> tmin <= tmax ->
  R_a st e = Ok ra ->
  (climate st = Some (coastal c0) ->
     solar_radiation g st e
     = Ok (py_round (k_rs (coastal c0) * sqrt (tmax - tmin) * ra) 1)
     /\ k_rs (coastal c0) = 0.19)
  /\ (climate st = Some (interior c0) ->
        solar_radiation g st e
        = Ok (py_round (k_rs (interior c0) * sqrt (tmax - tmin) * ra) 1)
        /\ k_rs (interior c0) = 0.16).
Proof.
  intros Hc Hr Hs Hmin Hmax Hn1 Hn2 Hle Hra.
  split; intros Hcl; (split; [|reflexivity]).
  - rewrite (DayEntry_solar_radiation_temperature g st e (coastal c0)
               tmin tmax ra); auto.
  - rewrite (DayEntry_solar_radiation_temperature g st e (interior c0)
               tmin tmax ra); auto.
Qed.

Lemma solar_radiation_hargreaves_samani_witness :
  exists ra,
    R_a equator_station
        (observed_day equator_station 1 (Some 10) (Some 26) None None None)
    = Ok ra
    /\ solar_radiation module_globals equator_station
         (observed_day equator_station 1 (Some 10) (Some 26) None None None)
       = Ok (py_round (0.16 * sqrt (26 - 10) * ra) 1)
    /\ solar_radiation module_globals
         (set_climate equator_station (Some (coastal Climate_init)))
         (observed_day equator_station 1 (Some 10) (Some 26) None None None)
       = Ok (py_round (0.19 * sqrt (26 - 10) * ra) 1).
Proof.
  destruct (TimeEntry_R_a_equator equator_station eq_refl
              (observed_day equator_station 1 (Some 10) (Some 26)
                            None None None)) as (ra & Hra & Hb).
  exists ra. split; [exact Hra|]. split.
  - apply (proj2 (solar_radiation_hargreaves_samani module_globals
                    equator_station
                    (observed_day equator_station 1 (Some 10) (Some 26)
                                  None None None)
                    Climate_init 10 26 ra eq_refl (or_introl eq_refl)
                    eq_refl eq_refl eq_refl ltac:(lra) ltac:(lra)
                    ltac:(lra) Hra)).
    reflexivity.
  - apply (proj1 (solar_radiation_hargreaves_samani module_globals
                    (set_climate equator_station
                                 (Some (coastal Climate_init)))
                    (observed_day equator_station 1 (Some 10) (Some 26)
                                  None None None)
                    Climate_init 10 26 ra eq_refl (or_introl eq_refl)
                    eq_refl eq_refl eq_refl ltac:(lra) ltac:(lra)
                    ltac:(lra) Hra)).
    reflexivity.
Defined.

(** C5 (as stated) fails: on the island station at 5000 m, with
    [temp_min = 10] and [temp_max = 26], [solar_radiation()] of day 1 is
    more than 3 MJ/m2/day below [k_rs * sqrt(temp_max - temp_min) * Ra] for
    the profile's [k_rs] of 0.19: the method uses 0.16. *)
Lemma solar_radiation_island_counterexample :
  exists ra v,
    island_location (island Climate_init) = true
    /\ k_rs (island Climate_init) = 0.19
    /\ climate island_station = Some (island Climate_init)
    /\ R_a island_station
           (observed_day island_station 1 (Some 10) (Some 26) None None None)
       = Ok ra
    /\ solar_radiation module_globals island_station
         (observed_day island_station 1 (Some 10) (Some 26) None None None)
       = Ok v
    /\ v + 3 < k_rs (island Climate_init) * sqrt (26 - 10) * ra.
Proof.
  destruct (TimeEntry_R_a_equator island_station eq_refl
              (observed_day island_station 1 (Some 10) (Some 26)
                            None None None)) as (ra & Hra & Hb).
  exists ra, (py_round (0.16 * sqrt (26 - 10) * ra) 1).
  assert (Hsqrt : sqrt (26 - 10) = 4).
  { replace (26 - 10) with (4 * 4) by lra. apply sqrt_square. lra. }
  repeat (split; [reflexivity|]).
  split; [exact Hra|]. split.
  - apply (DayEntry_solar_radiation_temperature module_globals
             island_station
             (observed_day island_station 1 (Some 10) (Some 26)
                           None None None)
             (island Climate_init) 10 26 ra);
      try reflexivity; try lra; try exact Hra.
    left; reflexivity.
  - pose proof (py_round_1 (0.16 * sqrt (26 - 10) * ra)) as Hr.
    rewrite Hsqrt in *. simpl k_rs. lra.
Qed.

(** ** The sunset hour angle and the daily extraterrestrial radiation *)

Lemma py_round_nonneg (x : R) (n : nat) :
  - / 2 / 10 ^ n < x -> 0 <= py_round x n.
Proof.
  intros H. unfold py_round.
  pose proof (pow10_pos n) as Hp.
  apply Rmult_le_pos; [|left; now apply Rinv_0_lt_compat].
  apply IZR_le.
  pose proof (round_half_even_spec (x * 10 ^ n)) as [H1 _].
  assert (Hx : - / 2 < x * 10 ^ n).
  { apply Rmult_lt_compat_r with (r := 10 ^ n) in H; [|assumption].
    replace (- / 2 / 10 ^ n * 10 ^ n) with (- / 2) in H by (field; lra).
    exact H. }
  assert (Hz : (-1 < round_half_even (x * 10 ^ n))%Z).
  { apply lt_IZR. lra. }
  lia.
Qed.

Lemma py_round_is_grid (x : R) (n : nat) :
  exists z, py_round x n = IZR z / 10 ^ n.
Proof. now exists (round_half_even (x * 10 ^ n)). Qed.

(** A rounded value between two grid points. *)
Lemma py_round_grid_between (x : R) (a b : Z) (n : nat) :
  IZR a / 10 ^ n <= x <= IZR b / 10 ^ n ->
  exists z, py_round x n = IZR z / 10 ^ n /\ (a <= z <= b)%Z.
Proof.
  intros [Ha Hb].
  exists (round_half_even (x * 10 ^ n)). split; [reflexivity|].
  pose proof (pow10_pos n) as Hp.
  pose proof (py_round_ge_grid x a n Ha) as H1.
  pose proof (py_round_le_grid x b n Hb) as H2.
  unfold py_round in H1, H2.
  apply Rmult_le_reg_r in H1; [|now apply Rinv_0_lt_compat].
  apply Rmult_le_reg_r in H2; [|now apply Rinv_0_lt_compat].
  split; now apply le_IZR.
Qed.

Lemma sin_taylor (d : R) :
  0 <= d <= 1 -> d - d * d * d / 6 <= sin d <= d.
Proof.
  intros [H0 H1].
  pose proof (pre_sin_bound d 0 H0 ltac:(lra)) as [Hlo Hhi].
  unfold sin_approx, sin_term in Hlo, Hhi. simpl in Hlo, Hhi.
  split; [lra|].
  assert (0 <= d * d * d) by (apply Rmult_le_pos; [nra | lra]).
  assert (d * d <= 1) by nra.
  nra.
Qed.

Lemma cos_taylor_upper (w : R) :
  -2 <= w <= 2 -> cos w <= 1 - w * w / 2 + w * w * w * w / 24.
Proof.
  intros [Hlo Hhi].
  pose proof (pre_cos_bound w 0 Hlo Hhi) as [_ H].
  unfold cos_approx, cos_term in H. simpl in H. lra.
Qed.

Lemma sin_minus_x_cos_nonneg (w : R) :
  0 <= w <= PI -> 0 <= sin w - w * cos w.
Proof.
  intros [H0 H1].
  pose proof PI_bounds as [Hp1 Hp2].
  destruct (Rle_dec w 2) as [Hw | Hw].
  - pose proof (pre_sin_bound w 0 H0 ltac:(lra)) as [Hs _].
    unfold sin_approx, sin_term in Hs. simpl in Hs.
    pose proof (cos_taylor_upper w ltac:(lra)) as Hc.
    assert (Hwc : w * cos w <= w * (1 - w * w / 2 + w * w * w * w / 24))
      by (apply Rmult_le_compat_l; lra).
    assert (H3 : 0 <= w * w * w) by (apply Rmult_le_pos; [nra | lra]).
    assert (H4 : w * w <= 4) by nra.
    assert (H5 : 0 <= w * w * w * (8 - w * w)) by (apply Rmult_le_pos; lra).
    nra.
  - assert (Hc : cos w <= 0) by (apply cos_le_0; lra).
    assert (Hs : 0 <= sin w) by (apply sin_ge_0; lra).
    nra.
Qed.

Lemma sin_near_id (d : R) :
  -0.0005 <= d <= 0.0005 ->
  -0.0000000001 <= sin d - d <= 0.0000000001.
Proof.
  intros [Hlo Hhi].
  destruct (Rle_dec 0 d) as [Hd | Hd].
  - pose proof (sin_taylor d ltac:(lra)) as [H1 H2].
    assert (d * d <= 0.00000025) by nra.
    assert (d * d * d <= 0.000000000125) by nra.
    lra.
  - pose proof (sin_taylor (- d) ltac:(lra)) as [H1 H2].
    rewrite sin_neg in H1, H2.
    assert (d * d <= 0.00000025) by nra.
    assert (- d * (d * d) <= 0.000000000125) by nra.
    lra.
Qed.

(** The quantity integrated by [R_a], evaluated at an hour angle [w] within
    half a thousandth of the exact sunset hour angle, is not below -2e-7. *)
Lemma R_a_core (phi delta w : R) :
  0 < cos phi -> 0 < cos delta ->
  -1 <= -1 * tan phi * tan delta <= 1 ->
  acos (-1 * tan phi * tan delta) - 0.0005 <= w
    <= acos (-1 * tan phi * tan delta) + 0.0005 ->
  -0.0000002 <= w * sin phi * sin delta + cos phi * cos delta * sin w.
Proof.
  intros Hcp Hcd Hx Hw.
  set (x := -1 * tan phi * tan delta) in *.
  set (w0 := acos x) in *.
  assert (Hcos : cos w0 = x) by (apply cos_acos; exact Hx).
  pose proof (acos_bound x) as Hw0. fold w0 in Hw0.
  assert (Hsin0 : 0 <= sin w0) by (apply sin_ge_0; lra).
  pose proof (SIN_bound w0) as [_ Hsin1].
  pose proof (COS_bound phi) as [_ Hcp1].
  pose proof (COS_bound delta) as [_ Hcd1].
  set (c := cos phi * cos delta).
  assert (Hc0 : 0 < c) by (unfold c; nra).
  assert (Hc1 : c <= 1) by (unfold c; nra).
  assert (Hs : sin phi * sin delta = - c * x).
  { unfold c, x, tan. field. lra. }
  set (d := w - w0).
  assert (Hd : -0.0005 <= d <= 0.0005) by (unfold d; lra).
  assert (Hw' : w = w0 + d) by (unfold d; ring).
  pose proof (cos_ge_quadratic d ltac:(lra)) as Hcd2.
  pose proof (COS_bound d) as [_ Hcd3].
  pose proof (sin_near_id d Hd) as [Hsd1 Hsd2].
  pose proof (sin_minus_x_cos_nonneg w0 ltac:(lra)) as Hh.
  rewrite Hcos in Hh.
  replace (w * sin phi * sin delta) with (w * (sin phi * sin delta)) by ring.
  rewrite Hs. fold c. rewrite Hw', sin_plus, Hcos.
  replace ((w0 + d) * (- c * x) + c * (sin w0 * cos d + x * sin d))
    with (c * ((sin w0 - w0 * x) + sin w0 * (cos d - 1) + x * (sin d - d)))
    by ring.
  assert (Hdd : d * d <= 0.00000025) by nra.
  assert (H1 : -0.000000125 <= sin w0 * (cos d - 1)) by nra.
  assert (H2 : -0.0000000001 <= x * (sin d - d)).
  { destruct Hx as [Hx1 Hx2]. nra. }
  set (b := sin w0 - w0 * x + sin w0 * (cos d - 1) + x * (sin d - d)).
  assert (Hb : -0.0000001251 <= b) by (unfold b; lra).
  destruct (Rle_dec 0 b); nra.
Qed.

Lemma cos_1570 : 0.00078 <= cos 1.570.
Proof.
  rewrite <- sin_shift.
  pose proof PI_bounds as [H1 H2].
  pose proof (sin_taylor (PI / 2 - 1.570) ltac:(lra)) as [H _].
  assert (PI / 2 - 1.570 <= 0.0008) by lra.
  assert (0.00079 <= PI / 2 - 1.570) by lra.
  nra.
Qed.

Lemma cos_3141 : cos 3.141 <= -0.9999998.
Proof.
  replace 3.141 with ((3.141 - PI) + PI) by ring.
  rewrite neg_cos.
  pose proof PI_bounds as [H1 H2].
  pose proof (cos_ge_quadratic (3.141 - PI) ltac:(lra)). nra.
Qed.

Lemma cos_1571 : -0.000205 <= cos 1.571 < 0.
Proof.
  pose proof PI_bounds as [H1 H2].
  rewrite <- sin_shift.
  replace (PI / 2 - 1.571) with (- (1.571 - PI / 2)) by ring.
  rewrite sin_neg.
  pose proof (sin_taylor (1.571 - PI / 2) ltac:(lra)) as [Hlo Hhi].
  assert (0.0002 <= 1.571 - PI / 2 <= 0.000205) by lra.
  split; [lra|]. nra.
Qed.

(** Inside the domain of [acos], and with [phi + delta] on the grid of
    thousandths, the exact sunset hour angle stays below 3.141. *)
Lemma acos_grid_bound (k j : Z) :
  (-1570 <= k <= 1570)%Z -> (-409 <= j <= 409)%Z ->
  -1 <= -1 * tan (IZR k / 10 ^ 3) * tan (IZR j / 10 ^ 3) ->
  -1 * tan (IZR k / 10 ^ 3) * tan (IZR j / 10 ^ 3) <= 1 ->
  acos (-1 * tan (IZR k / 10 ^ 3) * tan (IZR j / 10 ^ 3)) <= 3.141.
Proof.
  intros Hk Hj Hx1 Hx2.
  set (phi := IZR k / 10 ^ 3) in *. set (delta := IZR j / 10 ^ 3) in *.
  set (x := -1 * tan phi * tan delta) in *.
  pose proof PI_bounds as [Hp1 Hp2].
  assert (Hphi : -1.570 <= phi <= 1.570).
  { unfold phi. simpl.
    assert (IZR (-1570) <= IZR k <= IZR 1570)
      by (split; apply IZR_le; lia). lra. }
  assert (Hdelta : -0.409 <= delta <= 0.409).
  { unfold delta. simpl.
    assert (IZR (-409) <= IZR j <= IZR 409)
      by (split; apply IZR_le; lia). lra. }
  assert (Hcp : 0 < cos phi) by (apply cos_gt_0; lra).
  assert (Hcd : 0 < cos delta) by (apply cos_gt_0; lra).
  pose proof (COS_bound phi) as [_ Hcp1].
  pose proof (COS_bound delta) as [_ Hcd1].
  set (c := cos phi * cos delta).
  assert (Hc0 : 0 < c) by (unfold c; nra).
  assert (Hc1 : c <= 1) by (unfold c; nra).
  assert (Hs : sin phi * sin delta = - c * x).
  { unfold c, x, tan. field. lra. }
  assert (Hsum : cos (phi + delta) = c * (1 + x)).
  { rewrite cos_plus, Hs. unfold c. ring. }
  assert (Hy : phi + delta = IZR (k + j) / 10 ^ 3).
  { unfold phi, delta. rewrite plus_IZR. simpl. field. }
  assert (Hnn : 0 <= cos (phi + delta)) by (rewrite Hsum; nra).
  assert (Hkj : (-1570 <= k + j <= 1570)%Z).
  { split.
    - destruct (Z_le_gt_dec (-1570) (k + j)) as [H|H]; [exact H|exfalso].
      assert (Hle : IZR (k + j) <= IZR (-1571)) by (apply IZR_le; lia).
      assert (Hge : IZR (-1979) <= IZR (k + j)) by (apply IZR_le; lia).
      assert (Hneg : cos (- (phi + delta)) < 0).
      { apply cos_lt_0; rewrite Hy; simpl; lra. }
      rewrite cos_neg in Hneg. lra.
    - destruct (Z_le_gt_dec (k + j) 1570) as [H|H]; [exact H|exfalso].
      assert (Hge : IZR 1571 <= IZR (k + j)) by (apply IZR_le; lia).
      assert (Hle : IZR (k + j) <= IZR 1979) by (apply IZR_le; lia).
      assert (Hneg : cos (phi + delta) < 0).
      { apply cos_lt_0; rewrite Hy; simpl; lra. }
      lra. }
  assert (Hyb : -1.570 <= phi + delta <= 1.570).
  { rewrite Hy. simpl.
    assert (IZR (-1570) <= IZR (k + j) <= IZR 1570)
      by (split; apply IZR_le; lia). lra. }
  assert (Hcy : cos 1.570 <= cos (phi + delta)).
  { destruct (Rle_dec 0 (phi + delta)) as [Hpos | Hneg].
    - apply cos_decr_1; lra.
    - rewrite <- (cos_neg (phi + delta)). apply cos_decr_1; lra. }
  pose proof cos_1570 as H1570.
  assert (Hx : 0.00078 <= 1 + x) by nra.
  destruct (Rle_dec (acos x) 3.141) as [Hok | Hbad]; [exact Hok | exfalso].
  pose proof (acos_bound x) as [Ha0 Ha1].
  assert (Hlt : cos (acos x) < cos 3.141).
  { apply cos_decreasing_1; lra. }
  rewrite cos_acos in Hlt by (split; assumption).
  pose proof cos_3141. lra.
Qed.

Lemma R_a_constant_bounds : 37.58 < 24 * 60 / PI * 0.0820 < 37.59.
Proof.
  pose proof PI_bounds as [Hp1 Hp2].
  split.
  - apply Rmult_lt_reg_r with PI; [lra|].
    replace (24 * 60 / PI * 0.0820 * PI) with (24 * 60 * 0.0820)
      by (field; lra). lra.
  - apply Rmult_lt_reg_r with PI; [lra|].
    replace (24 * 60 / PI * 0.0820 * PI) with (24 * 60 * 0.0820)
      by (field; lra). lra.
Qed.

(** At a latitude that rounds to 1.571 rad, beyond the pole, [acos] is
    defined only for a declination of exactly 0. *)
Lemma pole_requires_zero_declination (phi : R) (j : Z) :
  phi = 1.571 \/ phi = -1.571 ->
  (-409 <= j <= 409)%Z ->
  -1 <= -1 * tan phi * tan (IZR j / 10 ^ 3) <= 1 ->
  j = 0%Z.
Proof.
  intros Hphi Hj [Hx1 Hx2].
  destruct (Z.eq_dec j 0%Z) as [Hz | Hnz]; [exact Hz | exfalso].
  set (delta := IZR j / 10 ^ 3) in *.
  set (x := -1 * tan phi * tan delta) in *.
  pose proof PI_bounds as [Hp1 Hp2].
  pose proof cos_1571 as [Hc1 Hc2].
  assert (Hcphi : cos phi = cos 1.571).
  { destruct Hphi as [-> | ->]; [reflexivity|].
    assert (E : -1.571 = Ropp 1.571) by lra. rewrite E. apply cos_neg. }
  assert (Hdelta : -0.409 <= delta <= 0.409).
  { unfold delta. simpl.
    assert (IZR (-409) <= IZR j <= IZR 409)
      by (split; apply IZR_le; lia). lra. }
  assert (Hcd : 0 < cos delta) by (apply cos_gt_0; lra).
  pose proof (COS_bound delta) as [_ Hcd1].
  assert (Hs : x * (cos phi * cos delta) = - (sin phi * sin delta)).
  { unfold x, tan. field. rewrite Hcphi. lra. }
  pose proof (sin2_cos2 phi) as H2. unfold Rsqr in H2.
  assert (Hsd : 0.0000009 <= sin delta * sin delta).
  { destruct (Z_lt_ge_dec j 0%Z) as [Hneg | Hpos].
    - assert (Hle : IZR j <= IZR (-1)) by (apply IZR_le; lia).
      assert (Hd : delta <= -0.001) by (unfold delta; simpl; lra).
      pose proof (sin_taylor (- delta) ltac:(lra)) as [Ht _].
      rewrite sin_neg in Ht.
      assert (delta * delta <= 0.17) by nra.
      assert (sin delta <= -0.00097) by nra.
      nra.
    - assert (Hge : IZR 1 <= IZR j) by (apply IZR_le; lia).
      assert (Hd : 0.001 <= delta) by (unfold delta; simpl; lra).
      pose proof (sin_taylor delta ltac:(lra)) as [Ht _].
      assert (delta * delta <= 0.17) by nra.
      assert (0.00097 <= sin delta) by nra.
      nra. }
  assert (Hcc : cos phi * cos phi <= 0.0000000421) by (rewrite Hcphi; nra).
  assert (Hss : 0.99 <= sin phi * sin phi) by lra.
  assert (Hxx : x * x <= 1) by nra.
  assert (Hprod : (sin phi * sin delta) * (sin phi * sin delta)
                  = x * x * ((cos phi * cos delta) * (cos phi * cos delta))).
  { replace (sin phi * sin delta) with (- (x * (cos phi * cos delta)))
      by (rewrite Hs; ring). ring. }
  assert (Hccd : (cos phi * cos delta) * (cos phi * cos delta)
                 <= 0.0000000421).
  { replace ((cos phi * cos delta) * (cos phi * cos delta))
      with ((cos phi * cos phi) * (cos delta * cos delta)) by ring.
    assert (0 <= cos delta * cos delta <= 1) by nra.
    assert (0 <= cos phi * cos phi) by nra.
    nra. }
  assert (Hlow : 0.00000089 <= (sin phi * sin delta) * (sin phi * sin delta)).
  { replace ((sin phi * sin delta) * (sin phi * sin delta))
      with ((sin phi * sin phi) * (sin delta * sin delta)) by ring.
    nra. }
  assert (Hup : x * x * ((cos phi * cos delta) * (cos phi * cos delta))
                <= 0.0000000421).
  { assert (0 <= (cos phi * cos delta) * (cos phi * cos delta)) by nra.
    nra. }
  lra.
Qed.

Lemma Station_init_inv (lat lon : R) (alt : Z) (anem tz : pynum)
    (st : Station) :
  Station_init (PyFloat lat) (PyFloat lon) (PyInt alt) anem tz = Ok st ->
  -90 <= lat <= 90 /\ latitude_rad st = py_round (PI / 180 * lat) 3.
Proof.
  unfold Station_init.
  destruct (Rltb lat (-90)) eqn:H1; [discriminate|].
  destruct (Rltb 90 lat) eqn:H2; [discriminate|].
  apply Rltb_false in H1, H2. simpl.
  destruct (Rltb lon 0 || Rltb 360 lon); [discriminate|].
  destruct (alt <? 0)%Z; [discriminate|].
  destruct (Rltb (num_val tz) 0 || Rltb 359 (num_val tz)); [discriminate|].
  intros H. injection H as <-. simpl. split; [lra | reflexivity].
Qed.

Lemma latitude_rad_grid (lat : R) :
  -90 <= lat <= 90 ->
  exists k, py_round (PI / 180 * lat) 3 = IZR k / 10 ^ 3
            /\ (-1571 <= k <= 1571)%Z.
Proof.
  intros Hlat. apply py_round_grid_between.
  pose proof PI_bounds as [Hp1 Hp2]. simpl. split; nra.
Qed.

Lemma solar_declination_grid (e : TimeEntry) :
  exists j, solar_declination e = IZR j / 10 ^ 3 /\ (-409 <= j <= 409)%Z.
Proof.
  unfold solar_declination. apply py_round_grid_between.
  pose proof (SIN_bound (2 * PI / 365 * IZR (day_number e) - 1.39))
    as [H1 H2].
  simpl. split; lra.
Qed.

Lemma sunset_hour_angle_out_of_domain (st : Station) (e : TimeEntry) :
  -1 * tan (latitude_rad st) * tan (solar_declination e) < -1
  \/ 1 < -1 * tan (latitude_rad st) * tan (solar_declination e) ->
  sunset_hour_angle st e = Raise math_domain_error
  /\ TimeEntry_R_a st e = Raise math_domain_error.
Proof.
  intros Hx.
  assert (Hs : sunset_hour_angle st e = Raise math_domain_error).
  { unfold sunset_hour_angle, py_acos.
    destruct Hx as [Hx | Hx]; rbool; reflexivity. }
  split; [exact Hs|].
  unfold TimeEntry_R_a. rewrite Hs. reflexivity.
Qed.

Lemma sunset_hour_angle_in_domain (st : Station) (e : TimeEntry) :
  -1 <= -1 * tan (latitude_rad st) * tan (solar_declination e) <= 1 ->
  sunset_hour_angle st e
  = Ok (py_round
          (acos (-1 * tan (latitude_rad st) * tan (solar_declination e))) 3).
Proof.
  intros [H1 H2]. unfold sunset_hour_angle, py_acos. rbool; reflexivity.
Qed.

(** The rounded daily radiation is not negative as soon as the integrated
    quantity is not below -0.001. *)
Lemma R_a_rounds_nonneg (d v : R) :
  0.9665 <= d <= 1.0335 -> -0.001 <= v ->
  0 <= py_round (24 * 60 / PI * 0.0820 * d * v) 1.
Proof.
  intros Hd Hv. apply py_round_nonneg. simpl.
  pose proof R_a_constant_bounds as [Hk1 Hk2].
  set (k := 24 * 60 / PI * 0.0820) in *.
  assert (Hkd : 0 < k * d <= 38.85) by nra.
  destruct (Rle_dec 0 v); nra.
Qed.

(** C7 (as amended).  For a station built with a latitude in [-90, 90] and
    a day entry of any day of the year: when the argument of [acos],
    [-tan(latitude_rad) * tan(solar_declination)], lies in [-1, 1],
    [sunset_hour_angle()] is defined and lies in [0, PI] and [R_a()] is
    defined and not negative; when it lies outside, both raise the
    [ValueError] of [math.acos]. *)
Theorem sunset_hour_angle_R_a_domain (lat lon : R) (alt : Z)
    (anem tz : pynum) (st : Station) (e : TimeEntry) :
  Station_init (PyFloat lat) (PyFloat lon) (PyInt alt) anem tz = Ok st ->
  class e = DayEntry ->
  (-1 <= -1 * tan (latitude_rad st) * tan (solar_declination e) <= 1 ->
     exists ws ra,
       sunset_hour_angle st e = Ok ws /\ 0 <= ws <= PI
       /\ R_a st e = Ok ra /\ 0 <= ra)
  /\ (-1 * tan (latitude_rad st) * tan (solar_declination e) < -1
      \/ 1 < -1 * tan (latitude_rad st) * tan (solar_declination e) ->
        sunset_hour_angle st e = Raise math_domain_error
        /\ R_a st e = Raise math_domain_error).
Proof.
  intros Hinit Hc.
  assert (HRa : R_a st e = TimeEntry_R_a st e)
    by (unfold R_a; now rewrite Hc).
  split; [|rewrite HRa; apply sunset_hour_angle_out_of_domain].
  intros Hx.
  destruct (Station_init_inv _ _ _ _ _ _ Hinit) as [Hlat Hrad].
  destruct (latitude_rad_grid lat Hlat) as (k & Hk & Hkb).
  rewrite <- Hrad in Hk.
  destruct (solar_declination_grid e) as (j & Hj & Hjb).
  pose proof PI_bounds as [Hp1 Hp2].
  pose proof (relative_sun_distance_bounds e) as Hd.
  pose proof (sunset_hour_angle_in_domain st e Hx) as Hws.
  set (x := -1 * tan (latitude_rad st) * tan (solar_declination e)) in *.
  pose proof (acos_bound x) as [Ha0 Ha1].
  exists (py_round (acos x) 3).
  assert (Hws0 : 0 <= py_round (acos x) 3).
  { apply py_round_nonneg. simpl. lra. }
  assert (Hcase : (-1570 <= k <= 1570)%Z \/ k = 1571%Z \/ k = (-1571)%Z)
    by lia.
  destruct Hcase as [HkA | HkB].
  - (* the latitude is short of the pole *)
    assert (Hacos : acos x <= 3.141).
    { unfold x. rewrite Hk, Hj. destruct Hx as [Hx1 Hx2].
      apply acos_grid_bound; try assumption.
      - unfold x in Hx1. now rewrite Hk, Hj in Hx1.
      - unfold x in Hx2. now rewrite Hk, Hj in Hx2. }
    assert (Hws1 : py_round (acos x) 3 <= 3.141).
    { replace 3.141 with (IZR 3141 / 10 ^ 3) by (simpl; lra).
      apply py_round_le_grid. simpl. lra. }
    assert (Hphi : -1.570 <= latitude_rad st <= 1.570).
    { rewrite Hk. simpl.
      assert (IZR (-1570) <= IZR k <= IZR 1570)
        by (split; apply IZR_le; lia). lra. }
    pose proof (solar_declination_bounds e) as Hdel.
    assert (Hcp : 0 < cos (latitude_rad st)) by (apply cos_gt_0; lra).
    assert (Hcd : 0 < cos (solar_declination e)) by (apply cos_gt_0; lra).
    pose proof (py_round_3 (acos x)) as Hr.
    pose proof (R_a_core (latitude_rad st) (solar_declination e)
                  (py_round (acos x) 3) Hcp Hcd Hx ltac:(fold x; lra))
      as Hcore.
    eexists. split; [exact Hws|]. split; [lra|].
    split.
    + rewrite HRa. unfold TimeEntry_R_a. rewrite Hws. reflexivity.
    + apply R_a_rounds_nonneg; [exact Hd | lra].
  - (* the latitude rounds beyond the pole *)
    assert (Hphi : latitude_rad st = 1.571 \/ latitude_rad st = -1.571).
    { rewrite Hk. destruct HkB as [-> | ->]; [left | right]; simpl; lra. }
    assert (Hj0 : j = 0%Z).
    { apply (pole_requires_zero_declination (latitude_rad st) j Hphi Hjb).
      unfold x in Hx. now rewrite Hj in Hx. }
    assert (Hdel : solar_declination e = 0).
    { rewrite Hj, Hj0. simpl. lra. }
    assert (Hx0 : x = 0).
    { unfold x. rewrite Hdel, tan_0. ring. }
    assert (Hw : py_round (acos x) 3 = 1.571).
    { rewrite Hx0, acos_0.
      rewrite (py_round_near (PI / 2) 1571 3); simpl; lra. }
    assert (Hcphi : -0.000205 <= cos (latitude_rad st) < 0).
    { pose proof cos_1571 as Hc1.
      destruct Hphi as [-> | ->]; [exact Hc1|].
      assert (E : -1.571 = Ropp 1.571) by lra.
      rewrite E, cos_neg. exact Hc1. }
    pose proof (sin_sunset_equator) as [Hs1 Hs2].
    eexists. split; [exact Hws|]. split; [rewrite Hw; lra|].
    split.
    + rewrite HRa. unfold TimeEntry_R_a. rewrite Hws. reflexivity.
    + apply R_a_rounds_nonneg; [exact Hd|].
      rewrite Hw, Hdel, sin_0, cos_0. nra.
Qed.

Lemma Station_init_arctic :
  Station_init (PyFloat 70) (PyFloat 300) (PyInt 0) (PyInt 2) (PyInt 345)
  = Ok arctic_station.
Proof.
  unfold Station_init. simpl num_val. rbool. simpl.
  unfold arctic_station. f_equal. f_equal.
  pose proof PI_bounds as [Hp1 Hp2].
  rewrite (py_round_near (PI / 180 * 70) 1222 3); simpl; lra.
Qed.

(** On day 172 the declination is at its summer maximum. *)
Lemma solar_declination_day_172 (e : TimeEntry) :
  day_number e = 172%Z -> 0.408 <= solar_declination e <= 0.4095.
Proof.
  intros Hd. split; [|apply solar_declination_bounds].
  unfold solar_declination. rewrite Hd.
  pose proof PI_bounds as [Hp1 Hp2].
  set (a := 2 * PI / 365 * IZR 172 - 1.39).
  assert (Ha : -0.001 <= PI / 2 - a <= 0.001) by (unfold a; lra).
  pose proof (cos_ge_quadratic (PI / 2 - a) ltac:(lra)) as Hc.
  rewrite cos_shift in Hc.
  pose proof (py_round_3 (0.409 * sin a)) as [Hr _].
  nra.
Qed.

Lemma arctic_midsummer_argument (e : TimeEntry) :
  day_number e = 172%Z ->
  -1 * tan (latitude_rad arctic_station) * tan (solar_declination e) < -1.
Proof.
  intros Hd. simpl latitude_rad.
  pose proof (solar_declination_day_172 e Hd) as [Hd1 Hd2].
  set (delta := solar_declination e) in *.
  pose proof PI_bounds as [Hp1 Hp2].
  assert (Hcp : 0 < cos 1.222) by (apply cos_gt_0; lra).
  assert (Hcd : 0 < cos delta) by (apply cos_gt_0; lra).
  assert (Hsum : cos (1.222 + delta) < 0) by (apply cos_lt_0; lra).
  rewrite cos_plus in Hsum.
  assert (Hc : 0 < cos 1.222 * cos delta) by nra.
  assert (Ht : tan 1.222 * tan delta
               = sin 1.222 * sin delta / (cos 1.222 * cos delta)).
  { unfold tan. field. lra. }
  assert (Hgt : 1 < tan 1.222 * tan delta).
  { rewrite Ht.
    apply Rmult_lt_reg_r with (cos 1.222 * cos delta); [exact Hc|].
    replace (sin 1.222 * sin delta / (cos 1.222 * cos delta)
             * (cos 1.222 * cos delta))
      with (sin 1.222 * sin delta) by (field; lra).
    lra. }
  lra.
Qed.

Lemma sunset_hour_angle_R_a_domain_witness :
  (exists ws ra,
     sunset_hour_angle equator_station (blank_day equator_station 1) = Ok ws
     /\ 0 <= ws <= PI
     /\ R_a equator_station (blank_day equator_station 1) = Ok ra
     /\ 0 <= ra)
  /\ sunset_hour_angle arctic_station (blank_day arctic_station 172)
     = Raise math_domain_error
  /\ R_a arctic_station (blank_day arctic_station 172)
     = Raise math_domain_error.
Proof.
  split.
  - apply (proj1 (sunset_hour_angle_R_a_domain 0 300 0 (PyInt 2) (PyInt 345)
                    equator_station (blank_day equator_station 1)
                    (Station_init_equator (PyInt 345)
                       ltac:(simpl; lra))
                    eq_refl)).
    simpl latitude_rad. rewrite tan_0. lra.
  - apply (proj2 (sunset_hour_angle_R_a_domain 70 300 0 (PyInt 2)
                    (PyInt 345) arctic_station
                    (blank_day arctic_station 172)
                    Station_init_arctic eq_refl)).
    left. now apply arctic_midsummer_argument.
Defined.

(** C7 (as stated) fails: [Station(70.0, 300.0, 0)] has a valid latitude;
    on day 172 the argument of [acos] is below -1, and
    [sunset_hour_angle()] and [R_a()] raise [ValueError] (the sun does not
    set). *)
Lemma sunset_hour_angle_arctic_counterexample :
  Station_init (PyFloat 70) (PyFloat 300) (PyInt 0) (PyInt 2) (PyInt 345)
  = Ok arctic_station
  /\ -90 <= latitude arctic_station <= 90
  /\ day_number (blank_day arctic_station 172) = 172%Z
  /\ -1 * tan (latitude_rad arctic_station)
        * tan (solar_declination (blank_day arctic_station 172)) < -1
  /\ sunset_hour_angle arctic_station (blank_day arctic_station 172)
     = Raise (ValueError (Lit "math domain error"))
  /\ R_a arctic_station (blank_day arctic_station 172)
     = Raise (ValueError (Lit "math domain error")).
Proof.
  pose proof (arctic_midsummer_argument (blank_day arctic_station 172)
                eq_refl) as Hx.
  destruct (sunset_hour_angle_out_of_domain arctic_station
              (blank_day arctic_station 172) (or_introl Hx)) as [H1 H2].
  split; [exact Station_init_arctic|].
  split; [simpl; lra|].
  split; [reflexivity|].
  split; [exact Hx|].
  split; [exact H1 | exact H2].
Qed.

(** ** More on rounding *)

Lemma round_half_even_mono (x y : R) :
  x <= y -> (round_half_even x <= round_half_even y)%Z.
Proof.
  intros Hxy.
  destruct (Req_dec_T x y) as [-> | Hne]; [lia|].
  pose proof (round_half_even_spec x) as [_ Hx].
  pose proof (round_half_even_spec y) as [Hy _].
  destruct (Z_le_gt_dec (round_half_even x) (round_half_even y))
    as [H | H]; [exact H | exfalso].
  assert (Hz : IZR (round_half_even y) + 1 <= IZR (round_half_even x)).
  { rewrite <- plus_IZR. apply IZR_le. lia. }
  lra.
Qed.

Lemma py_round_mono (x y : R) (n : nat) :
  x <= y -> py_round x n <= py_round y n.
Proof.
  intros Hxy. unfold py_round.
  pose proof (pow10_pos n) as Hp.
  apply Rmult_le_compat_r; [left; now apply Rinv_0_lt_compat|].
  apply IZR_le, round_half_even_mono.
  apply Rmult_le_compat_r; lra.
Qed.


Lemma py_round_nonneg_0 (x : R) (n : nat) : 0 <= x -> 0 <= py_round x n.
Proof.
  intros H. rewrite <- (py_round_0 n). now apply py_round_mono.
Qed.



(** ** Climate profiles *)

Lemma call_consistent (c : Climate) (m : mutator) :
  consistent c -> consistent (call c m).
Proof.
  intros (Hloc & Hhum & Hwind).
  destruct m; simpl; (split; [|split]); simpl; auto 12.
Qed.

(** X1.  Every profile configured from [Climate()] by a chain of mutator
    calls has exactly one location flag set, with [k_rs] 0.16 for interior
    and 0.19 for coastal and island; exactly one of arid and humid, with a
    dew point difference of 2 and 0; and an average wind speed of 0.5, 2 or
    4. *)
Theorem chain_consistent (ms : list mutator) :
  consistent (chain Climate_init ms).
Proof.
  assert (H : forall c, consistent c -> consistent (chain c ms)).
  { induction ms as [|m ms IH]; intros c Hc; [exact Hc|].
    simpl. apply IH. now apply call_consistent. }
  apply H. unfold consistent. simpl. auto 10.
Qed.

(** X2.  Two mutators of different groups can be called in either order, and
    of two mutators of one group the later call alone counts. *)
Theorem call_commutes_or_overrides (c : Climate) (m1 m2 : mutator) :
  (group_of m1 <> group_of m2 ->
     call (call c m1) m2 = call (call c m2) m1)
  /\ (group_of m1 = group_of m2 -> call (call c m1) m2 = call c m2).
Proof.
  split; intros H; destruct m1, m2; simpl in H;
    try reflexivity; try discriminate; contradiction.
Qed.

Lemma call_commutes_or_overrides_witness :
  call (call Climate_init Coastal) Humid
  = call (call Climate_init Humid) Coastal
  /\ call (call Climate_init Coastal) Island = call Climate_init Island.
Proof.
  split.
  - apply (proj1 (call_commutes_or_overrides Climate_init Coastal Humid)).
    discriminate.
  - apply (proj2 (call_commutes_or_overrides Climate_init Coastal Island)).
    reflexivity.
Defined.

(** ** Validation by the constructor *)

(** X3.  [Station(latitude, longitude, altitude, ...)] with a float latitude
    and longitude and an integer altitude succeeds exactly when the latitude
    is in [-90, 90], the longitude in [0, 360], the altitude is not negative
    and the timezone longitude is in [0, 359]; the station it makes has the
    position it was given, empty registries, the default climate and the
    default crop. An integer latitude or longitude and a float altitude are
    type errors. *)
Theorem Station_init_succeeds_iff (lat lon : R) (alt : Z)
    (anem tz : pynum) :
  ((exists st,
      Station_init (PyFloat lat) (PyFloat lon) (PyInt alt) anem tz = Ok st)
   <-> (-90 <= lat <= 90 /\ 0 <= lon <= 360 /\ (0 <= alt)%Z
        /\ 0 <= num_val tz <= 359))
  /\ (forall st,
        Station_init (PyFloat lat) (PyFloat lon) (PyInt alt) anem tz = Ok st ->
        latitude st = lat /\ longitude st = lon /\ altitude st = alt
        /\ anemometer_height st = num_val anem
        /\ days st = ∅ /\ hours st = ∅
        /\ climate st = Some Climate_init /\ ref_crop st = Crop_init)
  /\ (forall z lon' alt',
        Station_init (PyInt z) lon' alt' anem tz
        = Raise (TypeError (Lit "latitude must be a float")))
  /\ (forall z alt',
        Station_init (PyFloat lat) (PyInt z) alt' anem tz
        = Raise (TypeError (Lit "longitude must be a float")))
  /\ (forall x,
        -90 <= lat <= 90 -> 0 <= lon <= 360 ->
        Station_init (PyFloat lat) (PyFloat lon) (PyFloat x) anem tz
        = Raise (TypeError (Lit "altitude must be an integer"))).
Proof.
  split; [split|split; [|split; [|split]]].
  - intros [st H]. revert H. unfold Station_init.
    destruct (Rltb lat (-90)) eqn:H1; [discriminate|].
    destruct (Rltb 90 lat) eqn:H2; [discriminate|].
    destruct (Rltb lon 0) eqn:H3; [discriminate|].
    destruct (Rltb 360 lon) eqn:H4; [discriminate|].
    destruct (alt <? 0)%Z eqn:H5; [discriminate|].
    destruct (Rltb (num_val tz) 0) eqn:H6; [discriminate|].
    destruct (Rltb 359 (num_val tz)) eqn:H7; [discriminate|].
    intros _.
    apply Rltb_false in H1, H2, H3, H4, H6, H7. apply Z.ltb_ge in H5.
    repeat split; assumption.
  - intros (Hlat & Hlon & Halt & Htz).
    assert (Ha : (alt <? 0)%Z = false) by (apply Z.ltb_ge; lia).
    unfold Station_init. rbool. simpl. rewrite Ha. rbool. simpl.
    eexists. reflexivity.
  - intros st. unfold Station_init.
    destruct (Rltb lat (-90) || Rltb 90 lat); [discriminate|].
    destruct (Rltb lon 0 || Rltb 360 lon); [discriminate|].
    destruct (alt <? 0)%Z; [discriminate|].
    destruct (Rltb (num_val tz) 0 || Rltb 359 (num_val tz)); [discriminate|].
    intros H. injection H as <-. simpl. repeat split; reflexivity.
  - reflexivity.
  - reflexivity.
  - intros x Hlat Hlon. unfold Station_init. rbool. reflexivity.
Qed.

Lemma Station_init_succeeds_iff_witness :
  (exists st,
     Station_init (PyFloat 41.42) (PyFloat 109.32) (PyInt 451)
                  default_anemometer_height default_timezone_longitude
     = Ok st)
  /\ Station_init (PyFloat 41.42) (PyFloat 109.32) (PyFloat 451.5)
                  default_anemometer_height default_timezone_longitude
     = Raise (TypeError (Lit "altitude must be an integer")).
Proof.
  split.
  - apply (proj1 (Station_init_succeeds_iff 41.42 109.32 451
                    default_anemometer_height default_timezone_longitude)).
    simpl. repeat split; try lra; lia.
  - apply (proj2 (proj2 (proj2 (proj2
             (Station_init_succeeds_iff 41.42 109.32 451
                default_anemometer_height default_timezone_longitude)))));
      lra.
Defined.

(** ** Atmospheric pressure *)


Lemma Rpower_pos (b c : R) : 0 < Rpower b c.
Proof. unfold Rpower. apply exp_pos. Qed.


Lemma pressure_base (alt : Z) :
  (0 <= alt <= 45076)%Z -> 0 < (293 - 0.0065 * IZR alt) / 293 <= 1.
Proof.
  intros [H0 H1].
  assert (IZR 0 <= IZR alt) by (now apply IZR_le).
  assert (IZR alt <= IZR 45076) by (now apply IZR_le).
  split; lra.
Qed.

Lemma Station_atmospheric_pressure_value (st : Station) :
  (0 <= altitude st <= 45076)%Z ->
  Station_atmospheric_pressure st
  = Ok (py_round
          (101.3 * Rpower ((293 - 0.0065 * IZR (altitude st)) / 293) 5.26)
          2).
Proof.
  intros Halt. pose proof (pressure_base _ Halt) as [Hb _].
  unfold Station_atmospheric_pressure, py_pow.
  apply Rltb_true in Hb. rewrite Hb. reflexivity.
Qed.



(** ** Saturation vapour pressure *)

Lemma saturation_vapour_pressure_value (T : R) :
  T <> -237.3 ->
  saturation_vapour_pressure T
  = Ok (py_round (0.6108 * Rpower 2.7183 (17.27 * T / (T + 237.3))) 3).
Proof.
  intros HT. unfold saturation_vapour_pressure, py_div.
  assert (H : Reqb (T + 237.3) 0 = false) by (apply Reqb_false; lra).
  rewrite H. reflexivity.
Qed.



Lemma saturation_vapour_pressure_warm (T : R) :
  0 <= T ->
  exists v, saturation_vapour_pressure T = Ok v /\ 0.611 <= v.
Proof.
  intros H0.
  rewrite (saturation_vapour_pressure_value T) by lra.
  eexists. split; [reflexivity|].
  assert (E : py_round 0.6108 3 = 0.611).
  { rewrite (py_round_near 0.6108 611 3); simpl; lra. }
  rewrite <- E. apply py_round_mono.
  assert (Hq : 0 <= 17.27 * T / (T + 237.3)).
  { apply Rmult_le_pos; [lra|]. left. apply Rinv_0_lt_compat. lra. }
  assert (Hp : 1 <= Rpower 2.7183 (17.27 * T / (T + 237.3))).
  { rewrite <- (Rpower_O 2.7183) by lra. apply Rle_Rpower; lra. }
  lra.
Qed.



(** ** Ranges of the astronomic quantities *)

(** X6.  On every day, whatever the day number, the relative sun distance is
    between 0.967 and 1.033 and the solar declination between -0.409 and
    0.409 rad. *)
Theorem sun_distance_declination_range (e : TimeEntry) :
  0.967 <= relative_sun_distance e <= 1.033
  /\ -0.409 <= solar_declination e <= 0.409.
Proof.
  pose proof (COS_bound (2 * PI / 365 * IZR (day_number e))) as [Hc1 Hc2].
  pose proof (SIN_bound (2 * PI / 365 * IZR (day_number e) - 1.39))
    as [Hs1 Hs2].
  unfold relative_sun_distance, solar_declination.
  repeat split.
  - replace 0.967 with (IZR 967 / 10 ^ 3) by (simpl; lra).
    apply py_round_ge_grid. simpl. lra.
  - replace 1.033 with (IZR 1033 / 10 ^ 3) by (simpl; lra).
    apply py_round_le_grid. simpl. lra.
  - replace (-0.409) with (IZR (-409) / 10 ^ 3) by (simpl; lra).
    apply py_round_ge_grid. simpl. lra.
  - replace 0.409 with (IZR 409 / 10 ^ 3) by (simpl; lra).
    apply py_round_le_grid. simpl. lra.
Qed.

Lemma sunset_hour_angle_range (st : Station) (e : TimeEntry) (ws : R) :
  sunset_hour_angle st e = Ok ws -> 0 <= ws <= 3.142.
Proof.
  unfold sunset_hour_angle, py_acos.
  destruct (Rltb _ (-1) || Rltb 1 _); [discriminate|].
  unfold bind. intros H. injection H as <-.
  set (x := -1 * tan (latitude_rad st) * tan (solar_declination e)).
  pose proof (acos_bound x) as [H0 H1].
  pose proof PI_bounds as [_ Hp].
  split.
  - now apply py_round_nonneg_0.
  - replace 3.142 with (IZR 3142 / 10 ^ 3) by (simpl; lra).
    apply py_round_le_grid. simpl. lra.
Qed.

Lemma daylight_hours_bounds (st : Station) (e : TimeEntry) (N : R) :
  daylight_hours st e = Ok N -> 0 <= N <= 24.
Proof.
  unfold daylight_hours.
  destruct (sunset_hour_angle st e) as [ws|err] eqn:Hws; [|discriminate].
  unfold bind. intros H. injection H as <-.
  pose proof (sunset_hour_angle_range st e ws Hws) as [H0 H1].
  pose proof PI_bounds as [Hp1 Hp2].
  assert (Hq : 0 <= 24 / PI * ws <= 24.004).
  { assert (Hi : 0 < / PI) by (apply Rinv_0_lt_compat; lra).
    split.
    - apply Rmult_le_pos; [|exact H0]. unfold Rdiv. nra.
    - apply Rmult_le_reg_r with PI; [lra|].
      replace (24 / PI * ws * PI) with (24 * ws) by (field; lra). nra. }
  split.
  - apply py_round_nonneg_0. lra.
  - assert (E : py_round 24.004 1 = 24).
    { rewrite (py_round_near 24.004 240 1); simpl; lra. }
    apply Rle_trans with (py_round 24.004 1);
      [apply py_round_mono; lra | rewrite E; lra].
Qed.

(** X7.  Whenever they are defined, at any latitude and on any day, the
    sunset hour angle is between 0 and 3.142 rad and the daylight hours are
    between 0 and 24. *)
Theorem daylight_hours_range (st : Station) (e : TimeEntry) (N : R) :
  daylight_hours st e = Ok N ->
  0 <= N <= 24
  /\ exists ws, sunset_hour_angle st e = Ok ws /\ 0 <= ws <= 3.142.
Proof.
  intros HN. split; [exact (daylight_hours_bounds st e N HN)|].
  revert HN. unfold daylight_hours.
  destruct (sunset_hour_angle st e) as [ws|err] eqn:Hws; [|discriminate].
  intros _. exists ws. split; [reflexivity|].
  exact (sunset_hour_angle_range st e ws Hws).
Qed.

Lemma daylight_hours_range_witness :
  0 <= 12 <= 24
  /\ exists ws,
       sunset_hour_angle equator_station (blank_day equator_station 1)
       = Ok ws /\ 0 <= ws <= 3.142.
Proof.
  apply (daylight_hours_range equator_station
           (blank_day equator_station 1) 12).
  now apply daylight_hours_equator.
Defined.

(** ** What [day_entry] returns and registers *)

Lemma day_range_true (n : Z) :
  negb ((1 <=? n)%Z && (n <=? 366)%Z) = false <-> (1 <= n <= 366)%Z.
Proof.
  rewrite negb_false_iff, andb_true_iff, !Z.leb_le. tauto.
Qed.

(** The shape of a successful [day_entry]. *)
Lemma day_entry_Ok_inv (g : Globals) (st st' : Station) (d : day_id)
    (tmin tmax tmean wind hmean rad sun : option R) (e : TimeEntry) :
  day_entry g st d tmin tmax tmean wind hmean rad sun = (st', Ok e) ->
  (1 <= day_number_of d <= 366)%Z
  /\ st' = set_day st (day_number_of d) e
  /\ exists day1,
       ((day1 = observed_day st (day_number_of d) tmin tmax tmean hmean wind
         /\ truthy rad = false)
        \/ (day1 = set_radiation_s
                     (observed_day st (day_number_of d)
                                   tmin tmax tmean hmean wind) rad
            /\ truthy rad = true
            /\ (CHECK_RADIATION_RANGE g = true ->
                  exists r rso,
                    rad = Some r
                    /\ R_so st (observed_day st (day_number_of d)
                                             tmin tmax tmean hmean wind)
                       = Ok rso
                    /\ r <= rso)))
       /\ ((e = day1 /\ truthy sun = false)
           \/ (e = set_sunshine_hours day1 sun
               /\ truthy sun = true
               /\ (CHECK_SUNSHINE_HOURS_RANGE g = true ->
                     exists n N,
                       sun = Some n
                       /\ daylight_hours st day1 = Ok N
                       /\ n <= N))).
Proof.
  unfold day_entry.
  destruct (negb _) eqn:Hrange; [discriminate|].
  apply day_range_true in Hrange.
  cbv zeta.
  fold (blank_day st (day_number_of d)).
  fold (observed_day st (day_number_of d) tmin tmax tmean hmean wind).
  set (obs := observed_day st (day_number_of d) tmin tmax tmean hmean wind).
  match goal with |- context [match ?m with Ok _ => _ | Raise _ => _ end] =>
    destruct m as [day1|err1] eqn:Hrad end; [|discriminate].
  match goal with |- context [match ?m with Ok _ => _ | Raise _ => _ end] =>
    destruct m as [day2|err2] eqn:Hsun end; [|discriminate].
  intros H. injection H as <- <-.
  split; [exact Hrange|]. split; [reflexivity|].
  exists day1. split.
  - clear Hsun. revert Hrad.
    destruct (truthy rad) eqn:Ht.
    + destruct (CHECK_RADIATION_RANGE g).
      * destruct rad as [r|]; [|discriminate]. simpl num. unfold bind at 1.
        rewrite R_so_set_day.
        destruct (R_so st obs) as [rso|] eqn:Hrso; [|discriminate].
        unfold bind.
        destruct (Rleb r rso) eqn:Hle; [|discriminate].
        apply Rleb_true in Hle.
        intros H. injection H as <-. right.
        split; [reflexivity|]. split; [reflexivity|].
        intros _. now exists r, rso.
      * intros H. injection H as <-. right.
        split; [reflexivity|]. split; [reflexivity|]. discriminate.
    + intros H. injection H as <-. left. now split.
  - clear Hrad. revert Hsun.
    destruct (truthy sun) eqn:Ht.
    + destruct (CHECK_SUNSHINE_HOURS_RANGE g).
      * destruct sun as [n|]; [|discriminate]. simpl num. unfold bind at 1.
        rewrite daylight_hours_set_day.
        destruct (daylight_hours st day1) as [N|] eqn:HN; [|discriminate].
        unfold bind.
        destruct (Rleb n N) eqn:Hle; [|discriminate].
        apply Rleb_true in Hle.
        intros H. injection H as <-. right.
        split; [reflexivity|]. split; [reflexivity|].
        intros _. now exists n, N.
      * intros H. injection H as <-. right.
        split; [reflexivity|]. split; [reflexivity|]. discriminate.
    + intros H. injection H as <-. left. now split.
Qed.

(** X8.  A successful [day_entry] has a day number in 1..366, registers the
    entry it returns under that number and touches no other day and no hour;
    the entry is a day entry of that number carrying the temperature,
    humidity and wind arguments as given, and its radiation and sunshine
    hours are the arguments or nothing. *)
Theorem day_entry_registers (g : Globals) (st st' : Station) (d : day_id)
    (tmin tmax tmean wind hmean rad sun : option R) (e : TimeEntry) :
  day_entry g st d tmin tmax tmean wind hmean rad sun = (st', Ok e) ->
  (1 <= day_number_of d <= 366)%Z
  /\ days st' !! day_number_of d = Some e
  /\ (forall k, k <> day_number_of d -> days st' !! k = days st !! k)
  /\ hours st' = hours st
  /\ class e = DayEntry /\ day_number e = day_number_of d
  /\ temp_min e = tmin /\ temp_max e = tmax /\ temp_mean e = tmean
  /\ humidity_mean e = hmean /\ wind_speed e = wind
  /\ radiation_s e = (if truthy rad then rad else None)
  /\ sunshine_hours e = (if truthy sun then sun else None).
Proof.
  intros H.
  destruct (day_entry_Ok_inv _ _ _ _ _ _ _ _ _ _ _ _ H)
    as (Hrange & -> & day1 & Hrad & Hsun).
  split; [exact Hrange|].
  split; [simpl; apply lookup_insert_eq|].
  split; [intros k Hk; simpl; apply lookup_insert_ne; congruence|].
  split; [reflexivity|].
  destruct Hrad as [[-> Hr] | (-> & Hr & _)];
    destruct Hsun as [[-> Hs] | (-> & Hs & _)];
    rewrite Hr, Hs; repeat split; reflexivity.
Qed.

Lemma day_entry_registers_witness :
  (1 <= 1 <= 366)%Z
  /\ days (set_day equator_station 1
             (set_radiation_s
                (observed_day equator_station 1 None None None None None)
                (Some 10))) !! 1%Z
     = Some (set_radiation_s
               (observed_day equator_station 1 None None None None None)
               (Some 10)).
Proof.
  destruct (day_entry_registers module_globals equator_station _
              (DayInt 1) None None None None None (Some 10) None _
              day_entry_equator_radiation_10) as (H1 & H2 & _).
  split; [exact H1 | exact H2].
Defined.

(** X9.  With range checking on, the entry a successful [day_entry] returns
    keeps the ceilings: a radiation it carries is not 0 and is at most the
    clear-sky radiation of its day, and sunshine hours it carries are not 0,
    at most the daylight hours of its day and at most 24. *)
Theorem day_entry_keeps_ceilings (g : Globals) (st st' : Station)
    (d : day_id) (tmin tmax tmean wind hmean rad sun : option R)
    (e : TimeEntry) :
  day_entry g st d tmin tmax tmean wind hmean rad sun = (st', Ok e) ->
  (CHECK_RADIATION_RANGE g = true ->
     forall r, radiation_s e = Some r ->
       r <> 0 /\ exists rso, R_so st' e = Ok rso /\ r <= rso)
  /\ (CHECK_SUNSHINE_HOURS_RANGE g = true ->
        forall n, sunshine_hours e = Some n ->
          n <> 0
          /\ exists N, daylight_hours st' e = Ok N /\ n <= N /\ N <= 24).
Proof.
  intros H.
  destruct (day_entry_Ok_inv _ _ _ _ _ _ _ _ _ _ _ _ H)
    as (Hrange & -> & day1 & Hrad & Hsun).
  split.
  - intros Hg r Hr.
    assert (Hr1 : radiation_s day1 = Some r).
    { destruct Hsun as [[-> _] | (-> & _ & _)]; exact Hr. }
    destruct Hrad as [[-> Ht] | (-> & Ht & Hck)]; [discriminate|].
    simpl in Hr1. subst rad.
    split; [now apply truthy_Some|].
    destruct (Hck Hg) as (r' & rso & Heq & Hrso & Hle).
    injection Heq as <-. exists rso. split; [|exact Hle].
    rewrite <- Hrso. apply R_so_ext; try reflexivity;
      destruct Hsun as [[-> _] | (-> & _ & _)]; reflexivity.
  - intros Hg n Hn.
    destruct Hsun as [[-> Ht] | (-> & Ht & Hck)].
    + destruct Hrad as [[-> _] | (-> & _ & _)]; discriminate.
    + simpl in Hn. subst sun.
      split; [now apply truthy_Some|].
      destruct (Hck Hg) as (n' & N & Heq & HN & Hle).
      injection Heq as <-. exists N.
      assert (HN' : daylight_hours
                      (set_day st (day_number_of d)
                               (set_sunshine_hours day1 (Some n)))
                      (set_sunshine_hours day1 (Some n)) = Ok N)
        by exact HN.
      split; [exact HN'|]. split; [exact Hle|].
      now destruct (daylight_hours_bounds _ _ _ HN') as [_ ?].
Qed.

Lemma day_entry_keeps_ceilings_witness :
  10 <> 0
  /\ exists rso,
       R_so (set_day equator_station 1
               (set_radiation_s
                  (observed_day equator_station 1 None None None None None)
                  (Some 10)))
            (set_radiation_s
               (observed_day equator_station 1 None None None None None)
               (Some 10))
       = Ok rso /\ 10 <= rso.
Proof.
  apply (proj1 (day_entry_keeps_ceilings module_globals equator_station _
                  (DayInt 1) None None None None None (Some 10) None _
                  day_entry_equator_radiation_10) eq_refl 10 eq_refl).
Defined.

(** X10.  A day number outside 1..366 is refused before anything is made:
    the station is returned as it was. With both range checks switched off
    every other call succeeds, at any latitude, and stores a radiation and
    sunshine hours that are not 0 whatever their size. *)
Theorem day_entry_range_and_unchecked (g : Globals) (st : Station)
    (d : day_id) (tmin tmax tmean wind hmean rad sun : option R) :
  ((day_number_of d < 1 \/ 366 < day_number_of d)%Z ->
     day_entry g st d tmin tmax tmean wind hmean rad sun
     = (st, Raise (PyException
                     (Lit "'day_number' must be between in the range 1-366"))))
  /\ ((1 <= day_number_of d <= 366)%Z ->
      CHECK_RADIATION_RANGE g = false ->
      CHECK_SUNSHINE_HOURS_RANGE g = false ->
      exists e,
        day_entry g st d tmin tmax tmean wind hmean rad sun
        = (set_day st (day_number_of d) e, Ok e)
        /\ radiation_s e = (if truthy rad then rad else None)
        /\ sunshine_hours e = (if truthy sun then sun else None)).
Proof.
  split.
  - intros Hout. unfold day_entry.
    assert (Hr : negb ((1 <=? day_number_of d)%Z
                       && (day_number_of d <=? 366)%Z) = true).
    { apply negb_true_iff, andb_false_iff.
      destruct Hout; [left; apply Z.leb_gt | right; apply Z.leb_gt]; lia. }
    rewrite Hr. reflexivity.
  - intros Hin Hg1 Hg2. unfold day_entry.
    rewrite (proj2 (day_range_true _) Hin), Hg1, Hg2. cbv zeta.
    destruct (truthy rad), (truthy sun); eexists;
      (split; [reflexivity|]); split; reflexivity.
Qed.

Lemma day_entry_range_and_unchecked_witness :
  day_entry module_globals equator_station (DayInt 367)
            None None None None None None None
  = (equator_station,
     Raise (PyException
              (Lit "'day_number' must be between in the range 1-366")))
  /\ exists e,
       day_entry unchecked_globals arctic_station (DayInt 172)
                 None None None None None (Some 1000) (Some 30)
       = (set_day arctic_station 172 e, Ok e)
       /\ radiation_s e = (if truthy (Some 1000) then Some 1000 else None)
       /\ sunshine_hours e = (if truthy (Some 30) then Some 30 else None).
Proof.
  split.
  - apply (proj1 (day_entry_range_and_unchecked module_globals
                    equator_station (DayInt 367)
                    None None None None None None None)).
    right. simpl. lia.
  - apply (proj2 (day_entry_range_and_unchecked unchecked_globals
                    arctic_station (DayInt 172)
                    None None None None None (Some 1000) (Some 30)));
      [simpl; lia | reflexivity | reflexivity].
Defined.

(** ** What [hour_entry] registers *)

(** X11.  [hour_entry] registers an hour entry under the whole hours of the
    timestamp on every exit, in place of any entry of the same hour, and
    touches no other hour and no day; the entry carries the temperature,
    humidity and wind arguments and the day number of the timestamp. When
    the call succeeds the entry returned is the registered one; when it
    raises, the registered one has no radiation. *)
Theorem hour_entry_registers (g : Globals) (st : Station) (t : datetime)
    (tmin tmax tmean wind hmean rad : option R) :
  exists e,
    fst (hour_entry g st t tmin tmax tmean wind hmean rad)
    = set_hour st (timestamp_hours t) e
    /\ hours (fst (hour_entry g st t tmin tmax tmean wind hmean rad))
         !! timestamp_hours t = Some e
    /\ (forall k, k <> timestamp_hours t ->
          hours (fst (hour_entry g st t tmin tmax tmean wind hmean rad))
            !! k = hours st !! k)
    /\ days (fst (hour_entry g st t tmin tmax tmean wind hmean rad))
       = days st
    /\ class e = HourEntry
    /\ day_number e = (days_since_jan1 t + 1)%Z
    /\ time e = Stamp t
    /\ temp_min e = tmin /\ temp_max e = tmax /\ temp_mean e = tmean
    /\ humidity_mean e = hmean /\ wind_speed e = wind
    /\ (snd (hour_entry g st t tmin tmax tmean wind hmean rad) = Ok e
        \/ (radiation_s e = None
            /\ exists err,
                 snd (hour_entry g st t tmin tmax tmean wind hmean rad)
                 = Raise err)).
Proof.
  unfold hour_entry.
  match goal with |- context [match ?m with Ok _ => _ | Raise _ => _ end] =>
    destruct m as [e1|err1] eqn:Hrad end.
  - exists e1. simpl fst. simpl snd.
    split; [reflexivity|].
    split; [simpl; apply lookup_insert_eq|].
    split; [intros k Hk; simpl; apply lookup_insert_ne; congruence|].
    split; [reflexivity|].
    assert (He : e1 = observed_hour st t tmin tmax tmean hmean wind
                 \/ e1 = set_radiation_s
                           (observed_hour st t tmin tmax tmean hmean wind)
                           rad).
    { revert Hrad.
      destruct (truthy rad); [|intros H; injection H as <-; now left].
      destruct (CHECK_RADIATION_RANGE g);
        [|intros H; injection H as <-; now right].
      destruct (num rad); [|discriminate]. unfold bind at 1.
      destruct (R_so _ _); [|discriminate]. unfold bind.
      destruct (Rltb _ _); [|discriminate].
      intros H; injection H as <-; now right. }
    destruct He as [-> | ->]; repeat (split; [reflexivity|]); now left.
  - eexists. simpl fst. simpl snd.
    split; [reflexivity|].
    split; [simpl; apply lookup_insert_eq|].
    split; [intros k Hk; simpl; apply lookup_insert_ne; congruence|].
    repeat (split; [reflexivity|]).
    right. split; [reflexivity|]. now exists err1.
Qed.

(** ** Solar radiation from sunshine hours *)

(** The tail of [DayEntry.solar_radiation] for [n] sunshine hours. *)
Lemma DayEntry_solar_radiation_angstrom (g : Globals) (st : Station)
    (e : TimeEntry) (n N ra : R) :
  class e = DayEntry ->
  radiation_s e = None \/ radiation_s e = Some 0 ->
  sunshine_hours e = Some n ->
  daylight_hours st e = Ok N -> R_a st e = Ok ra ->
  0 <= n <= N -> N <> 0 ->
  solar_radiation g st e = Ok (py_round ((0.25 + 0.50 * n / N) * ra) 1).
Proof.
  intros Hc Hr Hs HN Hra Hn HN0.
  unfold solar_radiation. rewrite Hc. unfold DayEntry_solar_radiation.
  rewrite (truthy_absent _ Hr), Hs, HN, Hra. unfold bind, py_div.
  rbool; reflexivity.
Qed.

(** X12.  For a day entry with logged sunshine hours [n] between 0 and the
    daylight hours [N] (not 0), no logged radiation and a daily
    extraterrestrial radiation [Ra] that is not negative,
    [solar_radiation()] is the Angstrom value [(0.25 + 0.5 n / N) Ra]
    rounded to one decimal; it lies between [0.25 Ra] and [0.75 Ra], both
    rounded to one decimal, and is the latter when [n = N]. *)
Theorem solar_radiation_angstrom_range (g : Globals) (st : Station)
    (e : TimeEntry) (n N ra : R) :
  class e = DayEntry ->
  radiation_s e = None \/ radiation_s e = Some 0 ->
  sunshine_hours e = Some n ->
  daylight_hours st e = Ok N -> R_a st e = Ok ra ->
  0 <= n <= N -> N <> 0 -> 0 <= ra ->
  exists v,
    solar_radiation g st e = Ok v
    /\ v = py_round ((0.25 + 0.50 * n / N) * ra) 1
    /\ py_round (0.25 * ra) 1 <= v <= py_round (0.75 * ra) 1
    /\ (n = N -> v = py_round (0.75 * ra) 1).
Proof.
  intros Hc Hr Hs HN Hra Hn HN0 Hra0.
  eexists. split.
  { now apply (DayEntry_solar_radiation_angstrom g st e n N ra). }
  split; [reflexivity|].
  assert (HNpos : 0 < N) by lra.
  assert (Hq : 0 <= 0.50 * n / N <= 0.50).
  { split.
    - apply Rmult_le_pos; [lra|]. left. now apply Rinv_0_lt_compat.
    - apply Rmult_le_reg_r with N; [exact HNpos|].
      replace (0.50 * n / N * N) with (0.50 * n) by (field; lra). lra. }
  split; [split|].
  - apply py_round_mono. nra.
  - apply py_round_mono. nra.
  - intros ->. f_equal.
    replace (0.50 * N / N) with 0.50 by (field; lra). lra.
Qed.

Lemma solar_radiation_angstrom_range_witness :
  exists ra v,
    R_a equator_station
        (set_sunshine_hours (blank_day equator_station 1) (Some 6))
    = Ok ra
    /\ solar_radiation module_globals equator_station
         (set_sunshine_hours (blank_day equator_station 1) (Some 6))
       = Ok v
    /\ v = py_round ((0.25 + 0.50 * 6 / 12) * ra) 1
    /\ py_round (0.25 * ra) 1 <= v <= py_round (0.75 * ra) 1.
Proof.
  destruct (TimeEntry_R_a_equator equator_station eq_refl
              (set_sunshine_hours (blank_day equator_station 1) (Some 6)))
    as (ra & Hra & Hb).
  destruct (solar_radiation_angstrom_range module_globals equator_station
              (set_sunshine_hours (blank_day equator_station 1) (Some 6))
              6 12 ra eq_refl (or_introl eq_refl) eq_refl
              (daylight_hours_equator equator_station eq_refl _) Hra
              ltac:(lra) ltac:(lra) ltac:(lra))
    as (v & Hv & Hval & Hrange & _).
  exists ra, v. repeat split; try assumption; apply Hrange.
Defined.

(** X13.  The estimate of [DayEntry.solar_radiation] when neither radiation
    nor sunshine hours are logged and the temperature formulas do not apply
    (no climate, or a climate that is not a low island and a missing or zero
    extreme temperature): full sun is assumed. With daylight hours that are
    not 0 the result is [0.75 Ra] rounded to one decimal, which below 100 m
    is the clear-sky radiation [R_so()]; with 0 daylight hours the method
    divides by zero. *)
Theorem solar_radiation_full_sun (g : Globals) (st : Station)
    (e : TimeEntry) (N ra : R) :
  class e = DayEntry ->
  radiation_s e = None \/ radiation_s e = Some 0 ->
  sunshine_hours e = None ->
  (climate st = None
   \/ exists c, climate st = Some c
                /\ island_location c && (altitude st <? 100)%Z = false
                /\ truthy (temp_min e) && truthy (temp_max e) = false) ->
  daylight_hours st e = Ok N -> R_a st e = Ok ra ->
  (N <> 0 ->
     solar_radiation g st e = Ok (py_round (0.75 * ra) 1)
     /\ ((altitude st < 100)%Z -> solar_radiation g st e = R_so st e))
  /\ (N = 0 -> solar_radiation g st e = Raise ZeroDivisionError).
Proof.
  intros Hc Hr Hs Hcl HN Hra.
  destruct (daylight_hours_bounds st e N HN) as [HN0 _].
  assert (Hshape : solar_radiation g st e
                   = (q <- py_div (0.50 * N) N;;
                      Ok (py_round ((0.25 + q) * ra) 1))).
  { unfold solar_radiation. rewrite Hc. unfold DayEntry_solar_radiation.
    rewrite (truthy_absent _ Hr), Hs.
    destruct Hcl as [-> | (c & -> & -> & ->)];
      rewrite HN, Hra; unfold bind; rbool; reflexivity. }
  split.
  - intros Hnz.
    assert (Hv : solar_radiation g st e = Ok (py_round (0.75 * ra) 1)).
    { rewrite Hshape. unfold py_div, bind. rbool. do 2 f_equal.
      replace (0.50 * N / N) with 0.50 by (field; lra). lra. }
    split; [exact Hv|].
    intros Halt. rewrite Hv. symmetry. now apply R_so_below_100.
  - intros ->. rewrite Hshape. unfold py_div, bind. rbool; reflexivity.
Qed.

Lemma solar_radiation_full_sun_witness :
  exists ra,
    R_a bare_station (blank_day bare_station 1) = Ok ra
    /\ solar_radiation module_globals bare_station (blank_day bare_station 1)
       = Ok (py_round (0.75 * ra) 1)
    /\ solar_radiation module_globals bare_station (blank_day bare_station 1)
       = R_so bare_station (blank_day bare_station 1).
Proof.
  destruct (TimeEntry_R_a_equator bare_station eq_refl
              (blank_day bare_station 1)) as (ra & Hra & Hb).
  exists ra. split; [exact Hra|].
  destruct (proj1 (solar_radiation_full_sun module_globals bare_station
                     (blank_day bare_station 1) 12 ra eq_refl
                     (or_introl eq_refl) eq_refl (or_introl eq_refl)
                     (daylight_hours_equator bare_station eq_refl _) Hra)
                  ltac:(lra)) as [H1 H2].
  split; [exact H1 | apply H2; simpl; lia].
Defined.

(** ** The equator *)

(** X14.  On a station built with the latitude 0.0, whatever its longitude
    and altitude, every day of the year has a sunset hour angle of 1.571
    rad, 12 daylight hours and a daily extraterrestrial radiation between 30
    and 40 MJ/m2/day. *)
Theorem equator_has_twelve_hour_days (lon : R) (alt : Z) (anem tz : pynum)
    (st : Station) (e : TimeEntry) :
  Station_init (PyFloat 0) (PyFloat lon) (PyInt alt) anem tz = Ok st ->
  class e = DayEntry ->
  sunset_hour_angle st e = Ok 1.571
  /\ daylight_hours st e = Ok 12
  /\ exists ra, R_a st e = Ok ra /\ 30 <= ra <= 40.
Proof.
  intros Hinit Hc.
  destruct (Station_init_inv _ _ _ _ _ _ Hinit) as [_ Hrad].
  assert (Hlat : latitude_rad st = 0).
  { rewrite Hrad. replace (PI / 180 * 0) with 0 by ring. apply py_round_0. }
  split; [now apply sunset_hour_angle_equator|].
  split; [now apply daylight_hours_equator|].
  destruct (TimeEntry_R_a_equator st Hlat e) as (ra & Hra & Hb).
  exists ra. split; [|exact Hb]. unfold R_a. now rewrite Hc.
Qed.

Lemma equator_has_twelve_hour_days_witness :
  sunset_hour_angle equator_station (blank_day equator_station 200)
  = Ok 1.571
  /\ daylight_hours equator_station (blank_day equator_station 200) = Ok 12
  /\ exists ra,
       R_a equator_station (blank_day equator_station 200) = Ok ra
       /\ 30 <= ra <= 40.
Proof.
  apply (equator_has_twelve_hour_days 300 0 (PyInt 2) (PyInt 345)
           equator_station (blank_day equator_station 200)
           (Station_init_equator (PyInt 345) ltac:(simpl; lra)) eq_refl).
Defined.

(** ** The radiation check of [HourEntry.solar_radiation] *)

(** X15.  With range checking on and a clear-sky radiation [R_so] that is
    not negative, [HourEntry.solar_radiation()] returns the logged radiation
    exactly when it is at most 0.05 over a ceiling of 0, or at most 1.05
    times a positive ceiling, and raises [ValueError] otherwise; there is no
    lower limit. With the check off the logged radiation is returned as it
    is, and without a logged radiation the method raises [Exception]. *)
Theorem HourEntry_solar_radiation_band (g : Globals) (st : Station)
    (e : TimeEntry) :
  class e = HourEntry ->
  (forall rs rso,
     radiation_s e = Some rs -> CHECK_RADIATION_RANGE g = true ->
     R_so st e = Ok rso -> 0 <= rso ->
     ((rso = 0 /\ rs <= 0.05) \/ (0 < rso /\ rs <= 1.05 * rso) ->
        solar_radiation g st e = Ok rs)
     /\ (rso = 0 -> 0.05 < rs ->
           solar_radiation g st e
           = Raise (ValueError
                      (LitNumLit "'Lunar' radiation out ot range. radiation ="
                                 rs " should be near 0.")))
     /\ (0 < rso -> 1.05 * rso < rs ->
           solar_radiation g st e
           = Raise (ValueError
                      (LitNum "Solar radiation out ot range. Rso=" rso))))
  /\ (forall rs, radiation_s e = Some rs -> CHECK_RADIATION_RANGE g = false ->
        solar_radiation g st e = Ok rs)
  /\ (radiation_s e = None ->
        solar_radiation g st e
        = Raise (PyException
                   (Lit "Cannot calculate eto(): radiation_s (Solar radiation) is missing"))).
Proof.
  intros Hc.
  assert (Hdiv : forall rs rso, 0 < rso ->
            (0.05 < (rs - rso) / rso <-> 1.05 * rso < rs)).
  { intros rs rso Hpos. split; intros H.
    - apply Rmult_lt_compat_r with (r := rso) in H; [|exact Hpos].
      replace ((rs - rso) / rso * rso) with (rs - rso) in H by (field; lra).
      lra.
    - apply Rmult_lt_reg_r with rso; [exact Hpos|].
      replace ((rs - rso) / rso * rso) with (rs - rso) by (field; lra).
      lra. }
  unfold solar_radiation. rewrite Hc. unfold HourEntry_solar_radiation.
  split; [|split].
  - intros rs rso Hr Hg Hrso Hnn. rewrite Hr, Hg, Hrso. unfold bind.
    split; [|split].
    + intros [[-> Hle] | [Hpos Hle]].
      * rbool; reflexivity.
      * destruct (Rltb 0.05 ((rs - rso) / rso)) eqn:Hb.
        -- apply Rltb_true, (Hdiv rs rso Hpos) in Hb. lra.
        -- rbool; reflexivity.
    + intros -> Hgt. rbool; reflexivity.
    + intros Hpos Hgt.
      apply (Hdiv rs rso Hpos), Rltb_true in Hgt. rewrite Hgt.
      rbool; reflexivity.
  - intros rs Hr Hg. now rewrite Hr, Hg.
  - intros Hr. now rewrite Hr.
Qed.

Lemma HourEntry_solar_radiation_band_witness :
  solar_radiation module_globals equator_station
    (set_radiation_s
       (observed_hour equator_station late_evening None None None None None)
       (Some 0.01))
  = Ok 0.01.
Proof.
  apply (proj1 (proj1 (HourEntry_solar_radiation_band module_globals
                         equator_station
                         (set_radiation_s
                            (observed_hour equator_station late_evening
                                           None None None None None)
                            (Some 0.01)) eq_refl)
                      0.01 0 eq_refl eq_refl
                      (R_so_late_evening
                         (set_radiation_s
                            (observed_hour equator_station late_evening
                                           None None None None None)
                            (Some 0.01)) eq_refl eq_refl) ltac:(lra))).
  left. split; [reflexivity | lra].
Defined.

(** ** [eto] without wind information *)

(** X16.  Without a climate and without a wind speed that is not 0, [eto()]
    is [eto_hargreaves()], whatever else is logged: with both extreme
    temperatures (0 counts) and [temp_min <= temp_max] it is [0.0023 (Tmean
    + 17.8) sqrt(temp_max - temp_min) Ra] rounded to two decimals; with
    [temp_max < temp_min] the power is complex and [round] raises a
    [TypeError]; with an extreme temperature missing the addition raises a
    [TypeError]. *)
Theorem eto_without_wind_is_hargreaves (g : Globals) (st : Station)
    (e : TimeEntry) :
  climate st = None ->
  wind_speed e = None \/ wind_speed e = Some 0 ->
  eto g st e = eto_hargreaves st e
  /\ (forall tmin tmax ra,
        temp_min e = Some tmin -> temp_max e = Some tmax ->
        R_a st e = Ok ra ->
        (tmin <= tmax ->
           eto g st e
           = Ok (py_round (0.0023 * ((tmax + tmin) / 2 + 17.8)
                           * sqrt (tmax - tmin) * ra) 2))
        /\ (tmax < tmin ->
              eto g st e
              = Raise (TypeError
                         (Lit "type complex doesn't define __round__ method"))))
  /\ (temp_min e = None \/ temp_max e = None ->
        exists m, eto g st e = Raise (TypeError m)).
Proof.
  intros Hcl Hw.
  assert (He : eto g st e = eto_hargreaves st e).
  { unfold eto, wind_speed_2m.
    rewrite (truthy_absent _ Hw), Hcl. reflexivity. }
  split; [exact He|]. rewrite He. unfold eto_hargreaves.
  split.
  - intros tmin tmax ra Hmin Hmax Hra. rewrite Hmin, Hmax, Hra.
    unfold bind, num, py_pow. split.
    + intros Hle.
      destruct (Rltb 0 (tmax - tmin)) eqn:Hpos.
      * apply Rltb_true in Hpos. simpl. do 2 f_equal.
        replace 0.5 with (/ 2) by lra.
        rewrite Rpower_sqrt by exact Hpos. ring.
      * apply Rltb_false in Hpos.
        assert (Hz : tmax - tmin = 0) by lra.
        rewrite Hz, Reqb_refl. simpl. do 2 f_equal.
        rewrite sqrt_0. ring.
    + intros Hlt. rbool; reflexivity.
  - intros [Hn | Hn]; rewrite Hn.
    + destruct (temp_max e); eexists; reflexivity.
    + eexists; reflexivity.
Qed.

Lemma eto_without_wind_is_hargreaves_witness :
  exists ra,
    R_a bare_station
        (observed_day bare_station 1 (Some 10) (Some 26) None None None)
    = Ok ra
    /\ eto module_globals bare_station
          (observed_day bare_station 1 (Some 10) (Some 26) None None None)
       = Ok (py_round (0.0023 * ((26 + 10) / 2 + 17.8)
                       * sqrt (26 - 10) * ra) 2).
Proof.
  destruct (TimeEntry_R_a_equator bare_station eq_refl
              (observed_day bare_station 1 (Some 10) (Some 26)
                            None None None)) as (ra & Hra & Hb).
  exists ra. split; [exact Hra|].
  apply (proj1 (proj1 (proj2 (eto_without_wind_is_hargreaves module_globals
                  bare_station
                  (observed_day bare_station 1 (Some 10) (Some 26)
                                None None None)
                  eq_refl (or_introl eq_refl)))
                10 26 ra eq_refl eq_refl Hra)).
  lra.
Defined.

(** ** The Penman-Monteith rate is not negative *)

Lemma slope_nonneg (T s : R) :
  slope_of_saturation_vapour_pressure T = Ok s -> 0 <= s.
Proof.
  unfold slope_of_saturation_vapour_pressure, py_div.
  destruct (Reqb (T + 237.3) 0) eqn:H0; [discriminate|].
  apply Reqb_false in H0. unfold bind.
  destruct (Reqb ((T + 237.3) ^ 2) 0) eqn:H1; [discriminate|].
  intros H. injection H as <-.
  apply py_round_nonneg_0.
  pose proof (Rpower_pos 2.7183 (17.27 * T / (T + 237.3))) as Hp.
  assert (Hsq : 0 < (T + 237.3) ^ 2) by (simpl; nra).
  apply Rmult_le_pos; [nra|]. left. now apply Rinv_0_lt_compat.
Qed.

(** X17.  With a wind speed at 2 m that is positive and an atmospheric
    pressure that is not negative, whatever [eto()] returns is not negative:
    a negative numerator gives 0, and the denominator is not negative. *)
Theorem eto_not_negative (g : Globals) (st : Station) (e : TimeEntry)
    (u p v : R) :
  wind_speed_2m st e = Ok (Some u) -> 0 < u ->
  atmospheric_pressure st e = Ok p -> 0 <= p ->
  eto g st e = Ok v ->
  0 <= v.
Proof.
  intros Hu Hpos Hp Hp0. unfold eto.
  rewrite Hu. unfold bind at 1.
  rewrite (truthy_nonzero u) by lra. simpl negb. cbv iota.
  destruct (Tmean e) as [T|]; [|discriminate].
  destruct (try_raise_str (net_radiation g st e)) as [rn|]; [|discriminate].
  unfold bind at 1.
  destruct (slope_of_saturation_vapour_pressure T) as [s|] eqn:Hs;
    [|discriminate].
  apply slope_nonneg in Hs. unfold bind at 1.
  destruct (soil_heat_flux g st e) as [G|]; [|discriminate].
  unfold bind at 1. unfold bind at 1. simpl num. unfold bind at 1.
  unfold psychrometric_constant. rewrite Hp. unfold bind at 1.
  unfold bind at 1.
  destruct (py_div (air_conductance_coefficient e) (T + 273)) as [c|];
    [|discriminate].
  unfold bind at 1.
  destruct (vapour_pressure_deficit st e) as [vpd|]; [|discriminate].
  unfold bind at 1.
  set (psy := py_round (0.665 * / 10 ^ 3 * p) 6).
  assert (Hpsy : 0 <= psy).
  { apply py_round_nonneg_0. simpl. nra. }
  set (nom := 0.408 * s * (rn - G) + psy * c * u * vpd).
  destruct (Rltb nom 0) eqn:Hn.
  - intros H. injection H as <-. lra.
  - apply Rltb_false in Hn.
    change (p0 <- Ok p;; Ok (py_round (0.665 * / 10 ^ 3 * p0) 6))
      with (Ok psy).
    unfold bind at 1.
    set (den := s + psy * (1 + 0.34 * u)).
    assert (Hden : 0 <= den) by (unfold den; nra).
    unfold py_div.
    destruct (Reqb den 0) eqn:Hd; [discriminate|].
    apply Reqb_false in Hd. unfold bind.
    intros H. injection H as <-.
    apply py_round_nonneg_0.
    apply Rmult_le_pos; [exact Hn|]. left. apply Rinv_0_lt_compat. lra.
Qed.

(** ** A day with temperatures and humidity on the equator *)

Lemma R_so_equator_positive (st : Station) (e : TimeEntry) :
  latitude_rad st = 0 -> (0 <= altitude st)%Z -> class e = DayEntry ->
  exists rso, R_so st e = Ok rso /\ 22 <= rso.
Proof.
  intros Hlat Halt Hc.
  destruct (TimeEntry_R_a_equator st Hlat e) as (ra & Hra & Hb).
  assert (HRa : R_a st e = Ok ra) by (unfold R_a; now rewrite Hc).
  destruct (Z_lt_ge_dec (altitude st) 100) as [Hlow | Hhigh].
  - rewrite (R_so_below_100 st e ra HRa Hlow). eexists. split; [reflexivity|].
    pose proof (py_round_1 (0.75 * ra)). lra.
  - rewrite (R_so_from_100 st e ra HRa ltac:(lia)).
    eexists. split; [reflexivity|].
    assert (100 <= IZR (altitude st)) by (apply IZR_le; lia).
    pose proof (py_round_1 ((0.75 + 2 / 100000 * IZR (altitude st)) * ra)).
    nra.
Qed.

Lemma slope_positive (T : R) :
  0 <= T <= 100 ->
  exists s, slope_of_saturation_vapour_pressure T = Ok s /\ 0.02 <= s.
Proof.
  intros [H0 H1]. unfold slope_of_saturation_vapour_pressure, py_div.
  assert (Hd : Reqb (T + 237.3) 0 = false) by (apply Reqb_false; lra).
  assert (Hsq : 0 < (T + 237.3) ^ 2) by (simpl; nra).
  assert (Hd2 : Reqb ((T + 237.3) ^ 2) 0 = false) by (apply Reqb_false; lra).
  rewrite Hd. unfold bind at 1. rewrite Hd2. unfold bind.
  eexists. split; [reflexivity|].
  replace 0.02 with (IZR 20000 / 10 ^ 6) by (simpl; lra).
  apply py_round_ge_grid.
  assert (Hq : 0 <= 17.27 * T / (T + 237.3)).
  { apply Rmult_le_pos; [lra|]. left. apply Rinv_0_lt_compat. lra. }
  assert (Hp : 1 <= Rpower 2.7183 (17.27 * T / (T + 237.3))).
  { rewrite <- (Rpower_O 2.7183) by lra. apply Rle_Rpower; lra. }
  apply Rmult_le_reg_r with ((T + 237.3) ^ 2); [exact Hsq|].
  replace (4098 * (0.6108 * Rpower 2.7183 (17.27 * T / (T + 237.3)))
           / (T + 237.3) ^ 2 * (T + 237.3) ^ 2)
    with (4098 * (0.6108 * Rpower 2.7183 (17.27 * T / (T + 237.3))))
    by (field; lra).
  simpl. nra.
Qed.

(** A day entry on the equator with both extreme temperatures between 0
    and 100 degrees, a mean humidity and nothing else: every step of
    [eto()] is defined. *)
Lemma eto_defined_equator (g : Globals) (st : Station) (n : Z)
    (tmin tmax h : R) :
  latitude_rad st = 0 -> (0 <= altitude st <= 45076)%Z ->
  climate st = Some Climate_init ->
  0 < tmin -> tmin <= tmax -> tmax <= 100 -> 0 < h ->
  exists v,
    eto g st (observed_day st n (Some tmin) (Some tmax) None (Some h) None)
    = Ok v.
Proof.
  intros Hlat Halt Hcl Hmin Hle Hmax Hh.
  set (e := observed_day st n (Some tmin) (Some tmax) None (Some h) None).
  assert (Hc : class e = DayEntry) by reflexivity.
  assert (Htmin : truthy (Some tmin) = true) by (apply truthy_nonzero; lra).
  assert (Htmax : truthy (Some tmax) = true) by (apply truthy_nonzero; lra).
  assert (Hth : truthy (Some h) = true) by (apply truthy_nonzero; lra).
  (* the ingredients *)
  assert (Hu : wind_speed_2m st e = Ok (Some 2)).
  { unfold wind_speed_2m. simpl wind_speed. simpl truthy. rewrite Hcl.
    reflexivity. }
  assert (HT : Tmean e = Some ((tmax + tmin) / 2)).
  { unfold Tmean. simpl temp_mean. simpl temp_max. simpl temp_min.
    cbv beta iota. simpl (truthy None). cbv iota.
    rewrite Htmin, Htmax. reflexivity. }
  destruct (saturation_vapour_pressure_warm tmin ltac:(lra))
    as (vmin & Hvmin & Hvmin0).
  destruct (saturation_vapour_pressure_warm tmax ltac:(lra))
    as (vmax & Hvmax & Hvmax0).
  set (ea := py_round (h / 100 * ((vmax + vmin) / 2)) 3).
  assert (Hea0 : 0 <= ea).
  { apply py_round_nonneg_0.
    apply Rmult_le_pos; [|lra].
    apply Rmult_le_pos; [lra|]. lra. }
  assert (Havp : actual_vapour_pressure st e = Ok (Some ea)).
  { unfold actual_vapour_pressure.
    simpl vapour_pressure. simpl temp_dry. simpl temp_wet.
    simpl humidity_max. simpl humidity_min. simpl humidity_mean.
    simpl temp_max. simpl temp_min. rewrite Hth, Htmax, Htmin.
    cbn [truthy andb negb]. simpl num.
    unfold bind at 1. unfold bind at 1. unfold bind at 1.
    rewrite Hvmin. unfold bind at 1. rewrite Hvmax. reflexivity. }
  destruct (TimeEntry_R_a_equator st Hlat e) as (ra & Hra & Hrab).
  assert (HRa : R_a st e = Ok ra) by (unfold R_a; now rewrite Hc).
  assert (Hrs : solar_radiation g st e
                = Ok (py_round (0.16 * sqrt (tmax - tmin) * ra) 1)).
  { rewrite (DayEntry_solar_radiation_temperature g st e Climate_init
               tmin tmax ra); try reflexivity; try lra; try assumption.
    now left. }
  set (rs := py_round (0.16 * sqrt (tmax - tmin) * ra) 1) in *.
  destruct (R_so_equator_positive st e Hlat ltac:(lia) Hc)
    as (rso & Hrso & Hrso0).
  assert (Hnl : exists nl, R_nl g st e = Ok nl).
  { unfold R_nl. rewrite Hc. unfold TimeEntry_R_nl.
    simpl temp_max. simpl temp_min. rewrite Htmax, Htmin.
    cbn [andb negb]. simpl num. unfold bind at 1. unfold bind at 1.
    rewrite Havp. unfold bind at 1. rewrite Hrs. unfold bind at 1.
    rewrite Hrso. unfold bind at 1. simpl num. unfold bind at 1.
    unfold py_sqrt, py_div. rbool. unfold bind.
    eexists. reflexivity. }
  destruct Hnl as (nl & Hnl).
  assert (Hrn : exists rn, net_radiation g st e = Ok rn).
  { unfold net_radiation, R_ns. rewrite Hrs. unfold bind at 2.
    unfold bind at 1. rewrite Hnl. eexists. reflexivity. }
  destruct Hrn as (rn & Hrn).
  destruct (slope_positive ((tmax + tmin) / 2) ltac:(lra))
    as (s & Hs & Hs0).
  assert (Hp : exists p, atmospheric_pressure st e = Ok p /\ 0 <= p).
  { unfold atmospheric_pressure. simpl logged_atmospheric_pressure.
    simpl truthy. cbv iota.
    rewrite (Station_atmospheric_pressure_value st Halt).
    eexists. split; [reflexivity|].
    apply py_round_nonneg_0.
    pose proof (Rpower_pos ((293 - 0.0065 * IZR (altitude st)) / 293) 5.26).
    nra. }
  destruct Hp as (p & Hp & Hp0).
  assert (Hvpd : exists vpd, vapour_pressure_deficit st e = Ok vpd).
  { unfold vapour_pressure_deficit, mean_saturation_vapour_pressure.
    simpl temp_max. simpl temp_min. rewrite Htmax, Htmin.
    cbn [andb]. simpl num.
    unfold bind at 2. unfold bind at 2. rewrite Hvmax. unfold bind at 2.
    rewrite Hvmin. unfold bind at 2. unfold bind at 1.
    rewrite Havp. eexists. reflexivity. }
  destruct Hvpd as (vpd & Hvpd).
  (* the assembly *)
  unfold eto. rewrite Hu. unfold bind at 1.
  rewrite (truthy_nonzero 2) by lra. simpl negb. cbv iota.
  rewrite HT, Hrn. unfold try_raise_str. unfold bind at 1.
  rewrite Hs. unfold bind at 1.
  unfold soil_heat_flux. rewrite Hc. unfold bind at 1. unfold bind at 1.
  simpl num. unfold bind at 1.
  unfold psychrometric_constant. rewrite Hp.
  set (psy := py_round (0.665 * / 10 ^ 3 * p) 6).
  assert (Hpsy : 0 <= psy) by (apply py_round_nonneg_0; simpl; nra).
  change (p0 <- Ok p;; Ok (py_round (0.665 * / 10 ^ 3 * p0) 6))
    with (Ok psy).
  unfold bind at 1.
  unfold py_div at 1.
  assert (HdT : Reqb ((tmax + tmin) / 2 + 273) 0 = false)
    by (apply Reqb_false; lra).
  rewrite HdT. unfold bind at 1. rewrite Hvpd. unfold bind at 1.
  match goal with |- context [if ?b then _ else _] => destruct b end.
  - eexists. reflexivity.
  - unfold bind at 1. unfold py_div.
    assert (Hden : Reqb (s + psy * (1 + 0.34 * 2)) 0 = false)
      by (apply Reqb_false; nra).
    rewrite Hden. eexists. reflexivity.
Qed.

Lemma eto_not_negative_witness :
  exists v,
    eto module_globals equator_station
        (observed_day equator_station 1 (Some 10) (Some 26) None (Some 50)
                      None)
    = Ok v
    /\ 0 <= v.
Proof.
  destruct (eto_defined_equator module_globals equator_station 1 10 26 50
              eq_refl ltac:(simpl; lia) eq_refl
              ltac:(lra) ltac:(lra) ltac:(lra) ltac:(lra)) as (v & Hv).
  exists v. split; [exact Hv|].
  apply (eto_not_negative module_globals equator_station
           (observed_day equator_station 1 (Some 10) (Some 26) None
                         (Some 50) None)
           2
           (py_round
              (101.3 * Rpower ((293 - 0.0065 * IZR 0) / 293) 5.26) 2)
           v).
  - reflexivity.
  - lra.
  - apply (Station_atmospheric_pressure_value equator_station).
    simpl. lia.
  - apply py_round_nonneg_0.
    pose proof (Rpower_pos ((293 - 0.0065 * IZR 0) / 293) 5.26). nra.
  - exact Hv.
Defined.

(** X18.  From the constructor to the rate: on a station built with the
    latitude 0.0 and an altitude up to 45076 m, [day_entry] with a day
    number in 1..366, extreme temperatures between 0 and 100 degrees and a
    mean humidity succeeds, and [eto()] of the entry it returns is defined. *)
Theorem eto_defined_from_day_entry (g : Globals) (lon : R) (alt : Z)
    (anem tz : pynum) (st : Station) (n : Z) (tmin tmax h : R) :
  Station_init (PyFloat 0) (PyFloat lon) (PyInt alt) anem tz = Ok st ->
  (alt <= 45076)%Z -> (1 <= n <= 366)%Z ->
  0 < tmin -> tmin <= tmax -> tmax <= 100 -> 0 < h ->
  exists st' e v,
    day_entry g st (DayInt n) (Some tmin) (Some tmax) None None (Some h)
              None None
    = (st', Ok e)
    /\ days st' !! n = Some e
    /\ eto g st' e = Ok v.
Proof.
  intros Hinit Halt Hn Hmin Hle Hmax Hh.
  destruct (Station_init_inv _ _ _ _ _ _ Hinit) as [_ Hrad].
  assert (Hlat : latitude_rad st = 0).
  { rewrite Hrad. replace (PI / 180 * 0) with 0 by ring. apply py_round_0. }
  assert (Hfields : altitude st = alt /\ climate st = Some Climate_init).
  { revert Hinit. unfold Station_init.
    destruct (Rltb 0 (-90) || Rltb 90 0); [discriminate|].
    destruct (Rltb lon 0 || Rltb 360 lon); [discriminate|].
    destruct (alt <? 0)%Z; [discriminate|].
    destruct (Rltb (num_val tz) 0 || Rltb 359 (num_val tz)); [discriminate|].
    intros H. injection H as <-. now split. }
  destruct Hfields as [Ha Hcl].
  assert (Halt0 : (0 <= alt)%Z).
  { revert Hinit. unfold Station_init.
    destruct (Rltb 0 (-90) || Rltb 90 0); [discriminate|].
    destruct (Rltb lon 0 || Rltb 360 lon); [discriminate|].
    destruct (alt <? 0)%Z eqn:H0; [discriminate|].
    intros _. now apply Z.ltb_ge in H0. }
  set (e := observed_day st n (Some tmin) (Some tmax) None (Some h) None).
  destruct (eto_defined_equator g (set_day st n e) n tmin tmax h
              Hlat ltac:(simpl; lia) Hcl Hmin Hle Hmax Hh) as (v & Hv).
  exists (set_day st n e), e, v.
  split; [|split].
  - unfold day_entry. simpl day_number_of.
    rewrite (proj2 (day_range_true n) Hn). reflexivity.
  - simpl. apply lookup_insert_eq.
  - exact Hv.
Qed.

Lemma eto_defined_from_day_entry_witness :
  exists st' e v,
    day_entry module_globals equator_station (DayInt 1)
              (Some 10) (Some 26) None None (Some 50) None None
    = (st', Ok e)
    /\ days st' !! 1%Z = Some e
    /\ eto module_globals st' e = Ok v.
Proof.
  apply (eto_defined_from_day_entry module_globals 300 0 (PyInt 2)
           (PyInt 345) equator_station 1 10 26 50
           (Station_init_equator (PyInt 345) ltac:(simpl; lra)));
    first [lia | lra].
Defined.

(** ** Vapour pressure deficit and relative humidity *)



(** X20.  Round trip through the vapour pressure: with only a mean humidity
    [h] (positive) and a positive mean temperature [T] logged, the relative
    humidity [RH(T)] computed back from the actual vapour pressure is [h] to
    within 0.1 per cent. *)
Theorem RH_of_mean_humidity (st : Station) (e : TimeEntry) (h T : R) :
  vapour_pressure e = None -> temp_dry e = None ->
  humidity_max e = None ->
  temp_min e = None \/ temp_max e = None ->
  humidity_mean e = Some h -> 0 < h ->
  temp_mean e = Some T -> 0 < T ->
  exists r, RH st e T = Ok r /\ h - 0.1 <= r <= h + 0.1.
Proof.
  intros Hvp Hdry Hhmax Hext Hh Hh0 HT HT0.
  destruct (saturation_vapour_pressure_warm T ltac:(lra))
    as (vs & Hvs & Hvs0).
  assert (Hth : truthy (Some h) = true) by (apply truthy_nonzero; lra).
  assert (HtT : truthy (Some T) = true) by (apply truthy_nonzero; lra).
  set (ea := py_round (h / 100 * vs) 3).
  assert (Hext' : truthy (temp_max e) && truthy (temp_min e) = false).
  { destruct Hext as [-> | ->]; [apply andb_false_r | reflexivity]. }
  assert (Havp : actual_vapour_pressure st e = Ok (Some ea)).
  { unfold actual_vapour_pressure.
    rewrite Hvp, Hdry, Hhmax, Hh, HT, Hth, HtT.
    cbn [truthy andb negb].
    rewrite Hext'. cbn [andb]. simpl num.
    unfold bind at 1. unfold bind at 1. rewrite Hvs. reflexivity. }
  unfold RH. rewrite Havp. unfold bind at 1. rewrite Hvs. unfold bind at 1.
  simpl num. unfold bind at 1. unfold py_div.
  assert (Hnz : Reqb vs 0 = false) by (apply Reqb_false; lra).
  rewrite Hnz. unfold bind.
  eexists. split; [reflexivity|].
  pose proof (py_round_3 (h / 100 * vs)) as [Hlo Hup]. fold ea in Hlo, Hup.
  pose proof (py_round_3 (100 * (ea / vs))) as [Hlo' Hup'].
  assert (Hinv : 0 < / vs <= 1.64).
  { split; [apply Rinv_0_lt_compat; lra|].
    apply Rmult_le_reg_r with vs; [lra|].
    rewrite Rinv_l by lra. lra. }
  assert (Hq : h - 0.082 <= 100 * (ea / vs) <= h + 0.082).
  { replace (100 * (ea / vs))
      with (h + 100 * (ea - h / 100 * vs) * / vs) by (field; lra).
    destruct Hinv as [Hi0 Hi1].
    assert (-0.05 <= 100 * (ea - h / 100 * vs) <= 0.05) by lra.
    split; nra. }
  lra.
Qed.

Lemma RH_of_mean_humidity_witness :
  exists r,
    RH equator_station
       (observed_day equator_station 1 None None (Some 20) (Some 50) None)
       20
    = Ok r
    /\ 50 - 0.1 <= r <= 50 + 0.1.
Proof.
  apply (RH_of_mean_humidity equator_station
           (observed_day equator_station 1 None None (Some 20) (Some 50)
                         None)
           50 20 eq_refl eq_refl eq_refl (or_introl eq_refl) eq_refl
           ltac:(lra) eq_refl ltac:(lra)).
Defined.

(** ** Hour entries and the soil temperature *)

Lemma hour_entry_Ok_inv (g : Globals) (st st' : Station) (t : datetime)
    (tmin tmax tmean wind hmean rad : option R) (e : TimeEntry) :
  hour_entry g st t tmin tmax tmean wind hmean rad = (st', Ok e) ->
  class e = HourEntry /\ temp_soil e = None
  /\ climate st' = climate st
  /\ anemometer_height st' = anemometer_height st.
Proof.
  unfold hour_entry.
  match goal with
  | |- match ?c with _ => _ end = _ -> _ => destruct c as [h|err] eqn:Hc
  end; [|discriminate].
  intros H. injection H as <- <-.
  assert (Hh : class h = HourEntry /\ temp_soil h = None).
  { destruct (truthy rad); [|injection Hc as <-; split; reflexivity].
    destruct (CHECK_RADIATION_RANGE g);
      [|injection Hc as <-; split; reflexivity].
    destruct (num rad) as [rs|]; [|discriminate]. unfold bind at 1 in Hc.
    match type of Hc with
    | context [R_so ?s ?x] => destruct (R_so s x) as [rso|]; [|discriminate]
    end.
    unfold bind in Hc.
    destruct (Rltb _ _); [|discriminate].
    injection Hc as <-. split; reflexivity. }
  destruct Hh as [H1 H2]. repeat split; try assumption; reflexivity.
Qed.

Lemma net_radiation_without_soil_temperature (g : Globals) (st : Station)
    (e : TimeEntry) :
  class e = HourEntry -> temp_soil e = None ->
  exists err, net_radiation g st e = Raise err.
Proof.
  intros Hc Hs. unfold net_radiation.
  destruct (R_ns g st e) as [ns|err]; [|now exists err].
  unfold bind at 1. unfold R_nl. rewrite Hc. unfold HourEntry_R_nl.
  rewrite Hs. simpl. eexists. reflexivity.
Qed.

(** X21.  [hour_entry] never sets the soil temperature, and [HourEntry.R_nl]
    needs it: on the entry a successful [hour_entry] returns, with a wind
    speed at 2 m that is not 0, the Penman-Monteith branch of [eto()] never
    gives a value. Without a mean temperature it raises the [Exception] of
    the missing temperature, and with one the [TypeError] of
    [raise(str(e))]. *)
Theorem hour_entry_eto_needs_soil_temperature (g : Globals)
    (st st' : Station) (t : datetime)
    (tmin tmax tmean wind hmean rad : option R) (e : TimeEntry) (u : R) :
  hour_entry g st t tmin tmax tmean wind hmean rad = (st', Ok e) ->
  wind_speed_2m st' e = Ok (Some u) -> u <> 0 ->
  temp_soil e = None
  /\ (Tmean e = None ->
        eto g st' e
        = Raise (PyException
                   (Lit "Cannot calculate eto(): temp_mean (mean temperature) is missing")))
  /\ (forall T, Tmean e = Some T -> eto g st' e = Raise raise_str).
Proof.
  intros Hh Hu Hnz.
  destruct (hour_entry_Ok_inv _ _ _ _ _ _ _ _ _ _ _ Hh) as (Hc & Hs & _).
  split; [exact Hs|]. split.
  - intros HT. unfold eto. rewrite Hu. unfold bind at 1.
    rewrite (truthy_nonzero u Hnz). simpl negb. cbv iota.
    rewrite HT. reflexivity.
  - intros T HT.
    destruct (net_radiation_without_soil_temperature g st' e Hc Hs)
      as [err Herr].
    exact (eto_net_radiation_error g st' e u T err Hu Hnz HT Herr).
Qed.

Lemma hour_entry_eto_needs_soil_temperature_witness :
  temp_soil (observed_hour equator_station late_evening
                           None None (Some 20) None None) = None
  /\ eto module_globals
         (set_hour equator_station 438311
            (observed_hour equator_station late_evening
                           None None (Some 20) None None))
         (observed_hour equator_station late_evening
                        None None (Some 20) None None)
     = Raise raise_str.
Proof.
  destruct (hour_entry_eto_needs_soil_temperature module_globals
              equator_station
              (set_hour equator_station 438311
                 (observed_hour equator_station late_evening
                                None None (Some 20) None None))
              late_evening None None (Some 20) None None None
              (observed_hour equator_station late_evening
                             None None (Some 20) None None)
              2)
    as (H1 & _ & H3).
  - reflexivity.
  - unfold wind_speed_2m. simpl. reflexivity.
  - lra.
  - split; [exact H1 | apply (H3 20)].
    unfold Tmean. simpl temp_mean.
    rewrite (truthy_nonzero 20) by lra. reflexivity.
Defined.

(** ** The vapour pressure estimated from the climate *)



